(** * PollSpace: the notification fan-out subsystem

    A shallow embedding of the notification code of the PollSpace polling
    application:

    - [Backend]: the Express handlers of [backend/server.js] that trigger
      notifications, the [createNotification] helper, the notification
      REST routes and the Socket.IO room handlers;
    - [Frontend]: the reducer of [frontend/src/context/NotificationContext.js]
      and the priority table of [frontend/src/services/NotificationService.js];
    - [Routes]: the other routes of the notification store, the route that
      reads a poll, the Socket.IO handshake and the routing table of
      [backend/server.js];
    - [Service]: the rest of [NotificationService.js] and the token check of
      [frontend/src/utils/tokenUtils.js];
    - [Provider]: the provider of [NotificationContext.js], with its
      requests served by the routes.

    Handlers are written in a small state-and-exception monad over a
    [World] (the MongoDB collections, the Socket.IO registry and the trace of
    observable effects).  What the environment decides (which database call
    rejects, the clock, the random identifiers) is read from an [Env]. *)

From Stdlib Require Import ZArith List String Ascii Bool Lia Permutation Sorted DecimalString.
From stdpp Require Import gmap strings.
Import ListNotations.

Local Open Scope string_scope.
Local Open Scope Z_scope.

(** ** JavaScript values and coercions *)

Module Js.

(** A string is held as the sequence of its UTF-16 code units, one [ascii]
    for each; the model has the strings whose code units are below 256.  A
    number is an IEEE double; the model has the integers among them. *)

(** What a client can put in a socket event argument (a deserialised JSON
    value, or nothing).  [VOther] stands for objects and arrays, with the
    text a template literal renders for them. *)
Inductive value : Type :=
| VUndefined
| VNull
| VBool (b : bool)
| VNumber (z : Z)
| VString (s : string)
| VOther (rendering : string).

(** [n.toString()] for an integer. *)
Definition decimal (z : Z) : string := NilZero.string_of_int (Z.to_int z).

(** [`${v}`] *)
Definition to_string (v : value) : string :=
  match v with
  | VUndefined => "undefined"
  | VNull => "null"
  | VBool true => "true"
  | VBool false => "false"
  | VNumber z => decimal z
  | VString s => s
  | VOther r => r
  end.

(** [a === b]; a deserialised object is identical to nothing the server
    holds. *)
Definition strict_eq (a b : value) : bool :=
  match a, b with
  | VUndefined, VUndefined => true
  | VNull, VNull => true
  | VBool x, VBool y => Bool.eqb x y
  | VNumber x, VNumber y => Z.eqb x y
  | VString x, VString y => String.eqb x y
  | _, _ => false
  end.

(** A property that may be absent: [None] is [undefined]. *)
Definition of_option (o : option string) : value :=
  match o with
  | Some s => VString s
  | None => VUndefined
  end.

(** Truthiness of a string-or-undefined property. *)
Definition truthy (o : option string) : bool :=
  match o with
  | Some s => negb (String.eqb s EmptyString)
  | None => false
  end.

(** [o || d] on a string-or-undefined property. *)
Definition or_else (o : option string) (d : string) : string :=
  match o with
  | Some s => if String.eqb s EmptyString then d else s
  | None => d
  end.

(** The white space and line terminators of the language among the code
    units below 256: tab to carriage return (9 to 13), space (32) and
    no-break space (160). *)
Definition is_space (c : ascii) : bool :=
  let n := nat_of_ascii c in
  (Nat.eqb n 32 || (Nat.leb 9 n && Nat.leb n 13) || Nat.eqb n 160)%bool.

Fixpoint trim_start (s : string) : string :=
  match s with
  | String c rest => if is_space c then trim_start rest else s
  | EmptyString => EmptyString
  end.

Fixpoint trim_end (s : string) : string :=
  match s with
  | String c rest =>
      match trim_end rest with
      | EmptyString => if is_space c then EmptyString else String c EmptyString
      | r => String c r
      end
  | EmptyString => EmptyString
  end.

(** [s.trim()] *)
Definition trim (s : string) : string := trim_end (trim_start s).

(** The double nearest to the integer [y], the one with the even
    significand when two are as near: an integer of magnitude below [2^53]
    is a double; from there on the doubles are the multiples of the power of
    two that leaves a significand of 53 bits. *)
Definition round53 (y : Z) : Z :=
  let a := Z.abs y in
  if a <? 2 ^ 53 then y
  else
    let unit := 2 ^ (Z.log2 a - 52) in
    let q := a / unit in
    let r := a mod unit in
    let q' :=
      if 2 * r <? unit then q
      else if unit <? 2 * r then q + 1
      else if Z.even q then q else q + 1 in
    Z.sgn y * (q' * unit).

(** [x + y] on integer-valued numbers: the exact sum, rounded. *)
Definition plus (x y : Z) : Z := round53 (x + y).

(** [Number.isSafeInteger] *)
Definition isSafeInteger (z : Z) : bool := Z.abs z <=? 2 ^ 53 - 1.

(** The names of the members of [Object.prototype], which an object
    literal has without holding them: looked up on a literal, such a name
    finds the inherited member. *)
Definition inherited_names : list string :=
  ["constructor"; "__defineGetter__"; "__defineSetter__"; "hasOwnProperty";
   "__lookupGetter__"; "__lookupSetter__"; "isPrototypeOf"; "propertyIsEnumerable";
   "toString"; "valueOf"; "__proto__"; "toLocaleString"].

Definition inherited (name : string) : bool :=
  List.existsb (String.eqb name) inherited_names.

End Js.

(** ** The client: reducer and priority table *)

Module Frontend.

(** An entry of the notification list held by the client.  [n_read] is
    the [read] alias the list route adds; a pushed document has none. *)
Record Notification : Type := mkNotification {
  n_id : string;
  n_userId : string;
  n_type : string;
  n_message : string;
  n_priority : string;
  n_isRead : bool;
  n_read : option bool;
  n_timestamp : Z
}.

(** The payload of ADD_NOTIFICATION: the object pushed by the server or
    handed to [addNotification].  [id] and [timestamp] may be missing; the
    time stamp is an ISO string or a Date, held here as epoch
    milliseconds. *)
Record Pushed : Type := mkPushed {
  p_id : option string;
  p_userId : string;
  p_type : string;
  p_message : string;
  p_priority : string;
  p_isRead : bool;
  p_read : option bool;
  p_timestamp : option Z
}.

Record State : Type := mkState {
  notifications : list Notification;
  unreadCount : Z;
  loading : bool;
  error : option string;
  connected : bool
}.

Inductive Action : Type :=
| SET_NOTIFICATIONS (payload : list Notification)
| ADD_NOTIFICATION (payload : Pushed)
| MARK_AS_READ (id : string)
| MARK_ALL_AS_READ
| DELETE_NOTIFICATION (id : string)
| CLEAR_ALL
| SET_LOADING (payload : bool)
| SET_ERROR (payload : option string)
| UPDATE_UNREAD_COUNT (payload : Z)
| UNKNOWN_ACTION.

Definition initialState : State :=
  {| notifications := []; unreadCount := 0; loading := false;
     error := None; connected := false |}.

(** [list.filter(n => !n.isRead).length] *)
Definition unread (l : list Notification) : Z :=
  Z.of_nat (length (List.filter (fun n => negb (n_isRead n)) l)).

Definition set_isRead (b : bool) (n : Notification) : Notification :=
  {| n_id := n_id n; n_userId := n_userId n; n_type := n_type n;
     n_message := n_message n; n_priority := n_priority n;
     n_isRead := b; n_read := n_read n; n_timestamp := n_timestamp n |}.

(** The object literal of the ADD_NOTIFICATION case; [now] is the clock
    reading of [Date.now()] and [new Date()]. *)
Definition newNotification (now : Z) (payload : Pushed) : Notification :=
  {| n_id := Js.or_else (p_id payload) (Js.decimal now);
     n_userId := p_userId payload;
     n_type := p_type payload;
     n_message := p_message payload;
     n_priority := p_priority payload;
     n_isRead := false;
     n_read := p_read payload;
     n_timestamp := match p_timestamp payload with
                    | Some t => t
                    | None => now
                    end |}.

Definition notificationReducer (now : Z) (state : State) (action : Action) : State :=
  match action with
  | SET_NOTIFICATIONS payload =>
      let unreadCount := unread payload in
      {| notifications := payload; unreadCount := unreadCount;
         loading := false; error := None; connected := connected state |}
  | ADD_NOTIFICATION payload =>
      {| notifications := newNotification now payload :: notifications state;
         unreadCount := unreadCount state + 1;
         loading := loading state; error := error state;
         connected := connected state |}
  | MARK_AS_READ id =>
      let updatedNotifications :=
        List.map (fun notification =>
                    if String.eqb (n_id notification) id
                    then set_isRead true notification
                    else notification)
                 (notifications state) in
      let newUnreadCount := unread updatedNotifications in
      {| notifications := updatedNotifications; unreadCount := newUnreadCount;
         loading := loading state; error := error state;
         connected := connected state |}
  | MARK_ALL_AS_READ =>
      {| notifications := List.map (set_isRead true) (notifications state);
         unreadCount := 0;
         loading := loading state; error := error state;
         connected := connected state |}
  | DELETE_NOTIFICATION id =>
      let filteredNotifications :=
        List.filter (fun notification => negb (String.eqb (n_id notification) id))
                    (notifications state) in
      let remainingUnreadCount := unread filteredNotifications in
      {| notifications := filteredNotifications;
         unreadCount := remainingUnreadCount;
         loading := loading state; error := error state;
         connected := connected state |}
  | CLEAR_ALL =>
      {| notifications := []; unreadCount := 0;
         loading := loading state; error := error state;
         connected := connected state |}
  | SET_LOADING payload =>
      {| notifications := notifications state; unreadCount := unreadCount state;
         loading := payload; error := error state;
         connected := connected state |}
  | SET_ERROR payload =>
      {| notifications := notifications state; unreadCount := unreadCount state;
         loading := false; error := payload;
         connected := connected state |}
  | UPDATE_UNREAD_COUNT payload =>
      {| notifications := notifications state; unreadCount := payload;
         loading := loading state; error := error state;
         connected := connected state |}
  | UNKNOWN_ACTION => state
  end.

(** The actions dispatched one after the other, each at its clock
    reading. *)
Fixpoint dispatch_all (state : State) (actions : list (Z * Action)) : State :=
  match actions with
  | [] => state
  | (now, a) :: rest => dispatch_all (notificationReducer now state a) rest
  end.

(** [NotificationService.getNotificationPriority]; the cases name the
    constants of NOTIFICATION_TYPES. *)
Definition getNotificationPriority (type : string) : string :=
  if String.eqb type "system" then "high"
  else if String.eqb type "reply" then "medium"
  else if String.eqb type "comment" then "medium"
  else if String.eqb type "vote" then "low"
  else if String.eqb type "comment_like" then "low"
  else if String.eqb type "poll_created" then "low"
  else if String.eqb type "poll_closed" then "medium"
  else "low".

(** The one action that the provider never dispatches. *)
Definition is_count_update (a : Action) : bool :=
  match a with
  | UPDATE_UNREAD_COUNT _ => true
  | _ => false
  end.

(** How far the stored counter is from the count derived from the list. *)
Definition drift (state : State) : Z :=
  unreadCount state - unread (notifications state).

End Frontend.

(** ** The server *)

Module Backend.

(** *** Documents (the Mongoose schemas) *)

(** [req.user]: the payload of a verified token. *)
Record AuthUser : Type := mkAuthUser {
  au_id : string;
  au_username : string;
  au_email : string
}.

Record User : Type := mkUser {
  user_id : string;
  user_username : string;
  polls_created : list string;
  polls_voted : list string
}.

Record PollOption : Type := mkPollOption {
  opt_id : string;
  opt_text : string;
  opt_votes : Z
}.

Record Poll : Type := mkPoll {
  poll_id : string;
  title : string;
  description : string;
  options : list PollOption;
  status : string;
  ends_at : option Z;
  allow_multiple_votes : bool;
  total_votes : Z;
  category : string;
  comments_count : Z;
  manual_status_override : bool;
  creator : string
}.

Record Vote : Type := mkVote {
  vote_id : string;
  vote_poll_id : string;
  vote_option_id : string;
  voter_email : string;
  vote_user : string
}.

Record Comment : Type := mkComment {
  comment_id : string;
  comment_poll_id : string;
  content : string;
  parent_comment_id : option string;
  author_email : string;
  author_username : string;
  likes : Z;
  liked_by : list string;
  comment_user : string;
  replies : list string;
  comment_createdAt : Z
}.

(** The [data] argument of [createNotification]; an absent property is
    [None]. *)
Record NotificationData : Type := mkData {
  pollId : option string;
  commentId : option string;
  voterName : option string;
  commenterName : option string;
  replierName : option string;
  likerName : option string;
  pollTitle : option string;
  reason : option string;
  data_message : option string
}.

Definition no_data : NotificationData :=
  {| pollId := None; commentId := None; voterName := None;
     commenterName := None; replierName := None; likerName := None;
     pollTitle := None; reason := None; data_message := None |}.

Record Notification : Type := mkNotification {
  n_id : string;
  n_userId : string;
  n_type : string;
  n_message : string;
  n_data : NotificationData;
  n_isRead : bool;
  n_priority : string;
  n_timestamp : Z
}.

(** The collections, each in insertion order. *)
Record Db : Type := mkDb {
  users : list User;
  polls : list Poll;
  votes : list Vote;
  comments : list Comment;
  notifications : list Notification
}.

(** *** Socket.IO registry *)

(** A connected socket: [socket.user?.id], [socket.user.username] and the
    rooms the handlers below joined it to.  (The room Socket.IO itself
    keeps per socket id is not in the handlers and not in the model.) *)
Record Socket : Type := mkSocket {
  sock_user_id : option string;
  sock_username : string;
  rooms : gset string
}.

(** *** Observable effects *)

Inductive DbOp : Type :=
| PollFindOne | PollFind | PollSave
| VoteFindOne | VoteSave
| UserFindOneAndUpdate
| CommentFindOne | CommentSave | CommentFindOneAndUpdate
| CommentCountDocuments
| NotificationSave | NotificationFind | NotificationFindOneAndUpdate.

(** A document of the list route: the stored fields and the [read]
    alias. *)
Record NotificationView : Type := mkView {
  view_doc : Notification;
  view_read : bool
}.

Inductive Payload : Type :=
| PNone
| PPoll (p : Poll)
| PComment (c : Comment)
| PNotification (n : Notification)
| PNotifications (l : list NotificationView)
| PNotificationRead (notificationId : string)
| PLikes (likes : Z) (hasLiked : bool)
| PLikeUpdate (commentId : string) (likes : Z) (hasLiked : bool) (userId : string)
| PPollClosed (pollId : string) (title : string) (message : string)
| PCount (count : Z).

(** One entry per completed write and per message leaving the server, in
    program order.  [Emit None] is [io.emit] (every socket), [Emit (Some r)]
    is [io.to(r).emit]; [receivers] are the sockets in the room at that
    moment. *)
Inductive Event : Type :=
| Wrote (op : DbOp) (docId : string)
| Emit (room : option string) (event : string) (payload : Payload)
       (receivers : gset string)
| Respond (code : Z) (text : string) (payload : Payload).

Record World : Type := mkWorld {
  db : Db;
  sockets : gmap string Socket;
  trace : list Event;
  next_id : nat;
  calls : nat
}.

(** What the handlers do not control: [rejects op k] tells whether the
    database call of kind [op], the [k]th call since the start, rejects
    (connection loss, validation or index error); [now] is the clock;
    [fresh k] is the [k]th result of [generateId]. *)
Record Env : Type := mkEnv {
  rejects : DbOp -> nat -> bool;
  now : Z;
  fresh : nat -> string
}.

(** *** The monad of handlers *)

Inductive Outcome (A : Type) : Type :=
| Ok (a : A)
| Thrown.
Arguments Ok {A} a.
Arguments Thrown {A}.

Definition M (A : Type) : Type := Env -> World -> Outcome A * World.

Definition ret {A} (a : A) : M A := fun _ w => (Ok a, w).

Definition bind {A B} (c : M A) (k : A -> M B) : M B :=
  fun e w =>
    match c e w with
    | (Ok a, w') => k a e w'
    | (Thrown, w') => (Thrown, w')
    end.

(** [try { c } catch (error) { h }]: what [c] did before throwing
    stays done. *)
Definition try_catch {A} (c : M A) (h : M A) : M A :=
  fun e w =>
    match c e w with
    | (Ok a, w') => (Ok a, w')
    | (Thrown, w') => h e w'
    end.

Declare Scope handler_scope.
Delimit Scope handler_scope with handler.
Notation "x <- c ;; k" := (bind c (fun x => k))
  (at level 100, c at next level, right associativity) : handler_scope.
Notation "c ;; k" := (bind c (fun _ => k))
  (at level 100, right associativity) : handler_scope.
Local Open Scope handler_scope.

Definition when (b : bool) (c : M unit) : M unit :=
  if b then c else ret tt.

Fixpoint for_each {A} (l : list A) (body : A -> M unit) : M unit :=
  match l with
  | [] => ret tt
  | x :: rest => body x ;; for_each rest body
  end.

Fixpoint map_m {A B} (f : A -> M B) (l : list A) : M (list B) :=
  match l with
  | [] => ret []
  | x :: rest => y <- f x ;; ys <- map_m f rest ;; ret (y :: ys)
  end.

(** *** Primitive effects *)

Definition with_db (d : Db) (w : World) : World :=
  {| db := d; sockets := sockets w; trace := trace w;
     next_id := next_id w; calls := calls w |}.

Definition with_sockets (s : gmap string Socket) (w : World) : World :=
  {| db := db w; sockets := s; trace := trace w;
     next_id := next_id w; calls := calls w |}.

Definition record (ev : Event) (w : World) : World :=
  {| db := db w; sockets := sockets w; trace := trace w ++ [ev];
     next_id := next_id w; calls := calls w |}.

Definition count_call (w : World) : World :=
  {| db := db w; sockets := sockets w; trace := trace w;
     next_id := next_id w; calls := S (calls w) |}.

(** The round trip of one Mongoose call: it counts, and it throws when
    the environment rejects it. *)
Definition db_call (op : DbOp) : M unit :=
  fun e w =>
    if rejects e op (calls w) then (Thrown, count_call w)
    else (Ok tt, count_call w).

Definition get_db : M Db := fun _ w => (Ok (db w), w).
Definition put_db (d : Db) : M unit := fun _ w => (Ok tt, with_db d w).
Definition log (ev : Event) : M unit := fun _ w => (Ok tt, record ev w).

(** [Date.now()] / [new Date()] *)
Definition date_now : M Z := fun e w => (Ok (now e), w).

Definition generateId : M string :=
  fun e w =>
    (Ok (fresh e (next_id w)),
     {| db := db w; sockets := sockets w; trace := trace w;
        next_id := S (next_id w); calls := calls w |}).

(** [res.status(code).json(...)] *)
Definition respond (code : Z) (text : string) (payload : Payload) : M unit :=
  log (Respond code text payload).

(** The sockets that are in [room]. *)
Definition members (room : string) (s : gmap string Socket) : gset string :=
  dom (filter (fun kv => room ∈ rooms kv.2) s).

(** [io.to(room).emit(event, payload)] *)
Definition io_to_emit (room : string) (event : string) (payload : Payload) : M unit :=
  fun e w => log (Emit (Some room) event payload (members room (sockets w))) e w.

(** [io.emit(event, payload)] *)
Definition io_emit (event : string) (payload : Payload) : M unit :=
  fun e w => log (Emit None event payload (dom (sockets w))) e w.

(** *** Mongoose calls *)

(** The first element that passes [test] is replaced by its image. *)
Fixpoint update_first {A} (test : A -> bool) (f : A -> A) (l : list A) : list A :=
  match l with
  | [] => []
  | x :: rest => if test x then f x :: rest else x :: update_first test f rest
  end.

Definition set_users (l : list User) (d : Db) : Db :=
  {| users := l; polls := polls d; votes := votes d;
     comments := comments d; notifications := notifications d |}.
Definition set_polls (l : list Poll) (d : Db) : Db :=
  {| users := users d; polls := l; votes := votes d;
     comments := comments d; notifications := notifications d |}.
Definition set_votes (l : list Vote) (d : Db) : Db :=
  {| users := users d; polls := polls d; votes := l;
     comments := comments d; notifications := notifications d |}.
Definition set_comments (l : list Comment) (d : Db) : Db :=
  {| users := users d; polls := polls d; votes := votes d;
     comments := l; notifications := notifications d |}.
Definition set_notifications (l : list Notification) (d : Db) : Db :=
  {| users := users d; polls := polls d; votes := votes d;
     comments := comments d; notifications := l |}.

Definition has_poll_id (id : string) (p : Poll) : bool := String.eqb (poll_id p) id.
Definition has_comment_id (id : string) (c : Comment) : bool :=
  String.eqb (comment_id c) id.

(** [Poll.findOne({ id })] *)
Definition Poll_findOne (id : string) : M (option Poll) :=
  db_call PollFindOne ;;
  d <- get_db ;;
  ret (List.find (has_poll_id id) (polls d)).

(** [new Poll({...}).save()] *)
Definition Poll_create (p : Poll) : M unit :=
  db_call PollSave ;;
  d <- get_db ;;
  put_db (set_polls (polls d ++ [p]) d) ;;
  log (Wrote PollSave (poll_id p)).

(** [poll.save()] on a document that was read with [findOne]. *)
Definition Poll_save (p : Poll) : M unit :=
  db_call PollSave ;;
  d <- get_db ;;
  put_db (set_polls (update_first (has_poll_id (poll_id p)) (fun _ => p) (polls d)) d) ;;
  log (Wrote PollSave (poll_id p)).

(** [Poll.find({ status: 'active', ends_at: { $lte: currentTime } })] *)
Definition Poll_find_expired (currentTime : Z) : M (list Poll) :=
  db_call PollFind ;;
  d <- get_db ;;
  ret (List.filter
         (fun p => String.eqb (status p) "active" &&
                   match ends_at p with
                   | Some t => Z.leb t currentTime
                   | None => false
                   end)%bool
         (polls d)).

(** [Vote.findOne({ user, poll_id })] *)
Definition Vote_findOne (user : string) (pollId : string) : M (option Vote) :=
  db_call VoteFindOne ;;
  d <- get_db ;;
  ret (List.find (fun v => String.eqb (vote_user v) user &&
                           String.eqb (vote_poll_id v) pollId)%bool
                 (votes d)).

Definition Vote_create (v : Vote) : M unit :=
  db_call VoteSave ;;
  d <- get_db ;;
  put_db (set_votes (votes d ++ [v]) d) ;;
  log (Wrote VoteSave (vote_id v)).

(** [User.findOneAndUpdate({ id }, update)]; the result is not used. *)
Definition User_findOneAndUpdate (id : string) (update : User -> User) : M unit :=
  db_call UserFindOneAndUpdate ;;
  d <- get_db ;;
  put_db (set_users (update_first (fun u => String.eqb (user_id u) id) update (users d)) d) ;;
  log (Wrote UserFindOneAndUpdate id).

(** [{ $push: { polls_created: pollId } }] *)
Definition push_polls_created (pollId : string) (u : User) : User :=
  {| user_id := user_id u; user_username := user_username u;
     polls_created := polls_created u ++ [pollId];
     polls_voted := polls_voted u |}.

(** [{ $addToSet: { polls_voted: pollId } }] *)
Definition addToSet_polls_voted (pollId : string) (u : User) : User :=
  {| user_id := user_id u; user_username := user_username u;
     polls_created := polls_created u;
     polls_voted := if existsb (String.eqb pollId) (polls_voted u)
                    then polls_voted u
                    else polls_voted u ++ [pollId] |}.

(** [Comment.findOne({ id })] *)
Definition Comment_findOne (id : string) : M (option Comment) :=
  db_call CommentFindOne ;;
  d <- get_db ;;
  ret (List.find (has_comment_id id) (comments d)).

Definition option_string_eqb (a b : option string) : bool :=
  match a, b with
  | Some x, Some y => String.eqb x y
  | None, None => true
  | _, _ => false
  end.

(** [Comment.findOne({ user, poll_id, content, parent_comment_id,
    createdAt: { $gte: since } })] *)
Definition Comment_findOne_recent (user pollId text : string)
    (parent : option string) (since : Z) : M (option Comment) :=
  db_call CommentFindOne ;;
  d <- get_db ;;
  ret (List.find (fun c => String.eqb (comment_user c) user &&
                           String.eqb (comment_poll_id c) pollId &&
                           String.eqb (content c) text &&
                           option_string_eqb (parent_comment_id c) parent &&
                           Z.leb since (comment_createdAt c))%bool
                 (comments d)).

Definition Comment_create (c : Comment) : M unit :=
  db_call CommentSave ;;
  d <- get_db ;;
  put_db (set_comments (comments d ++ [c]) d) ;;
  log (Wrote CommentSave (comment_id c)).

(** [comment.save()] on a document that was read with [findOne]. *)
Definition Comment_save (c : Comment) : M unit :=
  db_call CommentSave ;;
  d <- get_db ;;
  put_db (set_comments
            (update_first (has_comment_id (comment_id c)) (fun _ => c) (comments d)) d) ;;
  log (Wrote CommentSave (comment_id c)).

Definition Comment_findOneAndUpdate (id : string) (update : Comment -> Comment) : M unit :=
  db_call CommentFindOneAndUpdate ;;
  d <- get_db ;;
  put_db (set_comments (update_first (has_comment_id id) update (comments d)) d) ;;
  log (Wrote CommentFindOneAndUpdate id).

(** [{ $push: { replies: replyId } }] *)
Definition push_reply (replyId : string) (c : Comment) : Comment :=
  {| comment_id := comment_id c; comment_poll_id := comment_poll_id c;
     content := content c; parent_comment_id := parent_comment_id c;
     author_email := author_email c; author_username := author_username c;
     likes := likes c; liked_by := liked_by c; comment_user := comment_user c;
     replies := replies c ++ [replyId];
     comment_createdAt := comment_createdAt c |}.

(** [Comment.countDocuments({ poll_id })] *)
Definition Comment_countDocuments (pollId : string) : M Z :=
  db_call CommentCountDocuments ;;
  d <- get_db ;;
  ret (Z.of_nat (length (List.filter
                           (fun c => String.eqb (comment_poll_id c) pollId)
                           (comments d)))).

(** [notification.save()] of a new document; the stored document is
    returned. *)
Definition Notification_save (n : Notification) : M Notification :=
  db_call NotificationSave ;;
  d <- get_db ;;
  put_db (set_notifications (notifications d ++ [n]) d) ;;
  log (Wrote NotificationSave (n_id n)) ;;
  ret n.

(** *** The notification store queries *)

(** The filter object of the list route. *)
Record NotificationQuery : Type := mkQuery {
  query_userId : string;
  query_type : option string;
  query_priority : option string;
  query_isRead : option bool
}.

Definition matches (q : NotificationQuery) (n : Notification) : bool :=
  (String.eqb (n_userId n) (query_userId q) &&
   match query_type q with
   | Some t => String.eqb (n_type n) t
   | None => true
   end &&
   match query_priority q with
   | Some p => String.eqb (n_priority n) p
   | None => true
   end &&
   match query_isRead q with
   | Some b => Bool.eqb (n_isRead n) b
   | None => true
   end)%bool.

(** [.sort({ timestamp: -1 })]: most recent first, equal time stamps in
    store order. *)
Fixpoint insert_desc (n : Notification) (l : list Notification) : list Notification :=
  match l with
  | [] => [n]
  | m :: rest =>
      if Z.ltb (n_timestamp m) (n_timestamp n) then n :: l
      else m :: insert_desc n rest
  end.

Definition sort_desc (l : list Notification) : list Notification :=
  List.fold_right insert_desc [] l.

(** The order of a list that is sorted most recent first. *)
Definition newer_first (a b : Notification) : Prop :=
  n_timestamp b <= n_timestamp a.

(** [.limit(k)]; zero asks for no limit. *)
Definition limit (k : nat) (l : list Notification) : list Notification :=
  match k with
  | O => l
  | _ => firstn k l
  end.

(** [Notification.find(query).sort({ timestamp: -1 }).limit(k).lean()] *)
Definition Notification_find (q : NotificationQuery) (k : nat) : M (list Notification) :=
  db_call NotificationFind ;;
  d <- get_db ;;
  ret (limit k (sort_desc (List.filter (matches q) (notifications d)))).

Definition owned_by (id userId : string) (n : Notification) : bool :=
  (String.eqb (n_id n) id && String.eqb (n_userId n) userId)%bool.

Definition set_isRead (b : bool) (n : Notification) : Notification :=
  {| n_id := n_id n; n_userId := n_userId n; n_type := n_type n;
     n_message := n_message n; n_data := n_data n; n_isRead := b;
     n_priority := n_priority n; n_timestamp := n_timestamp n |}.

(** [Notification.findOneAndUpdate({ id, userId }, { isRead: true },
    { new: true })]: the updated document, or null. *)
Definition Notification_findOneAndUpdate (id userId : string) : M (option Notification) :=
  db_call NotificationFindOneAndUpdate ;;
  d <- get_db ;;
  match List.find (owned_by id userId) (notifications d) with
  | Some n =>
      put_db (set_notifications
                (update_first (owned_by id userId) (set_isRead true) (notifications d)) d) ;;
      log (Wrote NotificationFindOneAndUpdate id) ;;
      ret (Some (set_isRead true n))
  | None => ret None
  end.

(** *** The notification helper *)

(** The double quote character. *)
Definition dq : string := String (ascii_of_nat 34) EmptyString.

(** [`${x}`] of a property that may be absent. *)
Definition show (o : option string) : string := Js.to_string (Js.of_option o).

Definition formatNotificationMessage (type : string) (data : NotificationData) : string :=
  if String.eqb type "vote" then
    Js.or_else (voterName data) "Someone" +:+ " voted on your poll " +:+
    dq +:+ show (pollTitle data) +:+ dq
  else if String.eqb type "comment" then
    Js.or_else (commenterName data) "Someone" +:+ " commented on your poll " +:+
    dq +:+ show (pollTitle data) +:+ dq
  else if String.eqb type "reply" then
    Js.or_else (replierName data) "Someone" +:+ " replied to your comment on " +:+
    dq +:+ show (pollTitle data) +:+ dq
  else if String.eqb type "comment_like" then
    Js.or_else (likerName data) "Someone" +:+ " liked your comment on " +:+
    dq +:+ show (pollTitle data) +:+ dq
  else if String.eqb type "poll_created" then
    "Your poll " +:+ dq +:+ show (pollTitle data) +:+ dq +:+
    " has been created successfully"
  else if String.eqb type "poll_closed" then
    if option_string_eqb (reason data) (Some "automatic_closure") then
      "Your poll " +:+ dq +:+ show (pollTitle data) +:+ dq +:+
      " has been automatically closed as it reached its end date. Final results are now available."
    else
      "Your poll " +:+ dq +:+ show (pollTitle data) +:+ dq +:+
      " has been closed. Final results are now available."
  else if String.eqb type "system" then
    Js.or_else (data_message data) "System notification"
  else
    Js.or_else (data_message data) "New notification".

Definition getNotificationPriority (type : string) : string :=
  if String.eqb type "system" then "high"
  else if (String.eqb type "reply" || String.eqb type "comment" ||
           String.eqb type "poll_closed")%bool then "medium"
  else "low".

(** [`user_${userId}`] *)
Definition user_room (userId : string) : string := "user_" +:+ userId.

(** [`poll_${pollId}`] *)
Definition poll_room (pollId : string) : string := "poll_" +:+ pollId.

(** Returns the saved document, or null when anything in the [try]
    block threw. *)
Definition createNotification (type : string) (data : NotificationData)
    (userId : string) : M (option Notification) :=
  try_catch
    (id <- generateId ;;
     timestamp <- date_now ;;
     let notification :=
       {| n_id := id; n_userId := userId; n_type := type;
          n_message := formatNotificationMessage type data;
          n_data := data; n_isRead := false;
          n_priority := getNotificationPriority type;
          n_timestamp := timestamp |} in
     savedNotification <- Notification_save notification ;;
     let targetRoom := user_room userId in
     io_to_emit targetRoom "newNotification" (PNotification savedNotification) ;;
     ret (Some savedNotification))
    (ret None).

(** *** Routes that trigger notifications *)

Definition internal_error : M unit := respond 500 "Internal server error" PNone.

(** An element of [req.body.options]: a string, an object, or anything
    else ([null], a number). *)
Inductive OptionInput : Type :=
| OptString (text : string)
| OptObject (id : option string) (text : option string) (votes : option Z)
| OptOther.

Record CreatePollBody : Type := mkCreatePollBody {
  body_title : option string;
  body_description : option string;
  body_options : option (list OptionInput);
  body_category : option string;
  body_status : option string;
  body_ends_at : option Z;
  body_allow_multiple_votes : bool
}.

Definition normalizeOption (opt : OptionInput) : M (option PollOption) :=
  match opt with
  | OptString text =>
      id <- generateId ;;
      ret (Some {| opt_id := id; opt_text := text; opt_votes := 0 |})
  | OptObject oid otext ovotes =>
      id <- (if Js.truthy oid then ret (Js.or_else oid EmptyString) else generateId) ;;
      ret (Some {| opt_id := id;
                   opt_text := Js.or_else otext EmptyString;
                   opt_votes := match ovotes with Some v => v | None => 0 end |})
  | OptOther => ret None
  end.

Fixpoint somes {A} (l : list (option A)) : list A :=
  match l with
  | [] => []
  | Some x :: rest => x :: somes rest
  | None :: rest => somes rest
  end.

Definition blank (text : string) : bool :=
  (String.eqb text EmptyString || String.eqb (Js.trim text) EmptyString)%bool.

Definition valid_status (s : string) : bool :=
  (String.eqb s "active" || String.eqb s "closed" || String.eqb s "draft")%bool.

(** [app.post('/api/polls')] *)
Definition post_polls (user : AuthUser) (body : CreatePollBody) : M unit :=
  try_catch
    (match body_options body with
     | None => respond 400 "Title and at least 2 options are required" PNone
     | Some opts =>
       if (negb (Js.truthy (body_title body)) || Nat.ltb (length opts) 2)%bool then
         respond 400 "Title and at least 2 options are required" PNone
       else
         normalized <- map_m normalizeOption opts ;;
         let normalizedOptions := somes normalized in
         if (Nat.ltb (length normalizedOptions) 2 ||
             existsb (fun o => blank (opt_text o)) normalizedOptions)%bool then
           respond 400 "Provide at least 2 valid options with non-empty text" PNone
         else
           id <- generateId ;;
           let poll :=
             {| poll_id := id;
                title := Js.or_else (body_title body) EmptyString;
                description := Js.or_else (body_description body) EmptyString;
                options := normalizedOptions;
                status := match body_status body with
                          | Some s => if valid_status s then s else "active"
                          | None => "active"
                          end;
                ends_at := body_ends_at body;
                allow_multiple_votes := body_allow_multiple_votes body;
                total_votes := 0;
                category := Js.or_else (body_category body) "general";
                comments_count := 0;
                manual_status_override := false;
                creator := au_id user |} in
           Poll_create poll ;;
           User_findOneAndUpdate (au_id user) (push_polls_created (poll_id poll)) ;;
           createNotification "poll_created"
             {| pollId := Some (poll_id poll); commentId := None; voterName := None;
                commenterName := None; replierName := None; likerName := None;
                pollTitle := Some (title poll); reason := None;
                data_message := None |}
             (au_id user) ;;
           when (negb (String.eqb (status poll) "draft"))
                (io_emit "newPoll" (PPoll poll)) ;;
           respond 201 EmptyString (PPoll poll)
     end)
    internal_error.

Definition set_status (s : string) (override : bool) (ends : option Z) (p : Poll) : Poll :=
  {| poll_id := poll_id p; title := title p; description := description p;
     options := options p; status := s; ends_at := ends;
     allow_multiple_votes := allow_multiple_votes p;
     total_votes := total_votes p; category := category p;
     comments_count := comments_count p;
     manual_status_override := override; creator := creator p |}.

(** [app.patch('/api/polls/:id')] *)
Definition patch_poll (user : AuthUser) (id : string) (body_status : option string) : M unit :=
  try_catch
    (match body_status with
     | None => respond 400 "Invalid status" PNone
     | Some status' =>
       if negb (valid_status status') then respond 400 "Invalid status" PNone
       else
         found <- Poll_findOne id ;;
         match found with
         | None => respond 404 "Poll not found" PNone
         | Some poll =>
           if negb (String.eqb (creator poll) (au_id user)) then
             respond 403 "Not authorized" PNone
           else
             let manual :=
               ((String.eqb status' "active" && String.eqb (status poll) "closed") ||
                String.eqb status' "closed")%bool in
             let poll :=
               if manual then set_status status' true None poll
               else set_status status' (manual_status_override poll) (ends_at poll) poll in
             Poll_save poll ;;
             when (String.eqb status' "closed")
                  (createNotification "poll_closed"
                     {| pollId := Some (poll_id poll); commentId := None;
                        voterName := None; commenterName := None;
                        replierName := None; likerName := None;
                        pollTitle := Some (title poll); reason := None;
                        data_message := None |}
                     (au_id user) ;; ret tt) ;;
             when (negb (String.eqb (status poll) "draft"))
                  (io_to_emit (poll_room (poll_id poll)) "pollUpdate" (PPoll poll) ;;
                   io_emit "pollUpdate" (PPoll poll)) ;;
             respond 200 "Poll updated" (PPoll poll)
         end
     end)
    internal_error.

(** [option.votes += 1] *)
Definition add_vote (p : PollOption) : PollOption :=
  {| opt_id := opt_id p; opt_text := opt_text p; opt_votes := Js.plus (opt_votes p) 1 |}.

(** [option.votes += 1; poll.total_votes = (poll.total_votes || 0) + 1] *)
Definition count_vote (option_id : string) (p : Poll) : Poll :=
  {| poll_id := poll_id p; title := title p; description := description p;
     options := update_first (fun o => String.eqb (opt_id o) option_id) add_vote (options p);
     status := status p; ends_at := ends_at p;
     allow_multiple_votes := allow_multiple_votes p;
     total_votes := Js.plus (total_votes p) 1; category := category p;
     comments_count := comments_count p;
     manual_status_override := manual_status_override p; creator := creator p |}.

(** [app.post('/api/polls/:id/vote')] *)
Definition post_vote (user : AuthUser) (pollId : string) (body_option_id : option string)
    : M unit :=
  try_catch
    (if negb (Js.truthy body_option_id) then
       respond 400 "Option ID is required" PNone
     else
       let option_id := Js.or_else body_option_id EmptyString in
       found <- Poll_findOne pollId ;;
       match found with
       | None => respond 404 "Poll not found" PNone
       | Some poll =>
         if negb (String.eqb (status poll) "active") then
           if String.eqb (status poll) "draft" then
             respond 403 "Cannot vote on draft polls" PNone
           else if String.eqb (status poll) "closed" then
             respond 403 "This poll has been closed" PNone
           else
             respond 403 "Voting is not allowed on this poll" PNone
         else
           existingVote <- (if negb (allow_multiple_votes poll)
                            then Vote_findOne (au_id user) pollId
                            else ret None) ;;
           match existingVote with
           | Some _ => respond 400 "You have already voted on this poll" PNone
           | None =>
             match List.find (fun opt => String.eqb (opt_id opt) option_id) (options poll) with
             | None => respond 400 "Invalid option" PNone
             | Some _ =>
               id <- generateId ;;
               Vote_create {| vote_id := id; vote_poll_id := pollId;
                              vote_option_id := option_id;
                              voter_email := au_email user;
                              vote_user := au_id user |} ;;
               let poll := count_vote option_id poll in
               Poll_save poll ;;
               User_findOneAndUpdate (au_id user) (addToSet_polls_voted pollId) ;;
               when (negb (String.eqb (creator poll) (au_id user)))
                    (createNotification "vote"
                       {| pollId := Some pollId; commentId := None;
                          voterName := Some (au_username user);
                          commenterName := None; replierName := None;
                          likerName := None; pollTitle := Some (title poll);
                          reason := None; data_message := None |}
                       (creator poll) ;; ret tt) ;;
               when (negb (String.eqb (status poll) "draft"))
                    (io_to_emit (poll_room pollId) "pollUpdate" (PPoll poll) ;;
                     io_emit "pollUpdate" (PPoll poll)) ;;
               respond 200 "Vote recorded successfully" (PPoll poll)
             end
           end
       end)
    internal_error.

Definition set_comments_count (k : Z) (p : Poll) : Poll :=
  {| poll_id := poll_id p; title := title p; description := description p;
     options := options p; status := status p; ends_at := ends_at p;
     allow_multiple_votes := allow_multiple_votes p;
     total_votes := total_votes p; category := category p;
     comments_count := k;
     manual_status_override := manual_status_override p; creator := creator p |}.

(** [parent_comment_id || null] *)
Definition or_null (o : option string) : option string :=
  if Js.truthy o then o else None.

(** [app.post('/api/comments')] *)
Definition post_comments (user : AuthUser) (body_poll_id body_content : option string)
    (body_parent_comment_id : option string) : M unit :=
  try_catch
    (if (negb (Js.truthy body_poll_id) || negb (Js.truthy body_content))%bool then
       respond 400 "poll_id and content are required" PNone
     else
       let poll_id' := Js.or_else body_poll_id EmptyString in
       let trimmedContent := Js.trim (Js.or_else body_content EmptyString) in
       if String.eqb trimmedContent EmptyString then
         respond 400 "Comment content cannot be empty" PNone
       else
         found <- Poll_findOne poll_id' ;;
         match found with
         | None => respond 404 "Poll not found" PNone
         | Some poll =>
           if (String.eqb (status poll) "draft" &&
               negb (String.eqb (creator poll) (au_id user)))%bool then
             respond 403 "Cannot comment on draft polls" PNone
           else if String.eqb (status poll) "closed" then
             respond 403 "This poll has been closed and no longer accepts comments" PNone
           else
             t <- date_now ;;
             recentComment <- Comment_findOne_recent (au_id user) poll_id' trimmedContent
                                (or_null body_parent_comment_id) (t - 5000) ;;
             match recentComment with
             | Some _ =>
                 respond 429 "Duplicate comment detected. Please wait before posting again." PNone
             | None =>
               id <- generateId ;;
               createdAt <- date_now ;;
               let comment :=
                 {| comment_id := id; comment_poll_id := poll_id';
                    content := trimmedContent;
                    parent_comment_id := or_null body_parent_comment_id;
                    author_email := au_email user;
                    author_username := au_username user;
                    likes := 0; liked_by := []; comment_user := au_id user;
                    replies := []; comment_createdAt := createdAt |} in
               Comment_create comment ;;
               when (Js.truthy body_parent_comment_id)
                    (Comment_findOneAndUpdate
                       (Js.or_else body_parent_comment_id EmptyString)
                       (push_reply (comment_id comment))) ;;
               actualCommentCount <- Comment_countDocuments poll_id' ;;
               let poll := set_comments_count actualCommentCount poll in
               Poll_save poll ;;
               when (negb (String.eqb (creator poll) (au_id user)))
                    (let reply := Js.truthy body_parent_comment_id in
                     let notificationType := if reply then "reply" else "comment" in
                     let notificationData :=
                       {| pollId := Some poll_id'; commentId := Some (comment_id comment);
                          voterName := None;
                          commenterName := if reply then None else Some (au_username user);
                          replierName := if reply then Some (au_username user) else None;
                          likerName := None; pollTitle := Some (title poll);
                          reason := None; data_message := None |} in
                     createNotification notificationType notificationData (creator poll) ;;
                     ret tt) ;;
               io_to_emit (poll_room poll_id') "newComment" (PComment comment) ;;
               respond 201 EmptyString (PComment comment)
             end
         end)
    internal_error.

Definition set_likes (k : Z) (by_users : list string) (c : Comment) : Comment :=
  {| comment_id := comment_id c; comment_poll_id := comment_poll_id c;
     content := content c; parent_comment_id := parent_comment_id c;
     author_email := author_email c; author_username := author_username c;
     likes := k; liked_by := by_users; comment_user := comment_user c;
     replies := replies c; comment_createdAt := comment_createdAt c |}.

(** [app.post('/api/comments/:id/like')] *)
Definition post_comment_like (user : AuthUser) (id : string) : M unit :=
  try_catch
    (found <- Comment_findOne id ;;
     match found with
     | None => respond 404 "Comment not found" PNone
     | Some comment =>
       let hasLiked := existsb (String.eqb (au_id user)) (liked_by comment) in
       comment <-
         (if hasLiked then
            let comment :=
              set_likes (Z.max 0 (likes comment - 1))
                        (List.filter (fun userId => negb (String.eqb userId (au_id user)))
                                     (liked_by comment))
                        comment in
            Comment_save comment ;;
            respond 200 "Comment unliked" (PLikes (likes comment) false) ;;
            ret comment
          else
            let comment :=
              set_likes (likes comment + 1) (liked_by comment ++ [au_id user]) comment in
            Comment_save comment ;;
            when (negb (String.eqb (comment_user comment) (au_id user)))
                 (poll <- Poll_findOne (comment_poll_id comment) ;;
                  match poll with
                  | Some poll =>
                      createNotification "comment_like"
                        {| pollId := Some (comment_poll_id comment);
                           commentId := Some (comment_id comment);
                           voterName := None; commenterName := None;
                           replierName := None;
                           likerName := Some (au_username user);
                           pollTitle := Some (title poll);
                           reason := None; data_message := None |}
                        (comment_user comment) ;;
                      ret tt
                  | None => ret tt
                  end) ;;
            respond 200 "Comment liked" (PLikes (likes comment) true) ;;
            ret comment) ;;
       io_to_emit (poll_room (comment_poll_id comment)) "commentLikeUpdate"
         (PLikeUpdate (comment_id comment) (likes comment) (negb hasLiked) (au_id user))
     end)
    internal_error.

(** The body of the [cron.schedule('* * * * *', ...)] job: every active
    poll whose end date has passed is closed. *)
Definition close_expired_polls : M unit :=
  try_catch
    (currentTime <- date_now ;;
     expiredPolls <- Poll_find_expired currentTime ;;
     for_each expiredPolls (fun poll =>
       try_catch
         (let poll := set_status "closed" false None poll in
          Poll_save poll ;;
          createNotification "poll_closed"
            {| pollId := Some (poll_id poll); commentId := None; voterName := None;
               commenterName := None; replierName := None; likerName := None;
               pollTitle := Some (title poll);
               reason := Some "automatic_closure"; data_message := None |}
            (creator poll) ;;
          io_to_emit (poll_room (poll_id poll)) "pollUpdate" (PPoll poll) ;;
          io_emit "pollUpdate" (PPoll poll) ;;
          io_to_emit (poll_room (poll_id poll)) "pollClosed"
            (PPollClosed (poll_id poll) (title poll)
               "This poll has been automatically closed as it reached its end date."))
         (ret tt)))
    (ret tt).

(** *** The notification routes *)

(** [req.query] of the list route; [param_limit] is what [parseInt]
    makes of a [limit] parameter that was sent. *)
Record ListParams : Type := mkListParams {
  param_limit : option nat;
  param_type : option string;
  param_priority : option string;
  param_unreadOnly : option string
}.

(** [x && x !== 'all'] selects a filter value. *)
Definition filter_value (o : option string) : option string :=
  match o with
  | Some s => if (negb (String.eqb s EmptyString) && negb (String.eqb s "all"))%bool
              then Some s else None
  | None => None
  end.

Definition with_read_alias (n : Notification) : NotificationView :=
  {| view_doc := n; view_read := n_isRead n |}.

(** [app.get('/api/notifications')] *)
Definition get_notifications (user : AuthUser) (params : ListParams) : M unit :=
  try_catch
    (let limit := match param_limit params with Some k => k | None => 50%nat end in
     let query :=
       {| query_userId := au_id user;
          query_type := filter_value (param_type params);
          query_priority := filter_value (param_priority params);
          query_isRead := if option_string_eqb (param_unreadOnly params) (Some "true")
                          then Some false else None |} in
     notifications <- Notification_find query limit ;;
     let normalized := List.map with_read_alias notifications in
     respond 200 EmptyString (PNotifications normalized))
    internal_error.

(** [app.patch('/api/notifications/:id/read')] *)
Definition patch_notification_read (user : AuthUser) (id : string) : M unit :=
  try_catch
    (notification <- Notification_findOneAndUpdate id (au_id user) ;;
     match notification with
     | None => respond 404 "Notification not found" PNone
     | Some notification =>
         io_to_emit (user_room (au_id user)) "notificationRead"
           (PNotificationRead (n_id notification)) ;;
         respond 200 "Notification marked as read" (PNotification notification)
     end)
    internal_error.

(** *** Socket.IO handlers *)

Definition join (room : string) (s : Socket) : Socket :=
  {| sock_user_id := sock_user_id s; sock_username := sock_username s;
     rooms := rooms s ∪ {[ room ]} |}.

Definition leave (room : string) (s : Socket) : Socket :=
  {| sock_user_id := sock_user_id s; sock_username := sock_username s;
     rooms := rooms s ∖ {[ room ]} |}.

(** What a client can make a socket do, and its connection. *)
Inductive SocketEvent : Type :=
| Connection (sid : string) (user_id : option string) (username : string)
| Join (sid : string) (userId : Js.value)
| JoinPoll (sid : string) (pollId : Js.value)
| LeavePoll (sid : string) (pollId : Js.value)
| Disconnect (sid : string).

(** [io.on('connection', ...)] and the listeners it installs, on the
    registry of sockets. *)
Definition on_socket_event (ev : SocketEvent) (reg : gmap string Socket)
    : gmap string Socket :=
  match ev with
  | Connection sid user_id username =>
      let socket := {| sock_user_id := user_id; sock_username := username; rooms := ∅ |} in
      <[ sid := if Js.truthy user_id then join (user_room (show user_id)) socket
                else socket ]> reg
  | Join sid userId =>
      match reg !! sid with
      | Some socket =>
          if Js.strict_eq (Js.of_option (sock_user_id socket)) userId
          then <[ sid := join (user_room (Js.to_string userId)) socket ]> reg
          else reg
      | None => reg
      end
  | JoinPoll sid pollId =>
      match reg !! sid with
      | Some socket => <[ sid := join (poll_room (Js.to_string pollId)) socket ]> reg
      | None => reg
      end
  | LeavePoll sid pollId =>
      match reg !! sid with
      | Some socket => <[ sid := leave (poll_room (Js.to_string pollId)) socket ]> reg
      | None => reg
      end
  | Disconnect sid => delete sid reg
  end.

(** A room of the personal family, [user_...]. *)
Definition personal (room : string) : bool := String.prefix "user_" room.

(** *** Observations on a run *)

Definition is_response (ev : Event) : bool :=
  match ev with
  | Respond _ _ _ => true
  | _ => false
  end.

(** A [newNotification] message, to whatever room. *)
Definition is_push (ev : Event) : bool :=
  match ev with
  | Emit _ event _ _ => String.eqb event "newNotification"
  | _ => false
  end.

Definition responses (t : list Event) : list Event := List.filter is_response t.
Definition pushes (t : list Event) : list Event := List.filter is_push t.

(** The status code and text of each answer in a trace. *)
Fixpoint answers (t : list Event) : list (Z * string) :=
  match t with
  | [] => []
  | Respond code text _ :: rest => (code, text) :: answers rest
  | _ :: rest => answers rest
  end.

(** The room and name of each message sent to a room, with the sockets
    that got it. *)
Definition sent (t : list Event) : list (string * string * list string) :=
  flat_map (fun ev => match ev with
                      | Emit (Some room) event _ receivers =>
                          [(room, event, elements receivers)]
                      | _ => []
                      end) t.

(** The room of each push in a trace. *)
Fixpoint pushed_to (t : list Event) : list (option string) :=
  match t with
  | [] => []
  | Emit room event _ _ :: rest =>
      if String.eqb event "newNotification" then room :: pushed_to rest
      else pushed_to rest
  | _ :: rest => pushed_to rest
  end.

(** The room and the payload of each push in a trace. *)
Definition pushed (t : list Event) : list (option string * Payload) :=
  flat_map (fun ev => match ev with
                      | Emit room event payload _ =>
                          if String.eqb event "newNotification" then [(room, payload)]
                          else []
                      | _ => []
                      end) t.

(** The document [createNotification] builds when it is called in world
    [w]. *)
Definition built (e : Env) (w : World) (type : string) (data : NotificationData)
    (userId : string) : Notification :=
  {| n_id := fresh e (next_id w); n_userId := userId; n_type := type;
     n_message := formatNotificationMessage type data; n_data := data;
     n_isRead := false; n_priority := getNotificationPriority type;
     n_timestamp := now e |}.

(** The state-changing actions of users that the routing table names as
    sources of a notification. *)
Inductive Trigger : Type :=
| VoteCast (user : AuthUser) (pollId : string) (option_id : option string)
| CommentPosted (user : AuthUser) (poll_id content parent_comment_id : option string)
| CommentLiked (user : AuthUser) (commentId : string)
| PollCreated (user : AuthUser) (body : CreatePollBody)
| PollClosed (user : AuthUser) (pollId : string).

(** The route that serves a trigger. *)
Definition handle (t : Trigger) : M unit :=
  match t with
  | VoteCast user pollId option_id => post_vote user pollId option_id
  | CommentPosted user poll_id' text parent => post_comments user poll_id' text parent
  | CommentLiked user commentId' => post_comment_like user commentId'
  | PollCreated user body => post_polls user body
  | PollClosed user pollId' => patch_poll user pollId' (Some "closed")
  end.

Definition actor (t : Trigger) : string :=
  match t with
  | VoteCast user _ _ | CommentPosted user _ _ _ | CommentLiked user _
  | PollCreated user _ | PollClosed user _ => au_id user
  end.

(** The user a notification for the trigger would go to: the third
    argument of the route's [createNotification] call, on the documents the
    route reads. *)
Definition recipient (t : Trigger) (d : Db) : option string :=
  match t with
  | VoteCast _ pollId' _ =>
      option_map creator (List.find (has_poll_id pollId') (polls d))
  | CommentPosted _ poll_id' _ _ =>
      option_map creator
        (List.find (has_poll_id (Js.or_else poll_id' EmptyString)) (polls d))
  | CommentLiked _ commentId' =>
      option_map comment_user (List.find (has_comment_id commentId') (comments d))
  | PollCreated user _ => Some (au_id user)
  | PollClosed user _ => Some (au_id user)
  end.

(** The triggers whose route compares the actor with the recipient
    before it calls [createNotification]. *)
Definition guarded (t : Trigger) : bool :=
  match t with
  | VoteCast _ _ _ | CommentPosted _ _ _ _ | CommentLiked _ _ => true
  | PollCreated _ _ | PollClosed _ _ => false
  end.

(** Two environments that differ at most in which notification saves
    reject. *)
Definition same_but_notification_save (e1 e2 : Env) : Prop :=
  now e1 = now e2 /\ (forall k, fresh e1 k = fresh e2 k) /\
  forall op k, op <> NotificationSave -> rejects e1 op k = rejects e2 op k.

(** [w'] has the notifications of [w] and no [newNotification] message
    that [w] does not have. *)
Definition keeps (w w' : World) : Prop :=
  notifications (db w') = notifications (db w) /\
  pushes (trace w') = pushes (trace w).

(** A computation that, in environment [e], leaves the world related by
    [R] to the one it started in. *)
Definition preserves {A} (R : World -> World -> Prop) (e : Env) (c : M A) : Prop :=
  forall w, R w (snd (c e w)).

(** A computation that neither changes the notification store nor
    pushes. *)
Abbreviation quiet := (preserves keeps).

(** [w'] has the notifications of [w] followed by new ones, each of which
    satisfies [P]. *)
Definition adds (P : Notification -> Prop) (w w' : World) : Prop :=
  exists l, notifications (db w') = (notifications (db w) ++ l)%list /\ Forall P l.

(** [w'] has the notifications of [w] followed by new ones, each of which
    is addressed to [userId] and was pushed, as stored, to the personal room
    of [userId]; nothing else was pushed. *)
Definition notifies (userId : string) (w w' : World) : Prop :=
  exists l, notifications (db w') = (notifications (db w) ++ l)%list /\
            Forall (fun n => n_userId n = userId) l /\
            pushed (trace w')
            = (pushed (trace w)
               ++ List.map (fun n => (Some (user_room userId), PNotification n)) l)%list.

(** A relation between the world before and the world after that follows
    a run step by step, and that holds of a step that keeps notifications
    and pushes as they are. *)
Class Frame (R : World -> World -> Prop) : Prop := {
  frame_refl : forall w, R w w;
  frame_trans : forall w1 w2 w3, R w1 w2 -> R w2 w3 -> R w1 w3;
  frame_keeps : forall w w', keeps w w' -> R w w'
}.

(** The events that are not about the creation of a notification. *)
Definition visible (ev : Event) : bool :=
  match ev with
  | Wrote NotificationSave _ => false
  | Emit _ _ _ _ => negb (is_push ev)
  | _ => true
  end.

(** Two worlds that differ at most in their notifications and in the
    trace of how these were created. *)
Definition alike (w1 w2 : World) : Prop :=
  users (db w1) = users (db w2) /\ polls (db w1) = polls (db w2) /\
  votes (db w1) = votes (db w2) /\ comments (db w1) = comments (db w2) /\
  sockets w1 = sockets w2 /\ next_id w1 = next_id w2 /\ calls w1 = calls w2 /\
  List.filter visible (trace w1) = List.filter visible (trace w2).

(** A computation that runs alike in [e1] and [e2]: from alike worlds it
    ends in alike worlds, with the same result. *)
Definition blind {A} (e1 e2 : Env) (c : M A) : Prop :=
  forall w1 w2, alike w1 w2 ->
    fst (c e1 w1) = fst (c e2 w2) /\ alike (snd (c e1 w1)) (snd (c e2 w2)).

(** The same, for a computation whose result differs but is not looked
    at: it does not throw in either run. *)
Definition blind_unit {A} (e1 e2 : Env) (c : M A) : Prop :=
  blind e1 e2 (bind c (fun _ => ret tt)).

(** The registry after the socket events [events], from no socket at
    all. *)
Definition registry_after (events : list SocketEvent) : gmap string Socket :=
  List.fold_left (fun reg ev => on_socket_event ev reg) events ∅.

(** Every personal room a socket is in is the room of the socket's own
    user. *)
Definition personal_rooms_own (reg : gmap string Socket) : Prop :=
  forall (sid : string) (socket : Socket) (room : string),
    reg !! sid = Some socket -> room ∈ rooms socket -> personal room = true ->
    room = user_room (show (sock_user_id socket)).

End Backend.

(** ** The priority table of the specification *)

(** The table as the data model states it: system is high; comment, reply
    and poll_closed are medium; vote, comment_like and poll_created are
    low. *)
Definition priority_table : list (string * string) :=
  [ ("system", "high");
    ("comment", "medium"); ("reply", "medium"); ("poll_closed", "medium");
    ("vote", "low"); ("comment_like", "low"); ("poll_created", "low") ].

(** ** Concrete inputs used by the examples below *)

Module Examples.

(** A pushed notification with id n1. *)
Definition pushed1 : Frontend.Pushed :=
  {| Frontend.p_id := Some "n1"; Frontend.p_userId := "A";
     Frontend.p_type := "vote";
     Frontend.p_message := "bob voted on your poll";
     Frontend.p_priority := "low"; Frontend.p_isRead := false;
     Frontend.p_read := None; Frontend.p_timestamp := Some 1000 |}.

(** The same notification as a fetch taken before it was read lists it. *)
Definition stale1 : Frontend.Notification :=
  {| Frontend.n_id := "n1"; Frontend.n_userId := "A";
     Frontend.n_type := "vote";
     Frontend.n_message := "bob voted on your poll";
     Frontend.n_priority := "low"; Frontend.n_isRead := false;
     Frontend.n_read := Some false; Frontend.n_timestamp := 1000 |}.

(** Environments: a store that accepts every call, and one that rejects
    each notification save. *)
Definition env0 : Backend.Env :=
  {| Backend.rejects := fun _ _ => false;
     Backend.now := 1000;
     Backend.fresh := fun k => "id" +:+ Js.decimal (Z.of_nat k) |}.

Definition envF : Backend.Env :=
  {| Backend.rejects := fun op _ => match op with
                                    | Backend.NotificationSave => true
                                    | _ => false
                                    end;
     Backend.now := 1000;
     Backend.fresh := fun k => "id" +:+ Js.decimal (Z.of_nat k) |}.

Definition alice : Backend.AuthUser :=
  {| Backend.au_id := "A"; Backend.au_username := "alice";
     Backend.au_email := "alice@example.org" |}.

Definition bob : Backend.AuthUser :=
  {| Backend.au_id := "B"; Backend.au_username := "bob";
     Backend.au_email := "bob@example.org" |}.

(** An active poll of alice with two options, and a comment of hers. *)
Definition poll1 : Backend.Poll :=
  {| Backend.poll_id := "p1"; Backend.title := "Tea or coffee";
     Backend.description := EmptyString;
     Backend.options :=
       [ {| Backend.opt_id := "o1"; Backend.opt_text := "tea"; Backend.opt_votes := 0 |};
         {| Backend.opt_id := "o2"; Backend.opt_text := "coffee"; Backend.opt_votes := 0 |} ];
     Backend.status := "active"; Backend.ends_at := None;
     Backend.allow_multiple_votes := false; Backend.total_votes := 0;
     Backend.category := "general"; Backend.comments_count := 1;
     Backend.manual_status_override := false; Backend.creator := "A" |}.

Definition comment1 : Backend.Comment :=
  {| Backend.comment_id := "c1"; Backend.comment_poll_id := "p1";
     Backend.content := "tea"; Backend.parent_comment_id := None;
     Backend.author_email := "alice@example.org";
     Backend.author_username := "alice";
     Backend.likes := 0; Backend.liked_by := []; Backend.comment_user := "A";
     Backend.replies := []; Backend.comment_createdAt := 10 |}.

Definition db1 : Backend.Db :=
  {| Backend.users :=
       [ {| Backend.user_id := "A"; Backend.user_username := "alice";
            Backend.polls_created := ["p1"]; Backend.polls_voted := [] |};
         {| Backend.user_id := "B"; Backend.user_username := "bob";
            Backend.polls_created := []; Backend.polls_voted := [] |} ];
     Backend.polls := [poll1]; Backend.votes := [];
     Backend.comments := [comment1]; Backend.notifications := [] |}.

(** alice is connected on socket s1. *)
Definition world1 : Backend.World :=
  {| Backend.db := db1;
     Backend.sockets :=
       Backend.on_socket_event (Backend.Connection "s1" (Some "A") "alice") ∅;
     Backend.trace := []; Backend.next_id := 0; Backend.calls := 0 |}.

Definition body1 : Backend.CreatePollBody :=
  {| Backend.body_title := Some "Cats or dogs";
     Backend.body_description := None;
     Backend.body_options := Some [Backend.OptString "cats"; Backend.OptString "dogs"];
     Backend.body_category := None; Backend.body_status := None;
     Backend.body_ends_at := None; Backend.body_allow_multiple_votes := false |}.

(** The [k]th of alice's notifications, created at time [k]. *)
Definition notification_of (k : nat) : Backend.Notification :=
  {| Backend.n_id := "n" +:+ Js.decimal (Z.of_nat k);
     Backend.n_userId := "A"; Backend.n_type := "vote";
     Backend.n_message := "bob voted on your poll";
     Backend.n_data := Backend.no_data; Backend.n_isRead := false;
     Backend.n_priority := "low"; Backend.n_timestamp := Z.of_nat k |}.

(** [world1] with [k] notifications stored for alice. *)
Definition world_with (k : nat) : Backend.World :=
  Backend.with_db
    (Backend.set_notifications (List.map notification_of (seq 0 k)) db1) world1.

Definition no_params : Backend.ListParams :=
  {| Backend.param_limit := None; Backend.param_type := None;
     Backend.param_priority := None; Backend.param_unreadOnly := None |}.

(** alice connects and opens a poll. *)
Definition events1 : list Backend.SocketEvent :=
  [ Backend.Connection "s1" (Some "A") "alice";
    Backend.JoinPoll "s1" (Js.VString "p1") ].

(** [world1] at time 1000 with a second poll of alice, whose end date (500)
    has passed. *)
Definition expired_poll : Backend.Poll :=
  {| Backend.poll_id := "p2"; Backend.title := "Lunch";
     Backend.description := EmptyString;
     Backend.options :=
       [ {| Backend.opt_id := "o3"; Backend.opt_text := "soup"; Backend.opt_votes := 0 |};
         {| Backend.opt_id := "o4"; Backend.opt_text := "salad"; Backend.opt_votes := 0 |} ];
     Backend.status := "active"; Backend.ends_at := Some 500;
     Backend.allow_multiple_votes := false; Backend.total_votes := 0;
     Backend.category := "general"; Backend.comments_count := 0;
     Backend.manual_status_override := false; Backend.creator := "A" |}.

Definition world_expiring : Backend.World :=
  Backend.with_db (Backend.set_polls [poll1; expired_poll] db1) world1.

Definition unread_only : Backend.ListParams :=
  {| Backend.param_limit := None; Backend.param_type := None;
     Backend.param_priority := None; Backend.param_unreadOnly := Some "true" |}.

End Examples.

(** ** More of the server: the other notification routes, reading a poll,
    the handshake and the routing table *)

Module Routes.

Import Backend.
Local Open Scope handler_scope.

(** *** Calls that the trigger routes do not make *)

Inductive MoreOp : Type :=
| NotificationUpdateMany
| NotificationFindOneAndDelete
| NotificationDeleteMany.

(** [x op k] tells whether the call of kind [op], if it is the [k]th
    database call since the start, rejects.  These calls are counted like the
    others; their writes have no entry in the trace. *)
Definition db_call_more (x : MoreOp -> nat -> bool) (op : MoreOp) : M unit :=
  fun e w =>
    if x op (calls w) then (Thrown, count_call w)
    else (Ok tt, count_call w).

Definition unread_of (userId : string) (n : Notification) : bool :=
  (String.eqb (n_userId n) userId && negb (n_isRead n))%bool.

(** [Notification.updateMany({ userId, isRead: false }, { isRead: true })]:
    the result's [modifiedCount]. *)
Definition Notification_updateMany (x : MoreOp -> nat -> bool) (userId : string) : M Z :=
  db_call_more x NotificationUpdateMany ;;
  d <- get_db ;;
  put_db (set_notifications
            (List.map (fun n => if unread_of userId n then set_isRead true n else n)
                      (notifications d)) d) ;;
  ret (Z.of_nat (length (List.filter (unread_of userId) (notifications d)))).

(** [app.patch('/api/notifications/mark-all-read')]; the answer is
    [{ message, count: result.modifiedCount }]. *)
Definition patch_mark_all_read (x : MoreOp -> nat -> bool) (user : AuthUser) : M unit :=
  try_catch
    (modifiedCount <- Notification_updateMany x (au_id user) ;;
     io_to_emit (user_room (au_id user)) "allNotificationsRead" PNone ;;
     respond 200 "All notifications marked as read" (PCount modifiedCount))
    internal_error.

(** The list without the first element that passes [test]. *)
Fixpoint remove_first {A} (test : A -> bool) (l : list A) : list A :=
  match l with
  | [] => []
  | y :: rest => if test y then rest else y :: remove_first test rest
  end.

(** [Notification.findOneAndDelete({ id, userId })]: the deleted document,
    or null. *)
Definition Notification_findOneAndDelete (x : MoreOp -> nat -> bool) (id userId : string)
    : M (option Notification) :=
  db_call_more x NotificationFindOneAndDelete ;;
  d <- get_db ;;
  match List.find (owned_by id userId) (notifications d) with
  | Some n =>
      put_db (set_notifications (remove_first (owned_by id userId) (notifications d)) d) ;;
      ret (Some n)
  | None => ret None
  end.

(** [app.delete('/api/notifications/:id')] *)
Definition delete_notification (x : MoreOp -> nat -> bool) (user : AuthUser) (id : string)
    : M unit :=
  try_catch
    (notification <- Notification_findOneAndDelete x id (au_id user) ;;
     match notification with
     | None => respond 404 "Notification not found" PNone
     | Some _ => respond 200 "Notification deleted successfully" PNone
     end)
    internal_error.

(** [Notification.deleteMany({ userId })]: the result's [deletedCount]. *)
Definition Notification_deleteMany (x : MoreOp -> nat -> bool) (userId : string) : M Z :=
  db_call_more x NotificationDeleteMany ;;
  d <- get_db ;;
  put_db (set_notifications
            (List.filter (fun n => negb (String.eqb (n_userId n) userId))
                         (notifications d)) d) ;;
  ret (Z.of_nat (length (List.filter (fun n => String.eqb (n_userId n) userId)
                                     (notifications d)))).

(** [app.delete('/api/notifications/clear-all')]; the answer is
    [{ message, count: result.deletedCount }]. *)
Definition delete_clear_all (x : MoreOp -> nat -> bool) (user : AuthUser) : M unit :=
  try_catch
    (deletedCount <- Notification_deleteMany x (au_id user) ;;
     respond 200 "All notifications cleared" (PCount deletedCount))
    internal_error.

(** *** Reading one poll *)

(** [s.split(sep)] for a separator of one character. *)
Fixpoint split (sep : ascii) (s : string) : list string :=
  match s with
  | EmptyString => [EmptyString]
  | String c rest =>
      if Ascii.eqb c sep then EmptyString :: split sep rest
      else match split sep rest with
           | seg :: segs => String c seg :: segs
           | [] => [String c EmptyString]
           end
  end.

(** [req.headers.authorization?.split(' ')[1]] *)
Definition bearer_token (authorization : option string) : option string :=
  match authorization with
  | Some header => nth_error (split " "%char header) 1
  | None => None
  end.

(** [app.get('/api/polls/:id')].  [verify token] is what
    [jwt.verify(token, secret)] gives: [None] when it throws, otherwise the
    [id] of the decoded payload (which may be missing). *)
Definition get_poll (verify : string -> option (option string))
    (authorization : option string) (id : string) : M unit :=
  try_catch
    (found <- Poll_findOne id ;;
     match found with
     | None => respond 404 "Poll not found" PNone
     | Some poll =>
       let refused :=
         if String.eqb (status poll) "draft" then
           let token := bearer_token authorization in
           if negb (Js.truthy token) then true
           else match verify (Js.or_else token EmptyString) with
                | Some decoded_id =>
                    negb (Js.strict_eq (Js.of_option decoded_id) (Js.VString (creator poll)))
                | None => true
                end
         else false in
       if refused then respond 404 "Poll not found" PNone
       else
         actualCommentCount <- Comment_countDocuments (poll_id poll) ;;
         let poll := set_comments_count actualCommentCount poll in
         Poll_save poll ;;
         respond 200 EmptyString (PPoll poll)
     end)
    internal_error.

(** *** The socket handshake *)

Inductive VerifyError : Type :=
| JsonWebTokenError
| TokenExpiredError
| OtherVerifyError.

(** What [next] is called with: an error, or nothing once [socket.user]
    is set to the decoded payload (its [id], which may be missing, and its
    [username]). *)
Inductive Handshake : Type :=
| Refused (message : string)
| Accepted (user_id : option string) (username : string).

(** Truthiness of a value. *)
Definition truthy_value (v : Js.value) : bool :=
  match v with
  | Js.VUndefined | Js.VNull => false
  | Js.VBool b => b
  | Js.VNumber z => negb (Z.eqb z 0)
  | Js.VString s => negb (String.eqb s EmptyString)
  | Js.VOther _ => true
  end.

(** [io.use((socket, next) => ...)] on [socket.handshake.auth.token].
    [verify] is [jwt.verify] with the server's secret.  A truthy token that is
    no string has no [split]: the [catch] block answers. *)
Definition io_use (verify : string -> VerifyError + (option string * string))
    (token : Js.value) : Handshake :=
  if negb (truthy_value token) then Refused "Authentication token required"
  else
    match token with
    | Js.VString s =>
        let tokenParts := split "."%char s in
        if negb (Nat.eqb (length tokenParts) 3) then Refused "Invalid token format"
        else
          match verify s with
          | inl JsonWebTokenError => Refused "Invalid token"
          | inl TokenExpiredError => Refused "Token expired"
          | inl OtherVerifyError => Refused "Authentication failed"
          | inr (user_id, username) => Accepted user_id username
          end
    | _ => Refused "Authentication failed"
    end.

(** The connection that follows a handshake, if any. *)
Definition connect (sid : string) (h : Handshake) (reg : gmap string Socket)
    : gmap string Socket :=
  match h with
  | Accepted user_id username => on_socket_event (Connection sid user_id username) reg
  | Refused _ => reg
  end.

(** *** The routing table *)

Inductive Method : Type := GET | POST | PUT | PATCH | DELETE.

Definition method_eqb (a b : Method) : bool :=
  match a, b with
  | GET, GET | POST, POST | PUT, PUT | PATCH, PATCH | DELETE, DELETE => true
  | _, _ => false
  end.

(** A piece of a route path between two slashes: fixed text, or a named
    parameter. *)
Inductive Segment : Type :=
| Lit (text : string)
| Par (name : string).

(** A route as registered: its method, its path, and the line of
    [server.js] that registers it. *)
Record Route : Type := mkRoute {
  route_method : Method;
  route_path : list Segment;
  route_line : nat
}.

Definition lower_char (c : ascii) : ascii :=
  let n := nat_of_ascii c in
  if (Nat.leb 65 n && Nat.leb n 90)%bool then ascii_of_nat (n + 32) else c.

Fixpoint lower (s : string) : string :=
  match s with
  | EmptyString => EmptyString
  | String c rest => String (lower_char c) (lower rest)
  end.

(** Whether a piece of the request path fits a piece of the route path:
    fixed text is compared without regard to case; a parameter takes any
    text that is not empty. *)
Definition fits (seg : Segment) (piece : string) : bool :=
  match seg with
  | Lit text => String.eqb (lower piece) (lower text)
  | Par _ => negb (String.eqb piece EmptyString)
  end.

Fixpoint path_fits (pattern : list Segment) (path : list string) : bool :=
  match pattern, path with
  | [], [] => true
  | seg :: pattern', piece :: path' => (fits seg piece && path_fits pattern' path')%bool
  | _, _ => false
  end.

(** The [app.get], [app.post], [app.put], [app.patch] and [app.delete]
    registrations of [server.js] for a path of its own, in the order of the
    file.  (The two handlers for every path, registered last at lines 2361
    and 2366, take what none of these serves.) *)
Definition routes : list Route :=
  [ mkRoute POST [Lit "api"; Lit "register"] 476;
    mkRoute POST [Lit "api"; Lit "login"] 530;
    mkRoute GET [Lit "api"; Lit "profile"] 575;
    mkRoute PUT [Lit "api"; Lit "profile"] 601;
    mkRoute POST [Lit "api"; Lit "profile"; Lit "picture"] 632;
    mkRoute GET [Lit "api"; Lit "polls"] 698;
    mkRoute GET [Lit "api"; Lit "polls"; Lit "results"] 730;
    mkRoute GET [Lit "api"; Lit "polls"; Lit "dashboard"] 766;
    mkRoute GET [Lit "api"; Lit "polls"; Lit "my-polls"] 797;
    mkRoute GET [Lit "api"; Lit "polls"; Lit "voted"] 823;
    mkRoute GET [Lit "api"; Lit "polls"; Par "id"] 854;
    mkRoute POST [Lit "api"; Lit "polls"] 893;
    mkRoute PATCH [Lit "api"; Lit "polls"; Par "id"] 964;
    mkRoute PUT [Lit "api"; Lit "polls"; Par "id"] 1017;
    mkRoute DELETE [Lit "api"; Lit "polls"; Par "id"] 1106;
    mkRoute POST [Lit "api"; Lit "polls"; Par "id"; Lit "vote"] 1134;
    mkRoute GET [Lit "api"; Lit "polls"; Par "id"; Lit "vote-status"] 1223;
    mkRoute GET [Lit "api"; Lit "polls"; Par "id"; Lit "comments"] 1247;
    mkRoute POST [Lit "api"; Lit "comments"] 1278;
    mkRoute POST [Lit "api"; Lit "comments"; Par "id"; Lit "like"] 1369;
    mkRoute DELETE [Lit "api"; Lit "comments"; Par "id"] 1459;
    mkRoute GET [Lit "api"; Lit "notifications"] 1510;
    mkRoute PATCH [Lit "api"; Lit "notifications"; Par "id"; Lit "read"] 1546;
    mkRoute PATCH [Lit "api"; Lit "notifications"; Lit "mark-all-read"] 1568;
    mkRoute DELETE [Lit "api"; Lit "notifications"; Par "id"] 1588;
    mkRoute DELETE [Lit "api"; Lit "notifications"; Lit "clear-all"] 1606;
    mkRoute PATCH [Lit "api"; Lit "user"; Lit "profile"] 1699;
    mkRoute POST [Lit "api"; Lit "profile"; Lit "picture"] 1805;
    mkRoute GET [Lit "api"; Lit "user"; Lit "stats"] 1870;
    mkRoute GET [Lit "api"; Lit "user"; Lit "voted-polls"] 1883;
    mkRoute GET [Lit "api"; Lit "polls"] 1914;
    mkRoute GET [Lit "api"; Lit "polls"; Lit "dashboard"] 1946;
    mkRoute POST [Lit "api"; Lit "chat"] 1977;
    mkRoute GET [Lit "api"; Lit "chat"; Lit "history"] 2111;
    mkRoute GET [Lit "api"; Lit "health"] 2276 ].

Definition serves (method : Method) (path : list string) (r : Route) : bool :=
  (method_eqb (route_method r) method && path_fits (route_path r) path)%bool.

(** The route that answers a request: the first registered one that fits
    (each handler answers without passing the request on).  [path] is the
    request path cut at its slashes. *)
Definition dispatch (method : Method) (path : list string) : option Route :=
  List.find (serves method path) routes.

(** [covers general special]: every path that fits [special] fits
    [general]. *)
Fixpoint covers (general special : list Segment) : bool :=
  match general, special with
  | [], [] => true
  | Par _ :: general', Lit text :: special' =>
      (negb (String.eqb (lower text) EmptyString) && covers general' special')%bool
  | Par _ :: general', Par _ :: special' => covers general' special'
  | Lit a :: general', Lit b :: special' =>
      (String.eqb (lower a) (lower b) && covers general' special')%bool
  | _, _ => false
  end.

(** Whether a route registered earlier, for the same method, takes every
    path that [r] takes. *)
Definition shadowed_by (earlier : list Route) (r : Route) : bool :=
  existsb (fun y => method_eqb (route_method y) (route_method r) &&
                    covers (route_path y) (route_path r))%bool
          earlier.

(** The routes of [l] that no route of [earlier], nor one before them in
    [l], shadows. *)
Fixpoint unshadowed (earlier l : list Route) : list Route :=
  match l with
  | [] => []
  | r :: rest =>
      ((if shadowed_by earlier r then [] else [r]) ++ unshadowed (earlier ++ [r]) rest)%list
  end.

(** *** Counting *)

(** The votes that the options of a poll hold between them. *)
Definition option_votes (p : Poll) : Z :=
  List.fold_right Z.add 0 (List.map opt_votes (options p)).

(** The counts of the poll are safe integers: its total and the votes of
    each of its options pass [Number.isSafeInteger]. *)
Definition safe_counts (p : Poll) : Prop :=
  Js.isSafeInteger (total_votes p) = true /\
  Forall (fun o => Js.isSafeInteger (opt_votes o) = true) (options p).

(** The votes a request to create a poll gives an option: [Number(opt.votes
    || 0)] for an object, zero for a string; anything else is no option. *)
Definition requested_votes (opt : OptionInput) : list Z :=
  match opt with
  | OptString _ => [0]
  | OptObject _ _ votes => [match votes with Some v => v | None => 0 end]
  | OptOther => []
  end.

(** *** The closing job *)

(** The filter of the job's query: an active poll whose end date has
    passed. *)
Definition is_expired (currentTime : Z) (p : Poll) : bool :=
  (String.eqb (status p) "active" &&
   match ends_at p with
   | Some t => Z.leb t currentTime
   | None => false
   end)%bool.

(** What the job makes of a poll it closes. *)
Definition closed_by_job (p : Poll) : Poll := set_status "closed" false None p.

End Routes.

(** ** More of the client: the notification service and the token check *)

Module Service.

Import Frontend.

(** [isValidTokenFormat] of [utils/tokenUtils.js] *)
Definition isValidTokenFormat (token : Js.value) : bool :=
  match token with
  | Js.VString s =>
      if String.eqb s EmptyString then false
      else Nat.eqb (length (Routes.split "."%char s)) 3
  | _ => false
  end.

(** [NotificationService.formatNotificationMessage]; [data] has the
    properties of the server's. *)
Definition formatNotificationMessage (type : string) (data : Backend.NotificationData)
    : string :=
  if String.eqb type "vote" then
    Js.or_else (Backend.voterName data) "Someone" +:+ " voted on your poll " +:+
    Backend.dq +:+ Backend.show (Backend.pollTitle data) +:+ Backend.dq
  else if String.eqb type "comment" then
    Js.or_else (Backend.commenterName data) "Someone" +:+ " commented on your poll " +:+
    Backend.dq +:+ Backend.show (Backend.pollTitle data) +:+ Backend.dq
  else if String.eqb type "reply" then
    Js.or_else (Backend.replierName data) "Someone" +:+ " replied to your comment on " +:+
    Backend.dq +:+ Backend.show (Backend.pollTitle data) +:+ Backend.dq
  else if String.eqb type "comment_like" then
    Js.or_else (Backend.likerName data) "Someone" +:+ " liked your comment on " +:+
    Backend.dq +:+ Backend.show (Backend.pollTitle data) +:+ Backend.dq
  else if String.eqb type "poll_created" then
    "Your poll " +:+ Backend.dq +:+ Backend.show (Backend.pollTitle data) +:+ Backend.dq +:+
    " has been created successfully"
  else if String.eqb type "poll_closed" then
    "Your poll " +:+ Backend.dq +:+ Backend.show (Backend.pollTitle data) +:+ Backend.dq +:+
    " has been closed. Final results are now available."
  else if String.eqb type "system" then
    Js.or_else (Backend.data_message data) "System notification"
  else
    Js.or_else (Backend.data_message data) "New notification".

(** *** Sorting *)

(** The [sortBy] values with a case of their own in [sortNotifications]. *)
Inductive SortKey : Type := ByTimestamp | ByPriority | ByType | ByRead.

(** [priorityOrder[p] || 1], for a [p] with [Js.inherited p = false]: on
    an inherited name the lookup finds a member of [Object.prototype], which
    is no rank. *)
Definition priorityOrder (p : string) : Z :=
  if String.eqb p "high" then 3
  else if String.eqb p "medium" then 2
  else 1.

(** [valueA > valueB] for the values [sortBy] selects. *)
Definition greater (sortBy : SortKey) (a b : Notification) : bool :=
  match sortBy with
  | ByTimestamp => Z.ltb (n_timestamp b) (n_timestamp a)
  | ByPriority => Z.ltb (priorityOrder (n_priority b)) (priorityOrder (n_priority a))
  | ByType => String.ltb (n_type b) (n_type a)
  | ByRead => Z.ltb (if n_isRead b then 1 else 0) (if n_isRead a then 1 else 0)
  end.

(** The comparison function handed to [sort]. *)
Definition compare (sortBy : SortKey) (order : string) (a b : Notification) : Z :=
  if String.eqb order "desc" then
    if greater sortBy a b then -1 else if greater sortBy b a then 1 else 0
  else
    if greater sortBy b a then -1 else if greater sortBy a b then 1 else 0.

(** [x] in front of the first element it does not have to follow. *)
Fixpoint insert_by (cmp : Notification -> Notification -> Z) (x : Notification)
    (l : list Notification) : list Notification :=
  match l with
  | [] => [x]
  | y :: rest => if Z.ltb 0 (cmp x y) then y :: insert_by cmp x rest else x :: l
  end.

(** [[...notifications].sort(cmp)]: the sort is stable, so for a
    consistent [cmp] the result is the one of inserting from the right.  The
    comparison by priority is consistent when no priority is an inherited
    name. *)
Definition sortNotifications (notifications : list Notification) (sortBy : SortKey)
    (order : string) : list Notification :=
  List.fold_right (insert_by (compare sortBy order)) [] notifications.

(** *** Grouping *)

(** [if (!groups[key]) groups[key] = []; groups[key].push(notification)],
    for a [key] with [Js.inherited key = false]; the map holds the own
    properties of [groups]. *)
Definition push_group (key : string) (n : Notification)
    (groups : gmap string (list Notification)) : gmap string (list Notification) :=
  <[ key := (default [] (groups !! key) ++ [n])%list ]> groups.

Definition day : Z := 1000 * 60 * 60 * 24.

Definition groupKey (diffDays : Z) : string :=
  if Z.eqb diffDays 0 then "Today"
  else if Z.eqb diffDays 1 then "Yesterday"
  else if Z.ltb diffDays 7 then "This Week"
  else if Z.ltb diffDays 30 then "This Month"
  else "Older".

(** [groupByDate]; [now] is the clock reading. *)
Definition groupByDate (now : Z) (notifications : list Notification)
    : gmap string (list Notification) :=
  List.fold_left
    (fun groups n => push_group (groupKey ((now - n_timestamp n) / day)) n groups)
    notifications ∅.

(** [groupByType], for notifications whose type is no inherited name: on
    an inherited name [groups[type]] is the inherited member, nothing is
    stored, and the call of [push] throws. *)
Definition groupByType (notifications : list Notification)
    : gmap string (list Notification) :=
  List.fold_left (fun groups n => push_group (n_type n) n groups) notifications ∅.

Definition groupNotifications (now : Z) (notifications : list Notification)
    (groupBy : string) : gmap string (list Notification) :=
  if String.eqb groupBy "date" then groupByDate now notifications
  else if String.eqb groupBy "type" then groupByType notifications
  else {[ "All" := notifications ]}.

(** *** Time stamps *)

(** [formatTimestamp]; [dateString now timestamp] is the text of the last
    branch, which [toLocaleDateString] makes. *)
Definition formatTimestamp (dateString : Z -> Z -> string) (now timestamp : Z) : string :=
  let diffMs := now - timestamp in
  let diffMins := diffMs / (1000 * 60) in
  let diffHours := diffMs / (1000 * 60 * 60) in
  let diffDays := diffMs / (1000 * 60 * 60 * 24) in
  if Z.ltb diffMins 1 then "Just now"
  else if Z.ltb diffMins 60 then Js.decimal diffMins +:+ "m ago"
  else if Z.ltb diffHours 24 then Js.decimal diffHours +:+ "h ago"
  else if Z.eqb diffDays 1 then "Yesterday"
  else if Z.ltb diffDays 7 then Js.decimal diffDays +:+ "d ago"
  else dateString now timestamp.

(** *** Filtering *)






End Service.

(** ** The notification provider of the client, talking to the server *)

Module Provider.

Import Backend.

(** [validateStatus] of [utils/api.js]: the promise of a request resolves
    with the response when this holds of its status. *)
Definition validateStatus (status : Z) : bool := Z.ltb status 500.

(** The path of a request for [url] under the base url [/api], cut at its
    slashes. *)
Definition url_path (url : string) : list string :=
  tl (Routes.split "/"%char ("/api" +:+ url)).

(** What the routes of the notification store run for a request that
    carries a token of [user]; [req.params.id] is the third piece of the
    path.  A route that is not among them has [None]. *)
Definition handler (x : Routes.MoreOp -> nat -> bool) (user : AuthUser)
    (r : Routes.Route) (path : list string) : option (M unit) :=
  let id := nth 2 path EmptyString in
  let line := Routes.route_line r in
  if Nat.eqb line 1510 then
    Some (get_notifications user
            {| param_limit := None; param_type := None; param_priority := None;
               param_unreadOnly := None |})
  else if Nat.eqb line 1546 then Some (patch_notification_read user id)
  else if Nat.eqb line 1568 then Some (Routes.patch_mark_all_read x user)
  else if Nat.eqb line 1588 then Some (Routes.delete_notification x user id)
  else if Nat.eqb line 1606 then Some (Routes.delete_clear_all x user)
  else None.

(** The answer in a piece of trace: the status and body of its last
    response. *)
Fixpoint answer_in (news : list Event) : option (Z * Payload) :=
  match news with
  | [] => None
  | Respond code _ payload :: rest =>
      match answer_in rest with
      | Some later => Some later
      | None => Some (code, payload)
      end
  | _ :: rest => answer_in rest
  end.

(** The messages that the socket [sid] receives in a piece of trace. *)
Definition delivered (sid : string) (news : list Event) : list (string * Payload) :=
  flat_map (fun ev => match ev with
                      | Emit _ event payload receivers =>
                          if bool_decide (sid ∈ receivers) then [(event, payload)] else []
                      | _ => []
                      end) news.

(** The provider: the user of its token, its socket, the state of its
    reducer, and the messages its socket has received and its listeners
    have not handled yet. *)
Record Client : Type := mkClient {
  client_user : AuthUser;
  client_socket : string;
  client_state : Frontend.State;
  client_inbox : list (string * Payload)
}.

Definition with_state (st : Frontend.State) (c : Client) : Client :=
  {| client_user := client_user c; client_socket := client_socket c;
     client_state := st; client_inbox := client_inbox c |}.

Definition with_inbox (inbox : list (string * Payload)) (c : Client) : Client :=
  {| client_user := client_user c; client_socket := client_socket c;
     client_state := client_state c; client_inbox := inbox |}.

(** The socket of the client receives its share of a piece of trace. *)
Definition receive (news : list Event) (c : Client) : Client :=
  with_inbox (client_inbox c ++ delivered (client_socket c) news) c.

(** [await api.<method>(url)], served: the world after the route has run,
    the answer, and the client with what its socket received meanwhile.
    [None] when the request goes to a route that is not embedded here.  The
    request carries the token of [client_user] and reaches its route: the
    rate limiter in front of the routes is not part of the model. *)
Definition request (x : Routes.MoreOp -> nat -> bool) (method : Routes.Method)
    (url : string) (c : Client) (e : Env) (w : World)
    : option (option (Z * Payload) * Client * World) :=
  let path := url_path url in
  match Routes.dispatch method path with
  | Some r =>
      match handler x (client_user c) r path with
      | Some h =>
          let w' := snd (h e w) in
          let news := skipn (length (trace w)) (trace w') in
          Some (answer_in news, receive news c, w')
      | None => None
      end
  | None => None
  end.

(** [try { await api...; dispatch(action) } catch (error)
    { dispatch(SET_ERROR, error.message) }]: [action] is dispatched when the
    promise resolves; [message] is the [message] of the error that api.js
    hands on otherwise. *)
Definition settle (answer : option (Z * Payload)) (action : Frontend.Action)
    (message : option string) (now : Z) (st : Frontend.State) : Frontend.State :=
  match answer with
  | Some (status, _) =>
      if validateStatus status then Frontend.notificationReducer now st action
      else Frontend.notificationReducer now st (Frontend.SET_ERROR message)
  | None => Frontend.notificationReducer now st (Frontend.SET_ERROR message)
  end.

Definition call (x : Routes.MoreOp -> nat -> bool) (message : option string)
    (method : Routes.Method) (url : string) (action : Frontend.Action)
    (c : Client) (e : Env) (w : World) : option (Client * World) :=
  match request x method url c e w with
  | Some (answer, c', w') =>
      Some (with_state (settle answer action message (now e) (client_state c')) c', w')
  | None => None
  end.

(** [markAsRead] *)
Definition markAsRead (x : Routes.MoreOp -> nat -> bool) (message : option string)
    (notificationId : string) : Client -> Env -> World -> option (Client * World) :=
  call x message Routes.PATCH ("/notifications/" +:+ notificationId +:+ "/read")
       (Frontend.MARK_AS_READ notificationId).

(** [markAllAsRead] *)
Definition markAllAsRead (x : Routes.MoreOp -> nat -> bool) (message : option string)
    : Client -> Env -> World -> option (Client * World) :=
  call x message Routes.PATCH "/notifications/mark-all-read" Frontend.MARK_ALL_AS_READ.

(** [deleteNotification] *)
Definition deleteNotification (x : Routes.MoreOp -> nat -> bool) (message : option string)
    (notificationId : string) : Client -> Env -> World -> option (Client * World) :=
  call x message Routes.DELETE ("/notifications/" +:+ notificationId)
       (Frontend.DELETE_NOTIFICATION notificationId).

(** [clearAllNotifications] *)
Definition clearAllNotifications (x : Routes.MoreOp -> nat -> bool)
    (message : option string) : Client -> Env -> World -> option (Client * World) :=
  call x message Routes.DELETE "/notifications/clear-all" Frontend.CLEAR_ALL.

(** A document of the list route as the client holds it. *)
Definition of_view (v : NotificationView) : Frontend.Notification :=
  let n := view_doc v in
  {| Frontend.n_id := n_id n; Frontend.n_userId := n_userId n;
     Frontend.n_type := n_type n; Frontend.n_message := n_message n;
     Frontend.n_priority := n_priority n; Frontend.n_isRead := n_isRead n;
     Frontend.n_read := Some (view_read v); Frontend.n_timestamp := n_timestamp n |}.

(** [Array.isArray(response.data) ? response.data
    : (response.data.notifications || [])] *)
Definition listed (body : Payload) : list Frontend.Notification :=
  match body with
  | PNotifications l => List.map of_view l
  | _ => []
  end.

(** [fetchNotifications] *)
Definition fetchNotifications (x : Routes.MoreOp -> nat -> bool) (message : option string)
    (c : Client) (e : Env) (w : World) : option (Client * World) :=
  let c := with_state (Frontend.notificationReducer (now e) (client_state c)
                         (Frontend.SET_LOADING true)) c in
  match request x Routes.GET "/notifications" c e w with
  | Some (answer, c', w') =>
      let action :=
        Frontend.SET_NOTIFICATIONS
          (match answer with Some (_, body) => listed body | None => [] end) in
      Some (with_state (settle answer action message (now e) (client_state c')) c', w')
  | None => None
  end.

(** A pushed document as the payload of ADD_NOTIFICATION. *)
Definition pushed_of (n : Notification) : Frontend.Pushed :=
  {| Frontend.p_id := Some (n_id n); Frontend.p_userId := n_userId n;
     Frontend.p_type := n_type n; Frontend.p_message := n_message n;
     Frontend.p_priority := n_priority n; Frontend.p_isRead := n_isRead n;
     Frontend.p_read := None; Frontend.p_timestamp := Some (n_timestamp n) |}.

(** The listeners that [initializeSocket] installs for messages of the
    server: [newNotification] and [notificationRead]; no other message has
    one. *)
Definition on_message (x : Routes.MoreOp -> nat -> bool) (message : option string)
    (event : string) (payload : Payload) (c : Client) (e : Env) (w : World)
    : option (Client * World) :=
  if String.eqb event "newNotification" then
    match payload with
    | PNotification n =>
        Some (with_state (Frontend.notificationReducer (now e) (client_state c)
                            (Frontend.ADD_NOTIFICATION (pushed_of n))) c, w)
    | _ => None
    end
  else if String.eqb event "notificationRead" then
    match payload with
    | PNotificationRead notificationId => markAsRead x message notificationId c e w
    | _ => None
    end
  else Some (c, w).

(** The listeners handle the oldest message that waits. *)
Definition handle_next (x : Routes.MoreOp -> nat -> bool) (message : option string)
    (c : Client) (e : Env) (w : World) : option (Client * World) :=
  match client_inbox c with
  | [] => Some (c, w)
  | (event, payload) :: rest => on_message x message event payload (with_inbox rest c) e w
  end.

(** [k] messages handled, one after the other. *)
Fixpoint handle_many (k : nat) (x : Routes.MoreOp -> nat -> bool) (message : option string)
    (c : Client) (e : Env) (w : World) : option (Client * World) :=
  match k with
  | O => Some (c, w)
  | S k' =>
      match handle_next x message c e w with
      | Some (c', w') => handle_many k' x message c' e w'
      | None => None
      end
  end.

End Provider.

(** ** More concrete inputs *)

Module Cases.

(** A store that answers every one of the further calls. *)
Definition accepting : Routes.MoreOp -> nat -> bool := fun _ _ => false.


(** A notification of high priority in alice's list, older than
    [Examples.stale1]. *)
Definition urgent1 : Frontend.Notification :=
  {| Frontend.n_id := "n2"; Frontend.n_userId := "A";
     Frontend.n_type := "poll_closed";
     Frontend.n_message := "Your poll has been closed";
     Frontend.n_priority := "high"; Frontend.n_isRead := false;
     Frontend.n_read := Some false; Frontend.n_timestamp := 500 |}.

(** alice's provider, on socket s1, with nothing in its list. *)
Definition client1 : Provider.Client :=
  {| Provider.client_user := Examples.alice; Provider.client_socket := "s1";
     Provider.client_state := Frontend.initialState; Provider.client_inbox := [] |}.

(** The same, told that notification n1 was read. *)
Definition client_told : Provider.Client :=
  Provider.with_inbox [("notificationRead", Backend.PNotificationRead "n1")] client1.

(** A store that rejects every save of a poll. *)
Definition env_poll_save_fails : Backend.Env :=
  {| Backend.rejects := fun op _ => match op with
                                    | Backend.PollSave => true
                                    | _ => false
                                    end;
     Backend.now := 1000;
     Backend.fresh := fun k => "id" +:+ Js.decimal (Z.of_nat k) |}.

(** A draft of alice, beside her active poll. *)
Definition draft_poll : Backend.Poll :=
  {| Backend.poll_id := "p3"; Backend.title := "Not yet";
     Backend.description := EmptyString;
     Backend.options :=
       [ {| Backend.opt_id := "o5"; Backend.opt_text := "yes"; Backend.opt_votes := 0 |};
         {| Backend.opt_id := "o6"; Backend.opt_text := "no"; Backend.opt_votes := 0 |} ];
     Backend.status := "draft"; Backend.ends_at := None;
     Backend.allow_multiple_votes := false; Backend.total_votes := 0;
     Backend.category := "general"; Backend.comments_count := 0;
     Backend.manual_status_override := false; Backend.creator := "A" |}.

Definition world_draft : Backend.World :=
  Backend.with_db (Backend.set_polls [Examples.poll1; draft_poll] Examples.db1)
                  Examples.world1.

(** A request to create a poll whose first option arrives with forty
    votes. *)
Definition body_with_votes : Backend.CreatePollBody :=
  {| Backend.body_title := Some "Yes or no";
     Backend.body_description := None;
     Backend.body_options :=
       Some [Backend.OptObject (Some "a") (Some "yes") (Some 40);
             Backend.OptObject (Some "b") (Some "no") None];
     Backend.body_category := None; Backend.body_status := None;
     Backend.body_ends_at := None; Backend.body_allow_multiple_votes := false |}.

End Cases.

(** * Properties *)

(** ** The client reducer *)

Section ClientReducer.

Import Frontend.

Lemma unread_cons (n : Notification) (l : list Notification) :
  unread (n :: l) = (if n_isRead n then 0 else 1) + unread l.
Proof.
  unfold unread. simpl. destruct (n_isRead n); simpl; lia.
Qed.

Lemma unread_all_read (l : list Notification) :
  unread (List.map (set_isRead true) l) = 0.
Proof.
  induction l as [|n l IH]; [reflexivity|].
  simpl List.map. rewrite unread_cons, IH. reflexivity.
Qed.

(** C4 (as amended).  Whatever the client held (in particular after any
    pushes), a full-list fetch makes the list exactly the fetched one: an
    entry is present iff the fetch has it, with the fetch's [isRead], and
    the unread count is the one of the fetched list.  Nothing of the
    earlier list is merged in. *)
Theorem fetch_replaces_list (st : State) (earlier : list (Z * Action))
    (now : Z) (fetched : list Notification) :
  let st' := notificationReducer now (dispatch_all st earlier)
               (SET_NOTIFICATIONS fetched) in
  notifications st' = fetched /\
  unreadCount st' = unread fetched /\
  (forall n, In n (notifications st') <-> In n fetched) /\
  loading st' = false /\ error st' = None.
Proof.
  simpl. repeat split; auto.
Qed.

(** C4 (counterexample).  A notification pushed before a fetch that does
    not list it is gone after the fetch; and an entry the client had marked
    read is unread again after a fetch that still says unread. *)
Lemma fetch_drops_pushed :
  (let st1 := notificationReducer 1 initialState (ADD_NOTIFICATION Examples.pushed1) in
   let st2 := notificationReducer 2 st1 (SET_NOTIFICATIONS []) in
   (exists n, In n (notifications st1) /\ n_id n = "n1") /\
   ~ (exists n, In n (notifications st2) /\ n_id n = "n1")) /\
  (let st1 := notificationReducer 1 initialState (ADD_NOTIFICATION Examples.pushed1) in
   let st2 := notificationReducer 2 st1 (MARK_AS_READ "n1") in
   let st3 := notificationReducer 3 st2 (SET_NOTIFICATIONS [Examples.stale1]) in
   List.map n_isRead (notifications st2) = [true] /\
   List.map n_isRead (notifications st3) = [false]).
Proof.
  split.
  - split.
    + eexists. split; [left; reflexivity | reflexivity].
    + intros [n [[] _]].
  - split; reflexivity.
Qed.

(** C5 (as amended).  Each ADD_NOTIFICATION prepends one unread entry and
    adds one to the counter, whether or not the list already has an entry
    with that id: merging the same pushed event twice leaves two entries
    (with the event's id, when it has one) and raises the unread count by
    two. *)
Theorem add_twice_adds_two (now1 now2 : Z) (st : State) (p : Pushed) (id : string) :
  p_id p = Some id -> id <> EmptyString ->
  let once := notificationReducer now1 st (ADD_NOTIFICATION p) in
  let twice := notificationReducer now2 once (ADD_NOTIFICATION p) in
  notifications twice
    = newNotification now2 p :: newNotification now1 p :: notifications st /\
  n_id (newNotification now1 p) = id /\
  n_id (newNotification now2 p) = id /\
  unreadCount once = unreadCount st + 1 /\
  unreadCount twice = unreadCount st + 2.
Proof.
  intros Hid Hne. simpl. rewrite Hid. simpl.
  destruct (String.eqb_spec id EmptyString) as [->|_]; [congruence|].
  repeat split; lia.
Qed.

(** The pushed notification n1 merged twice into the initial state. *)
Lemma add_twice_adds_two_witness :
  let once := notificationReducer 1 initialState (ADD_NOTIFICATION Examples.pushed1) in
  let twice := notificationReducer 2 once (ADD_NOTIFICATION Examples.pushed1) in
  List.map n_id (notifications twice) = ["n1"; "n1"] /\ unreadCount twice = 2.
Proof.
  destruct (add_twice_adds_two 1 2 initialState Examples.pushed1 "n1")
    as (Hl & _ & _ & _ & Hc); [reflexivity | discriminate |].
  split; [rewrite Hl; reflexivity | rewrite Hc; reflexivity].
Defined.

(** C5 (counterexample).  Merging the same pushed event a second time
    changes the state: the list has the entry twice and the unread count is
    two, not one. *)
Lemma add_twice_differs :
  let once := notificationReducer 1 initialState (ADD_NOTIFICATION Examples.pushed1) in
  let twice := notificationReducer 1 once (ADD_NOTIFICATION Examples.pushed1) in
  twice <> once /\
  length (notifications once) = 1%nat /\ length (notifications twice) = 2%nat /\
  unreadCount once = 1 /\ unreadCount twice = 2.
Proof.
  simpl. repeat split; try reflexivity. discriminate.
Qed.

(** The effect of one action on the counter. *)
Lemma reducer_drift (now : Z) (st : State) (a : Action) :
  let st' := notificationReducer now st a in
  match a with
  | SET_NOTIFICATIONS _ | MARK_AS_READ _ | MARK_ALL_AS_READ
  | DELETE_NOTIFICATION _ | CLEAR_ALL =>
      unreadCount st' = unread (notifications st')
  | ADD_NOTIFICATION _ | SET_LOADING _ | SET_ERROR _ | UNKNOWN_ACTION =>
      drift st' = drift st
  | UPDATE_UNREAD_COUNT k =>
      unreadCount st' = k /\ notifications st' = notifications st
  end.
Proof.
  destruct a; simpl; unfold drift; simpl; try reflexivity.
  - rewrite unread_cons. simpl. lia.
  - symmetry. apply unread_all_read.
  - split; reflexivity.
Qed.

Lemma dispatch_all_drift (st : State) (actions : list (Z * Action)) :
  Forall (fun ta => is_count_update (snd ta) = false) actions ->
  drift st = 0 -> drift (dispatch_all st actions) = 0.
Proof.
  intros Hall. revert st. induction Hall as [|[t a] actions Ha _ IH]; intros st Hst.
  - exact Hst.
  - cbn [dispatch_all]. apply IH.
    pose proof (reducer_drift t st a) as H. cbn zeta in H. unfold drift in *.
    destruct a; try discriminate Ha; lia.
Qed.

(** C6 (as amended).  SET_NOTIFICATIONS, MARK_AS_READ, MARK_ALL_AS_READ,
    DELETE_NOTIFICATION and CLEAR_ALL leave the stored unread count equal to
    the number of entries with [isRead] false.  ADD_NOTIFICATION adds one to
    the stored counter and one unread entry to the list, so the distance
    between the two is what it was (and so do the actions that touch
    neither).  UPDATE_UNREAD_COUNT stores its payload and leaves the list
    alone.  Hence, from the initial state, the stored count equals the
    derived one after any run of actions without UPDATE_UNREAD_COUNT. *)
Theorem unread_count_after :
  (forall (now : Z) (st : State) (a : Action),
      let st' := notificationReducer now st a in
      match a with
      | SET_NOTIFICATIONS _ | MARK_AS_READ _ | MARK_ALL_AS_READ
      | DELETE_NOTIFICATION _ | CLEAR_ALL =>
          unreadCount st' = unread (notifications st')
      | ADD_NOTIFICATION _ | SET_LOADING _ | SET_ERROR _ | UNKNOWN_ACTION =>
          unreadCount st' - unread (notifications st')
          = unreadCount st - unread (notifications st)
      | UPDATE_UNREAD_COUNT k =>
          unreadCount st' = k /\ notifications st' = notifications st
      end) /\
  (forall actions : list (Z * Action),
      Forall (fun ta => is_count_update (snd ta) = false) actions ->
      let st' := dispatch_all initialState actions in
      unreadCount st' = unread (notifications st')).
Proof.
  split.
  - exact reducer_drift.
  - intros actions Hall. cbn zeta.
    pose proof (dispatch_all_drift initialState actions Hall eq_refl) as H.
    unfold drift in H. lia.
Qed.

(** A push, a read and a deletion, one after the other. *)
Lemma unread_count_after_witness :
  let st' := dispatch_all initialState
               [(1, ADD_NOTIFICATION Examples.pushed1);
                (2, MARK_AS_READ "n1");
                (3, ADD_NOTIFICATION Examples.pushed1);
                (4, DELETE_NOTIFICATION "n2")] in
  unreadCount st' = unread (notifications st') /\ unreadCount st' = 1.
Proof.
  split; [|reflexivity].
  apply (proj2 unread_count_after
           [(1, ADD_NOTIFICATION Examples.pushed1);
            (2, MARK_AS_READ "n1");
            (3, ADD_NOTIFICATION Examples.pushed1);
            (4, DELETE_NOTIFICATION "n2")]).
  repeat constructor.
Defined.

(** C6 (counterexample).  After UPDATE_UNREAD_COUNT the stored count is
    the payload, here 5 over an empty list. *)
Lemma update_unread_count_drifts :
  let st' := notificationReducer 1 initialState (UPDATE_UNREAD_COUNT 5) in
  unreadCount st' = 5 /\ unread (notifications st') = 0 /\
  unreadCount st' <> unread (notifications st').
Proof.
  simpl. repeat split. discriminate.
Qed.

End ClientReducer.

(** ** The notification helper *)

Section CreateNotification.

Import Backend.

(** What one call does, by the answer of the store. *)
Lemma createNotification_run (e : Env) (w : World) (type : string)
    (data : NotificationData) (userId : string) :
  let r := createNotification type data userId e w in
  let n := built e w type data userId in
  if rejects e NotificationSave (calls w) then
    fst r = Ok None /\
    db (snd r) = db w /\ trace (snd r) = trace w /\
    sockets (snd r) = sockets w /\
    next_id (snd r) = S (next_id w) /\ calls (snd r) = S (calls w)
  else
    fst r = Ok (Some n) /\
    db (snd r) = set_notifications (notifications (db w) ++ [n])%list (db w) /\
    trace (snd r) =
      (trace w ++ [Wrote NotificationSave (n_id n);
                   Emit (Some (user_room userId)) "newNotification" (PNotification n)
                        (members (user_room userId) (sockets w))])%list /\
    sockets (snd r) = sockets w /\
    next_id (snd r) = S (next_id w) /\ calls (snd r) = S (calls w).
Proof.
  unfold createNotification, Notification_save, io_to_emit, generateId,
    date_now, db_call, get_db, put_db, log, try_catch, bind, ret.
  cbn [fst snd db trace sockets next_id calls count_call with_db record].
  destruct (rejects e NotificationSave (calls w)); cbn.
  - repeat split.
  - rewrite <- app_assoc. repeat split.
Qed.

(** C2.  In a call of [createNotification] the record is appended to the
    store before the newNotification message leaves for the recipient's
    room; when the append is rejected there is no record and no message;
    and which sockets are connected, or in the room, has no bearing on what
    is stored. *)
Theorem append_before_push (e : Env) (w : World) (type : string)
    (data : NotificationData) (userId : string) :
  let w' := snd (createNotification type data userId e w) in
  let n := built e w type data userId in
  (if rejects e NotificationSave (calls w) then
     notifications (db w') = notifications (db w) /\ trace w' = trace w
   else
     notifications (db w') = (notifications (db w) ++ [n])%list /\
     trace w' =
       (trace w ++ [Wrote NotificationSave (n_id n);
                    Emit (Some (user_room userId)) "newNotification" (PNotification n)
                         (members (user_room userId) (sockets w))])%list) /\
  (forall s : gmap string Socket,
      notifications (db (snd (createNotification type data userId e (with_sockets s w))))
      = notifications (db w')).
Proof.
  cbn zeta. split.
  - pose proof (createNotification_run e w type data userId) as H. cbn zeta in H.
    destruct (rejects e NotificationSave (calls w));
      destruct H as (_ & Hdb & Ht & _); rewrite Hdb, Ht; split; reflexivity.
  - intros s.
    pose proof (createNotification_run e w type data userId) as H.
    pose proof (createNotification_run e (with_sockets s w) type data userId) as Hs.
    cbn zeta in H, Hs. cbn [calls with_sockets] in Hs.
    destruct (rejects e NotificationSave (calls w));
      destruct H as (_ & Hdb & _); destruct Hs as (_ & Hdbs & _);
      rewrite Hdb, Hdbs; reflexivity.
Qed.

Lemma priorities_agree (type : string) :
  Frontend.getNotificationPriority type = getNotificationPriority type.
Proof.
  unfold Frontend.getNotificationPriority, getNotificationPriority.
  repeat match goal with
         | |- context [String.eqb type ?s] =>
             destruct (String.eqb_spec type s); [subst type; reflexivity|]
         end.
  reflexivity.
Qed.

End CreateNotification.

(** ** Computations that leave the notifications alone *)

Section Frames.

Import Backend.
Local Open Scope handler_scope.

Lemma keeps_refl (w : World) : keeps w w.
Proof. split; reflexivity. Qed.

Lemma keeps_trans (w1 w2 w3 : World) :
  keeps w1 w2 -> keeps w2 w3 -> keeps w1 w3.
Proof. intros [H1 H2] [H3 H4]. split; congruence. Qed.

Lemma pushes_app (t1 t2 : list Event) :
  pushes (t1 ++ t2) = (pushes t1 ++ pushes t2)%list.
Proof. apply List.filter_app. Qed.

Lemma keeps_record (w : World) (ev : Event) :
  is_push ev = false -> keeps w (record ev w).
Proof.
  intros H. split; [reflexivity|]. cbn [trace record].
  rewrite pushes_app. cbn. rewrite H. apply app_nil_r.
Qed.

#[export] Instance keeps_frame : Frame keeps.
Proof.
  split; [exact keeps_refl | exact keeps_trans | auto].
Qed.

#[export] Instance adds_frame (P : Notification -> Prop) : Frame (adds P).
Proof.
  split.
  - intros w. exists []. split; [symmetry; apply app_nil_r | constructor].
  - intros w1 w2 w3 (l1 & H1 & P1) (l2 & H2 & P2). exists (l1 ++ l2)%list.
    split; [rewrite H2, H1, app_assoc; reflexivity|].
    apply List.Forall_app. split; assumption.
  - intros w w' [H _]. exists []. split; [rewrite H, app_nil_r; reflexivity | constructor].
Qed.

Lemma pushed_app (t1 t2 : list Event) :
  pushed (t1 ++ t2) = (pushed t1 ++ pushed t2)%list.
Proof. apply List.flat_map_app. Qed.

Lemma pushed_pushes (t : list Event) : pushed (pushes t) = pushed t.
Proof.
  induction t as [|ev t IH]; [reflexivity|].
  unfold pushes, pushed in *. cbn [List.filter flat_map].
  destruct ev as [op docId | room event payload receivers | code text payload];
    cbn [is_push app]; try exact IH.
  destruct (String.eqb event "newNotification") eqn:H;
    cbn [flat_map app]; rewrite ?H; cbn [app]; rewrite IH; reflexivity.
Qed.

#[export] Instance notifies_frame (userId : string) : Frame (notifies userId).
Proof.
  split.
  - intros w. exists []. cbn. rewrite !app_nil_r. split; [reflexivity|].
    split; [constructor | reflexivity].
  - intros w1 w2 w3 (l1 & H1 & P1 & T1) (l2 & H2 & P2 & T2). exists (l1 ++ l2)%list.
    split; [rewrite H2, H1, app_assoc; reflexivity|].
    split; [apply List.Forall_app; split; assumption|].
    rewrite T2, T1, List.map_app, app_assoc. reflexivity.
  - intros w w' [H T]. exists []. cbn. rewrite !app_nil_r. split; [exact H|].
    split; [constructor|]. rewrite <- (pushed_pushes (trace w')), T. apply pushed_pushes.
Qed.

Context (R : World -> World -> Prop) `{!Frame R} (e : Env).

Lemma preserves_ret {A} (a : A) : preserves R e (ret a).
Proof. intros w. apply frame_refl. Qed.

Lemma preserves_bind {A B} (c : M A) (k : A -> M B) :
  preserves R e c -> (forall a, preserves R e (k a)) -> preserves R e (bind c k).
Proof.
  intros Hc Hk w. unfold bind. specialize (Hc w).
  destruct (c e w) as [[a|] w']; cbn in *; [|exact Hc].
  eapply frame_trans; [exact Hc | apply Hk].
Qed.

Lemma preserves_try {A} (c h : M A) :
  preserves R e c -> preserves R e h -> preserves R e (try_catch c h).
Proof.
  intros Hc Hh w. unfold try_catch. specialize (Hc w).
  destruct (c e w) as [[a|] w']; cbn in *; [exact Hc|].
  eapply frame_trans; [exact Hc | apply Hh].
Qed.

Lemma preserves_when (b : bool) (c : M unit) :
  (b = true -> preserves R e c) -> preserves R e (when b c).
Proof.
  intros H. destruct b; cbn; [auto | apply preserves_ret].
Qed.

Lemma preserves_map_m {A B} (f : A -> M B) (l : list A) :
  (forall x, preserves R e (f x)) -> preserves R e (map_m f l).
Proof.
  intros Hf. induction l as [|x l IH]; cbn [map_m].
  - apply preserves_ret.
  - apply preserves_bind; [apply Hf|]. intros y.
    apply preserves_bind; [apply IH|]. intros ys. apply preserves_ret.
Qed.

Lemma preserves_for_each {A} (body : A -> M unit) (l : list A) :
  (forall x, preserves R e (body x)) -> preserves R e (for_each l body).
Proof.
  intros Hb. induction l as [|x l IH]; cbn [for_each].
  - apply preserves_ret.
  - apply preserves_bind; [apply Hb | intros _; apply IH].
Qed.

Lemma preserves_of_quiet {A} (c : M A) : quiet e c -> preserves R e c.
Proof. intros H w. apply frame_keeps, H. Qed.

(** The rules for a first step whose result matters to what follows. *)
Lemma keeps_bind {A B} (c : M A) (k : A -> M B) (w : World) :
  keeps w (snd (c e w)) ->
  (forall a, fst (c e w) = Ok a -> keeps (snd (c e w)) (snd (k a e (snd (c e w))))) ->
  keeps w (snd (bind c k e w)).
Proof.
  intros Hc Hk. unfold bind.
  destruct (c e w) as [[a|] w']; cbn in *; [|exact Hc].
  eapply keeps_trans; [exact Hc | apply Hk; reflexivity].
Qed.

Lemma keeps_try {A} (c h : M A) (w : World) :
  keeps w (snd (c e w)) -> quiet e h -> keeps w (snd (try_catch c h e w)).
Proof.
  intros Hc Hh. unfold try_catch.
  destruct (c e w) as [[a|] w']; cbn in *; [exact Hc|].
  eapply keeps_trans; [exact Hc | apply Hh].
Qed.

End Frames.

Section Quiet.

Import Backend.
Local Open Scope handler_scope.

Context (e : Env).

(** Every call on another collection, and every message other than a
    push, is quiet. *)
Ltac quiet_op :=
  intros w;
  repeat match goal with
         | |- context [rejects e ?op ?k] => destruct (rejects e op k)
         | |- context [match ?x with Some _ => _ | None => _ end] => destruct x
         | |- context [if ?b then _ else _] => destruct b
         end;
  (split; cbn; [reflexivity | rewrite ?pushes_app; cbn; rewrite ?app_nil_r; reflexivity]).

Lemma quiet_generateId : quiet e generateId.
Proof. intros w. split; reflexivity. Qed.

Lemma quiet_date_now : quiet e date_now.
Proof. intros w. apply keeps_refl. Qed.

Lemma quiet_respond code text payload : quiet e (respond code text payload).
Proof. intros w. apply keeps_record. reflexivity. Qed.

Lemma quiet_io_to_emit room event payload :
  String.eqb event "newNotification" = false ->
  quiet e (io_to_emit room event payload).
Proof. intros H w. apply keeps_record. exact H. Qed.

Lemma quiet_io_emit event payload :
  String.eqb event "newNotification" = false ->
  quiet e (io_emit event payload).
Proof. intros H w. apply keeps_record. exact H. Qed.

Lemma quiet_Poll_findOne id : quiet e (Poll_findOne id).
Proof. unfold Poll_findOne, db_call, get_db, bind, ret. quiet_op. Qed.

Lemma quiet_Poll_create p : quiet e (Poll_create p).
Proof. unfold Poll_create, db_call, get_db, put_db, log, bind, ret. quiet_op. Qed.

Lemma quiet_Poll_save p : quiet e (Poll_save p).
Proof. unfold Poll_save, db_call, get_db, put_db, log, bind, ret. quiet_op. Qed.

Lemma quiet_Poll_find_expired t : quiet e (Poll_find_expired t).
Proof. unfold Poll_find_expired, db_call, get_db, bind, ret. quiet_op. Qed.

Lemma quiet_Vote_findOne u p : quiet e (Vote_findOne u p).
Proof. unfold Vote_findOne, db_call, get_db, bind, ret. quiet_op. Qed.

Lemma quiet_Vote_create v : quiet e (Vote_create v).
Proof. unfold Vote_create, db_call, get_db, put_db, log, bind, ret. quiet_op. Qed.

Lemma quiet_User_findOneAndUpdate id f : quiet e (User_findOneAndUpdate id f).
Proof.
  unfold User_findOneAndUpdate, db_call, get_db, put_db, log, bind, ret. quiet_op.
Qed.

Lemma quiet_Comment_findOne id : quiet e (Comment_findOne id).
Proof. unfold Comment_findOne, db_call, get_db, bind, ret. quiet_op. Qed.

Lemma quiet_Comment_findOne_recent u p t par since :
  quiet e (Comment_findOne_recent u p t par since).
Proof. unfold Comment_findOne_recent, db_call, get_db, bind, ret. quiet_op. Qed.

Lemma quiet_Comment_create c : quiet e (Comment_create c).
Proof. unfold Comment_create, db_call, get_db, put_db, log, bind, ret. quiet_op. Qed.

Lemma quiet_Comment_save c : quiet e (Comment_save c).
Proof. unfold Comment_save, db_call, get_db, put_db, log, bind, ret. quiet_op. Qed.

Lemma quiet_Comment_findOneAndUpdate id f : quiet e (Comment_findOneAndUpdate id f).
Proof.
  unfold Comment_findOneAndUpdate, db_call, get_db, put_db, log, bind, ret. quiet_op.
Qed.

Lemma quiet_Comment_countDocuments p : quiet e (Comment_countDocuments p).
Proof. unfold Comment_countDocuments, db_call, get_db, bind, ret. quiet_op. Qed.

(** When the store rejects every notification save, the helper is quiet
    too: the record is dropped and nothing is pushed. *)
Lemma quiet_createNotification_rejected type data userId :
  (forall k, rejects e NotificationSave k = true) ->
  quiet e (createNotification type data userId).
Proof.
  intros Hrej w.
  pose proof (createNotification_run e w type data userId) as H. cbn zeta in H.
  rewrite Hrej in H. destruct H as (_ & Hdb & Ht & _).
  split; [rewrite Hdb | rewrite Ht]; reflexivity.
Qed.

(** The helper adds at most the record it built. *)
Lemma adds_createNotification (P : Notification -> Prop) type data userId :
  (forall w, P (built e w type data userId)) ->
  preserves (adds P) e (createNotification type data userId).
Proof.
  intros HP w.
  pose proof (createNotification_run e w type data userId) as H. cbn zeta in H.
  destruct (rejects e NotificationSave (calls w)); destruct H as (_ & Hdb & _).
  - exists []. rewrite Hdb, app_nil_r. split; [reflexivity | constructor].
  - exists [built e w type data userId]. rewrite Hdb. split; [reflexivity|].
    constructor; [apply HP | constructor].
Qed.

(** A call of the helper for [userId] stores at most the record it built,
    which is then pushed to the personal room of [userId]. *)
Lemma notifies_createNotification type data userId :
  preserves (notifies userId) e (createNotification type data userId).
Proof.
  intros w.
  pose proof (createNotification_run e w type data userId) as H. cbn zeta in H.
  destruct (rejects e NotificationSave (calls w)); destruct H as (_ & Hdb & Ht & _).
  - exists []. rewrite Hdb, Ht. cbn. rewrite !app_nil_r.
    split; [reflexivity|]. split; [constructor | reflexivity].
  - exists [built e w type data userId]. rewrite Hdb, Ht, pushed_app.
    split; [reflexivity|]. split; [|reflexivity].
    constructor; [reflexivity | constructor].
Qed.

(** What the first read of a route returns. *)
Lemma Poll_findOne_result id (w : World) (a : option Poll) :
  fst (Poll_findOne id e w) = Ok a ->
  a = List.find (has_poll_id id) (polls (db w)).
Proof.
  unfold Poll_findOne, db_call, get_db, bind, ret.
  destruct (rejects e PollFindOne (calls w)); cbn; congruence.
Qed.

Lemma Comment_findOne_result id (w : World) (a : option Comment) :
  fst (Comment_findOne id e w) = Ok a ->
  a = List.find (has_comment_id id) (comments (db w)).
Proof.
  unfold Comment_findOne, db_call, get_db, bind, ret.
  destruct (rejects e CommentFindOne (calls w)); cbn; congruence.
Qed.

End Quiet.

(** ** Routes and the notifications they leave *)

(** One step through a route; [closer] settles a call of
    [createNotification]. *)
Ltac route_step closer :=
  lazy zeta;
  match goal with
  | |- Backend.preserves _ _ (Backend.createNotification _ _ _) => closer
  | |- Backend.preserves _ _ (Backend.ret _) => apply (preserves_ret _ _)
  | |- Backend.preserves _ _ (Backend.try_catch _ _) => apply (preserves_try _ _)
  | |- Backend.preserves _ _ (Backend.bind _ _) =>
      apply (preserves_bind _ _); [|intros ?]
  | |- Backend.preserves _ _ (Backend.when _ _) =>
      apply (preserves_when _ _); intros ?
  | |- Backend.preserves _ _ (Backend.map_m _ _) =>
      apply (preserves_map_m _ _); intros ?
  | |- Backend.preserves _ _ (Backend.for_each _ _) =>
      apply (preserves_for_each _ _); intros ?
  | |- Backend.preserves _ _ (match ?x with _ => _ end) => destruct x eqn:?
  | |- Backend.preserves _ _ _ =>
      apply (preserves_of_quiet _ _);
      first [ apply quiet_respond
            | apply quiet_generateId
            | apply quiet_date_now
            | apply quiet_Poll_findOne
            | apply quiet_Poll_create
            | apply quiet_Poll_save
            | apply quiet_Poll_find_expired
            | apply quiet_Vote_findOne
            | apply quiet_Vote_create
            | apply quiet_User_findOneAndUpdate
            | apply quiet_Comment_findOne
            | apply quiet_Comment_findOne_recent
            | apply quiet_Comment_create
            | apply quiet_Comment_save
            | apply quiet_Comment_findOneAndUpdate
            | apply quiet_Comment_countDocuments
            | apply quiet_io_to_emit; reflexivity
            | apply quiet_io_emit; reflexivity ]
  end.

Ltac route closer := repeat route_step closer.

Section Routes.

Import Backend.
Local Open Scope handler_scope.

Context (e : Env).

Lemma preserves_normalizeOption (R : World -> World -> Prop) `{!Frame R} opt :
  preserves R e (normalizeOption opt).
Proof. unfold normalizeOption. route fail. Qed.

Section Rejected.

Hypothesis rejected : forall k, rejects e NotificationSave k = true.

(** With every notification save rejected, the route of each trigger
    leaves the notifications as they were and pushes nothing. *)
Lemma quiet_handle_rejected (t : Trigger) : quiet e (handle t).
Proof.
  destruct t; cbn [handle];
    unfold post_vote, post_comments, post_comment_like, post_polls, patch_poll,
      internal_error;
    route ltac:(apply quiet_createNotification_rejected; exact rejected).
  apply (preserves_normalizeOption _ _).
Qed.

End Rejected.

(** Whatever a route stores was built by the helper, with the priority of
    its type. *)
Lemma handle_adds_by_priority (t : Trigger) :
  preserves (adds (fun n => n_priority n = getNotificationPriority (n_type n)))
            e (handle t).
Proof.
  destruct t; cbn [handle];
    unfold post_vote, post_comments, post_comment_like, post_polls, patch_poll,
      internal_error;
    route ltac:(apply adds_createNotification; intros; reflexivity).
  apply (preserves_normalizeOption _ _).
Qed.

Lemma close_expired_polls_adds_by_priority :
  preserves (adds (fun n => n_priority n = getNotificationPriority (n_type n)))
            e close_expired_polls.
Proof.
  unfold close_expired_polls.
  route ltac:(apply adds_createNotification; intros; reflexivity).
Qed.

(** The routes without a guard notify the acting user and no one else:
    what they store is addressed to the actor and pushed to the actor's
    room. *)
Lemma unguarded_notifies_actor (t : Trigger) :
  guarded t = false ->
  preserves (notifies (actor t)) e (handle t).
Proof.
  destruct t; try discriminate; intros _; cbn [handle actor];
    unfold post_polls, patch_poll, internal_error;
    route ltac:(apply notifies_createNotification).
  apply (preserves_normalizeOption _ _).
Qed.

(** From a world on, as a goal about a computation. *)
Ltac from_here :=
  match goal with
  | |- keeps ?w (snd (?c e ?w)) =>
      let H := fresh in
      cut (quiet e c); [intros H; apply H|]
  end.

(** In the guarded branch the actor is not the recipient. *)
Ltac not_self :=
  exfalso;
  match goal with
  | Hself : _ = au_id _, Hguard : negb _ = true |- _ =>
      cbn in Hguard; rewrite Hself, String.eqb_refl in Hguard; discriminate
  end.

(** A vote on a poll of one's own. *)
Lemma post_vote_self (w : World) user pollId option_id (p : Poll) :
  List.find (has_poll_id pollId) (polls (db w)) = Some p ->
  creator p = au_id user ->
  keeps w (snd (post_vote user pollId option_id e w)).
Proof.
  intros Hfind Hself. unfold post_vote, internal_error.
  apply keeps_try; [|apply quiet_respond].
  destruct (negb (Js.truthy option_id)); [apply quiet_respond|].
  lazy zeta. apply keeps_bind; [apply quiet_Poll_findOne|].
  intros found Hfound. apply Poll_findOne_result in Hfound.
  rewrite Hfind in Hfound. subst found.
  from_here. route not_self.
Qed.

(** A comment or a reply on a poll of one's own. *)
Lemma post_comments_self (w : World) user poll_id' text parent (p : Poll) :
  List.find (has_poll_id (Js.or_else poll_id' EmptyString)) (polls (db w)) = Some p ->
  creator p = au_id user ->
  keeps w (snd (post_comments user poll_id' text parent e w)).
Proof.
  intros Hfind Hself. unfold post_comments, internal_error.
  apply keeps_try; [|apply quiet_respond].
  destruct (negb (Js.truthy poll_id') || negb (Js.truthy text))%bool;
    [apply quiet_respond|].
  lazy zeta.
  destruct (String.eqb (Js.trim (Js.or_else text EmptyString)) EmptyString);
    [apply quiet_respond|].
  apply keeps_bind; [apply quiet_Poll_findOne|].
  intros found Hfound. apply Poll_findOne_result in Hfound.
  rewrite Hfind in Hfound. subst found.
  from_here. route not_self.
Qed.

(** A like on a comment of one's own. *)
Lemma post_comment_like_self (w : World) user id (c : Comment) :
  List.find (has_comment_id id) (comments (db w)) = Some c ->
  comment_user c = au_id user ->
  keeps w (snd (post_comment_like user id e w)).
Proof.
  intros Hfind Hself. unfold post_comment_like, internal_error.
  apply keeps_try; [|apply quiet_respond].
  apply keeps_bind; [apply quiet_Comment_findOne|].
  intros found Hfound. apply Comment_findOne_result in Hfound.
  rewrite Hfind in Hfound. subst found.
  from_here. route not_self.
Qed.

(** C1 (as amended).  When a user votes on, comments on or replies under
    a poll of their own, or likes a comment of their own, the route creates
    no notification record and dispatches no newNotification push.  The
    routes for creating a poll and for closing one have no such guard: any
    record they create is for the acting user, and each such record is
    pushed, as a newNotification message, to the personal room of the acting
    user; these are the only pushes of the run. *)
Theorem no_self_notification (w : World) (t : Trigger) :
  let w' := snd (handle t e w) in
  (guarded t = true ->
   recipient t (db w) = Some (actor t) ->
   notifications (db w') = notifications (db w) /\
   pushes (trace w') = pushes (trace w)) /\
  (guarded t = false ->
   exists l, notifications (db w') = (notifications (db w) ++ l)%list /\
             Forall (fun n => n_userId n = actor t) l /\
             pushed (trace w')
             = (pushed (trace w)
                ++ List.map (fun n => (Some (user_room (actor t)), PNotification n)) l)%list).
Proof.
  cbn zeta. split.
  - intros Hg Hr.
    destruct t as [user pid oid | user pid text parent | user cid | user body | user pid];
      try discriminate Hg; cbn in Hr |- *.
    + destruct (List.find (has_poll_id pid) (polls (db w))) as [p|] eqn:Hf;
        [|discriminate]. injection Hr as Hr.
      exact (post_vote_self w user pid oid p Hf Hr).
    + destruct (List.find (has_poll_id (Js.or_else pid EmptyString)) (polls (db w)))
        as [p|] eqn:Hf; [|discriminate]. injection Hr as Hr.
      exact (post_comments_self w user pid text parent p Hf Hr).
    + destruct (List.find (has_comment_id cid) (comments (db w))) as [c|] eqn:Hf;
        [|discriminate]. injection Hr as Hr.
      exact (post_comment_like_self w user cid c Hf Hr).
  - intros Hg. exact (unguarded_notifies_actor t Hg w).
Qed.

End Routes.

Section Priority.

Import Backend.

(** C8.  The server's mapping from kind to priority gives, on each kind,
    the priority of the table, and the client's mapping equals the server's
    on every string.  A record [createNotification] stores has the priority
    the mapping gives for its type, and the records a trigger's route or the
    closing job leave in the store are such records. *)
Theorem priority_is_the_table :
  Forall (fun kp => getNotificationPriority (fst kp) = snd kp /\
                    Frontend.getNotificationPriority (fst kp) = snd kp)
         priority_table /\
  (forall type, Frontend.getNotificationPriority type = getNotificationPriority type) /\
  (forall e w type data userId,
      let w' := snd (createNotification type data userId e w) in
      notifications (db w') = notifications (db w) \/
      exists n, notifications (db w') = (notifications (db w) ++ [n])%list /\
                n_type n = type /\
                n_priority n = getNotificationPriority type) /\
  (forall e w t,
      exists l,
        notifications (db (snd (handle t e w))) = (notifications (db w) ++ l)%list /\
        Forall (fun n => n_priority n = getNotificationPriority (n_type n)) l) /\
  (forall e w,
      exists l,
        notifications (db (snd (close_expired_polls e w)))
        = (notifications (db w) ++ l)%list /\
        Forall (fun n => n_priority n = getNotificationPriority (n_type n)) l).
Proof.
  split; [|split; [|split; [|split]]].
  - repeat constructor.
  - exact priorities_agree.
  - intros e w type data userId. cbn zeta.
    pose proof (createNotification_run e w type data userId) as H. cbn zeta in H.
    destruct (rejects e NotificationSave (calls w));
      destruct H as (_ & Hdb & _); rewrite Hdb.
    + left. reflexivity.
    + right. eexists. split; [reflexivity|]. split; reflexivity.
  - intros e w t. exact (handle_adds_by_priority e t w).
  - intros e w. exact (close_expired_polls_adds_by_priority e w).
Qed.

End Priority.

Section SelfNotification.

Import Backend.

(** alice votes on her own poll: nothing is stored for her and nothing
    is pushed. *)
Lemma no_self_notification_witness :
  let t := VoteCast Examples.alice "p1" (Some "o1") in
  let w' := snd (handle t Examples.env0 Examples.world1) in
  recipient t (db Examples.world1) = Some (actor t) /\
  notifications (db w') = notifications (db Examples.world1) /\
  pushes (trace w') = pushes (trace Examples.world1).
Proof.
  split; [reflexivity|].
  apply (proj1 (no_self_notification Examples.env0 Examples.world1
                  (VoteCast Examples.alice "p1" (Some "o1")))); reflexivity.
Defined.

(** C1 (counterexample).  Creating a poll, and closing a poll of one's
    own, stores a notification for the acting user and pushes it to that
    user's room. *)
Lemma creator_is_notified :
  (let t := PollCreated Examples.alice Examples.body1 in
   let w' := snd (handle t Examples.env0 Examples.world1) in
   recipient t (db Examples.world1) = Some (actor t) /\
   notifications (db Examples.world1) = [] /\
   List.map (fun n => (n_userId n, n_type n)) (notifications (db w'))
     = [(actor t, "poll_created")] /\
   pushed_to (trace w') = [Some "user_A"]) /\
  (let t := PollClosed Examples.alice "p1" in
   let w' := snd (handle t Examples.env0 Examples.world1) in
   recipient t (db Examples.world1) = Some (actor t) /\
   List.map (fun n => (n_userId n, n_type n)) (notifications (db w'))
     = [(actor t, "poll_closed")] /\
   pushed_to (trace w') = [Some "user_A"]).
Proof.
  vm_compute. repeat split.
Qed.

End SelfNotification.

(** ** Routes do not look at the outcome of a notification save *)

Section Blind.

Import Backend.
Local Open Scope handler_scope.

Context (e1 e2 : Env).
Hypothesis same : same_but_notification_save e1 e2.

Lemma alike_refl (w : World) : alike w w.
Proof. repeat split. Qed.

Lemma visible_app (t1 t2 : list Event) :
  List.filter visible (t1 ++ t2) = (List.filter visible t1 ++ List.filter visible t2)%list.
Proof. apply List.filter_app. Qed.

Lemma responses_visible (t : list Event) :
  responses (List.filter visible t) = responses t.
Proof.
  unfold responses. induction t as [|ev t IH]; [reflexivity|].
  cbn [List.filter]. destruct ev as [op i| r n p rc | c x p]; cbn.
  - destruct op; cbn; exact IH.
  - destruct (String.eqb n "newNotification"); cbn; exact IH.
  - f_equal. exact IH.
Qed.

Lemma blind_ret {A} (a : A) : blind e1 e2 (ret a).
Proof. intros w1 w2 H. split; [reflexivity | exact H]. Qed.

Lemma blind_bind {A B} (c : M A) (k : A -> M B) :
  blind e1 e2 c -> (forall a, blind e1 e2 (k a)) -> blind e1 e2 (bind c k).
Proof.
  intros Hc Hk w1 w2 H. unfold bind. destruct (Hc w1 w2 H) as [Hr Hw].
  destruct (c e1 w1) as [[a|] w1'], (c e2 w2) as [[b|] w2']; cbn in *;
    try discriminate.
  - injection Hr as ->. apply Hk, Hw.
  - split; [reflexivity | exact Hw].
Qed.

Lemma blind_bind_unit {A B} (c : M A) (k : M B) :
  blind_unit e1 e2 c -> blind e1 e2 k -> blind e1 e2 (bind c (fun _ => k)).
Proof.
  intros Hc Hk w1 w2 H. specialize (Hc w1 w2 H). unfold bind, ret in *.
  destruct (c e1 w1) as [[a|] w1'], (c e2 w2) as [[b|] w2']; cbn in *;
    destruct Hc as [Hr Hw]; try discriminate.
  - apply Hk, Hw.
  - split; [reflexivity | exact Hw].
Qed.

Lemma blind_try {A} (c h : M A) :
  blind e1 e2 c -> blind e1 e2 h -> blind e1 e2 (try_catch c h).
Proof.
  intros Hc Hh w1 w2 H. unfold try_catch. destruct (Hc w1 w2 H) as [Hr Hw].
  destruct (c e1 w1) as [[a|] w1'], (c e2 w2) as [[b|] w2']; cbn in *;
    try discriminate.
  - split; assumption.
  - apply Hh, Hw.
Qed.

Lemma blind_when (b : bool) (c : M unit) :
  blind e1 e2 c -> blind e1 e2 (when b c).
Proof. intros H. destruct b; cbn; [exact H | apply blind_ret]. Qed.

Lemma blind_map_m {A B} (f : A -> M B) (l : list A) :
  (forall x, blind e1 e2 (f x)) -> blind e1 e2 (map_m f l).
Proof.
  intros Hf. induction l as [|x l IH]; cbn [map_m].
  - apply blind_ret.
  - apply blind_bind; [apply Hf|]. intros y.
    apply blind_bind; [apply IH|]. intros ys. apply blind_ret.
Qed.

(** A call on another collection answers the same in both runs. *)
Lemma same_rejects (op : DbOp) (w1 w2 : World) :
  op <> NotificationSave -> alike w1 w2 ->
  rejects e1 op (calls w1) = rejects e2 op (calls w2).
Proof.
  intros Hop (_ & _ & _ & _ & _ & _ & Hk & _). rewrite Hk.
  destruct same as (_ & _ & Hr). apply Hr, Hop.
Qed.

Ltac blind_op op :=
  intros w1 w2 Halike;
  pose proof (same_rejects op w1 w2 ltac:(discriminate) Halike) as Hrej;
  destruct Halike as (Hu & Hp & Hv & Hc & Hs & Hn & Hk & Ht);
  cbn; rewrite Hrej, ?Hu, ?Hp, ?Hv, ?Hc, ?Hs;
  destruct (rejects e2 op (calls w2));
  cbn; rewrite ?visible_app, ?Hu, ?Hp, ?Hv, ?Hc, ?Hs, ?Hn, ?Hk, ?Ht;
  repeat split; cbn; rewrite ?visible_app, ?Ht; congruence.

Lemma blind_Poll_findOne id : blind e1 e2 (Poll_findOne id).
Proof. unfold Poll_findOne, db_call, get_db, bind, ret. blind_op PollFindOne. Qed.

Lemma blind_Poll_create p : blind e1 e2 (Poll_create p).
Proof.
  unfold Poll_create, db_call, get_db, put_db, log, bind, ret. blind_op PollSave.
Qed.

Lemma blind_Poll_save p : blind e1 e2 (Poll_save p).
Proof.
  unfold Poll_save, db_call, get_db, put_db, log, bind, ret. blind_op PollSave.
Qed.

Lemma blind_Vote_findOne u p : blind e1 e2 (Vote_findOne u p).
Proof. unfold Vote_findOne, db_call, get_db, bind, ret. blind_op VoteFindOne. Qed.

Lemma blind_Vote_create v : blind e1 e2 (Vote_create v).
Proof.
  unfold Vote_create, db_call, get_db, put_db, log, bind, ret. blind_op VoteSave.
Qed.

Lemma blind_User_findOneAndUpdate id f : blind e1 e2 (User_findOneAndUpdate id f).
Proof.
  unfold User_findOneAndUpdate, db_call, get_db, put_db, log, bind, ret.
  blind_op UserFindOneAndUpdate.
Qed.

Lemma blind_Comment_findOne id : blind e1 e2 (Comment_findOne id).
Proof. unfold Comment_findOne, db_call, get_db, bind, ret. blind_op CommentFindOne. Qed.

Lemma blind_Comment_findOne_recent u p t par since :
  blind e1 e2 (Comment_findOne_recent u p t par since).
Proof.
  unfold Comment_findOne_recent, db_call, get_db, bind, ret. blind_op CommentFindOne.
Qed.

Lemma blind_Comment_create c : blind e1 e2 (Comment_create c).
Proof.
  unfold Comment_create, db_call, get_db, put_db, log, bind, ret. blind_op CommentSave.
Qed.

Lemma blind_Comment_save c : blind e1 e2 (Comment_save c).
Proof.
  unfold Comment_save, db_call, get_db, put_db, log, bind, ret. blind_op CommentSave.
Qed.

Lemma blind_Comment_findOneAndUpdate id f :
  blind e1 e2 (Comment_findOneAndUpdate id f).
Proof.
  unfold Comment_findOneAndUpdate, db_call, get_db, put_db, log, bind, ret.
  blind_op CommentFindOneAndUpdate.
Qed.

Lemma blind_Comment_countDocuments p : blind e1 e2 (Comment_countDocuments p).
Proof.
  unfold Comment_countDocuments, db_call, get_db, bind, ret.
  blind_op CommentCountDocuments.
Qed.

Ltac blind_plain :=
  intros w1 w2 (Hu & Hp & Hv & Hc & Hs & Hn & Hk & Ht);
  destruct same as (Hnow & Hfresh & _);
  cbn; rewrite ?Hs, ?Hn, ?Hnow, ?Hfresh;
  repeat split; cbn; rewrite ?visible_app, ?Ht; congruence.

Lemma blind_generateId : blind e1 e2 generateId.
Proof. blind_plain. Qed.

Lemma blind_date_now : blind e1 e2 date_now.
Proof. blind_plain. Qed.

Lemma blind_respond code text payload : blind e1 e2 (respond code text payload).
Proof. blind_plain. Qed.

Lemma blind_io_to_emit room event payload :
  blind e1 e2 (io_to_emit room event payload).
Proof. blind_plain. Qed.

Lemma blind_io_emit event payload : blind e1 e2 (io_emit event payload).
Proof. blind_plain. Qed.

(** The helper swallows the rejection: whatever the store answers in
    either run, the caller goes on, from worlds that are still alike. *)
Lemma blind_createNotification type data userId :
  blind_unit e1 e2 (createNotification type data userId).
Proof.
  intros w1 w2 Halike. unfold bind, ret.
  pose proof (createNotification_run e1 w1 type data userId) as H1.
  pose proof (createNotification_run e2 w2 type data userId) as H2.
  cbn zeta in H1, H2.
  destruct (createNotification type data userId e1 w1) as [r1 w1'].
  destruct (createNotification type data userId e2 w2) as [r2 w2'].
  cbn [fst snd] in *.
  destruct Halike as (Hu & Hp & Hv & Hc & Hs & Hn & Hk & Ht).
  assert (Hcut : forall t x y,
             List.filter visible
               (t ++ [Wrote NotificationSave x;
                      Emit (Some (user_room userId)) "newNotification" y
                           (members (user_room userId) (sockets w1))])
             = List.filter visible t).
  { intros t x y. rewrite visible_app. cbn. apply app_nil_r. }
  destruct (rejects e1 NotificationSave (calls w1)),
           (rejects e2 NotificationSave (calls w2));
    destruct H1 as (-> & Hd1 & Ht1 & Hs1 & Hn1 & Hk1);
    destruct H2 as (-> & Hd2 & Ht2 & Hs2 & Hn2 & Hk2);
    cbn; (split; [reflexivity|]);
    unfold alike; rewrite Hd1, Hd2, Ht1, Ht2, Hs1, Hs2, Hn1, Hn2, Hk1, Hk2;
    rewrite <- ?Hs, ?Hcut; cbn; repeat split; congruence.
Qed.

End Blind.

Section BlindRoutes.

Import Backend.
Local Open Scope handler_scope.

Context (e1 e2 : Env).
Hypothesis same : same_but_notification_save e1 e2.

Ltac blind_step :=
  lazy zeta;
  match goal with
  | |- blind _ _ (bind (createNotification _ _ _) _) =>
      apply blind_bind_unit; [apply blind_createNotification; exact same|]
  | |- blind _ _ (ret _) => apply blind_ret
  | |- blind _ _ (respond _ _ _) => apply blind_respond; exact same
  | |- blind _ _ internal_error => apply blind_respond; exact same
  | |- blind _ _ generateId => apply blind_generateId; exact same
  | |- blind _ _ date_now => apply blind_date_now; exact same
  | |- blind _ _ (Poll_findOne _) => apply blind_Poll_findOne; exact same
  | |- blind _ _ (Poll_create _) => apply blind_Poll_create; exact same
  | |- blind _ _ (Poll_save _) => apply blind_Poll_save; exact same
  | |- blind _ _ (Vote_findOne _ _) => apply blind_Vote_findOne; exact same
  | |- blind _ _ (Vote_create _) => apply blind_Vote_create; exact same
  | |- blind _ _ (User_findOneAndUpdate _ _) =>
      apply blind_User_findOneAndUpdate; exact same
  | |- blind _ _ (Comment_findOne _) => apply blind_Comment_findOne; exact same
  | |- blind _ _ (Comment_findOne_recent _ _ _ _ _) =>
      apply blind_Comment_findOne_recent; exact same
  | |- blind _ _ (Comment_create _) => apply blind_Comment_create; exact same
  | |- blind _ _ (Comment_save _) => apply blind_Comment_save; exact same
  | |- blind _ _ (Comment_findOneAndUpdate _ _) =>
      apply blind_Comment_findOneAndUpdate; exact same
  | |- blind _ _ (Comment_countDocuments _) =>
      apply blind_Comment_countDocuments; exact same
  | |- blind _ _ (io_to_emit _ _ _) => apply blind_io_to_emit; exact same
  | |- blind _ _ (io_emit _ _) => apply blind_io_emit; exact same
  | |- blind _ _ (try_catch _ _) => apply blind_try
  | |- blind _ _ (bind _ _) => apply blind_bind; [|intros ?]
  | |- blind _ _ (when _ _) => apply blind_when
  | |- blind _ _ (map_m _ _) => apply blind_map_m; intros ?
  | |- blind _ _ (match ?x with _ => _ end) => destruct x eqn:?
  end.

Lemma blind_normalizeOption opt : blind e1 e2 (normalizeOption opt).
Proof. unfold normalizeOption. repeat blind_step. Qed.

Lemma blind_handle (t : Trigger) : blind e1 e2 (handle t).
Proof.
  destruct t; cbn [handle];
    unfold post_vote, post_comments, post_comment_like, post_polls, patch_poll;
    repeat blind_step.
  apply blind_normalizeOption.
Qed.

(** C3 (as amended).  A rejected notification save does not reach the
    caller of the triggering route: [createNotification] catches it, and
    the route answers, and writes to the other collections, exactly as it
    does when the save succeeds.  When the save is rejected the notification
    is dropped: no record is stored and nothing is pushed. *)
Theorem notification_failure_not_propagated (w : World) (t : Trigger) :
  let w1 := snd (handle t e1 w) in
  let w2 := snd (handle t e2 w) in
  responses (trace w1) = responses (trace w2) /\
  users (db w1) = users (db w2) /\ polls (db w1) = polls (db w2) /\
  votes (db w1) = votes (db w2) /\ comments (db w1) = comments (db w2) /\
  ((forall k, rejects e1 NotificationSave k = true) ->
   notifications (db w1) = notifications (db w) /\
   pushes (trace w1) = pushes (trace w)).
Proof.
  cbn zeta.
  destruct (blind_handle t w w (alike_refl w))
    as (_ & Hu & Hp & Hv & Hc & _ & _ & _ & Ht).
  split; [|repeat (split; [assumption|])].
  - rewrite <- (responses_visible (trace (snd (handle t e1 w)))), Ht.
    apply responses_visible.
  - intros Hrejected. exact (quiet_handle_rejected e1 Hrejected t w).
Qed.

End BlindRoutes.

Section FailurePropagation.

Import Backend.

(** bob's vote on alice's poll, with a store that rejects the
    notification save and with one that accepts it. *)
Lemma notification_failure_not_propagated_witness :
  let t := VoteCast Examples.bob "p1" (Some "o1") in
  let w1 := snd (handle t Examples.envF Examples.world1) in
  let w2 := snd (handle t Examples.env0 Examples.world1) in
  responses (trace w1) = responses (trace w2) /\
  notifications (db w1) = notifications (db Examples.world1).
Proof.
  assert (Hsame : same_but_notification_save Examples.envF Examples.env0).
  { split; [reflexivity|]. split; [reflexivity|].
    intros op k Hop. destruct op; try reflexivity. contradiction. }
  destruct (notification_failure_not_propagated Examples.envF Examples.env0 Hsame
              Examples.world1 (VoteCast Examples.bob "p1" (Some "o1")))
    as (Hr & _ & _ & _ & _ & Hq).
  split; [exact Hr|]. apply Hq. intros k. reflexivity.
Defined.

(** C3 (counterexample).  bob votes on alice's poll while the store
    rejects the notification save: the route answers 200, the vote is
    stored, and no notification exists; with a store that accepts, the same
    request leaves one. *)
Lemma vote_succeeds_without_notification :
  let t := VoteCast Examples.bob "p1" (Some "o1") in
  let w1 := snd (handle t Examples.envF Examples.world1) in
  let w2 := snd (handle t Examples.env0 Examples.world1) in
  answers (trace w1) = [(200, "Vote recorded successfully")] /\
  List.map vote_user (votes (db w1)) = ["B"] /\
  notifications (db w1) = [] /\
  pushed_to (trace w1) = [] /\
  List.map n_userId (notifications (db w2)) = ["A"].
Proof.
  vm_compute. repeat split.
Qed.

End FailurePropagation.

(** ** The notification store routes *)

Section NotificationStore.

Import Backend.

Context (e : Env).

(** *** Marking one notification read *)

Lemma owned_by_spec (id userId : string) (n : Notification) :
  owned_by id userId n = true <-> n_id n = id /\ n_userId n = userId.
Proof.
  unfold owned_by. rewrite andb_true_iff, !String.eqb_eq. reflexivity.
Qed.

Lemma owned_by_set_isRead (id userId : string) (b : bool) (n : Notification) :
  owned_by id userId (set_isRead b n) = owned_by id userId n.
Proof. reflexivity. Qed.

Lemma find_owned_none (id userId : string) (l : list Notification) :
  List.find (owned_by id userId) l = None <->
  ~ exists n, In n l /\ n_id n = id /\ n_userId n = userId.
Proof.
  split.
  - intros Hnone (n & Hin & Hid & Hu).
    pose proof (find_none _ _ Hnone n Hin) as Hf.
    assert (owned_by id userId n = true) by (apply owned_by_spec; auto).
    congruence.
  - intros Hno. destruct (List.find (owned_by id userId) l) as [n|] eqn:Hf;
      [|reflexivity].
    apply find_some in Hf. destruct Hf as [Hin Ho].
    apply owned_by_spec in Ho. exfalso. apply Hno. exists n. tauto.
Qed.

Lemma update_first_found {A} (test : A -> bool) (f : A -> A) (l : list A) (x : A) :
  (forall y, test (f y) = test y) ->
  List.find test l = Some x ->
  List.find test (update_first test f l) = Some (f x) /\
  In (f x) (update_first test f l).
Proof.
  intros Hf. induction l as [|y l IH]; cbn; [discriminate|].
  destruct (test y) eqn:Hy.
  - intros [= ->]. cbn. rewrite Hf, Hy. auto.
  - intros Hx. cbn. rewrite Hy. destruct (IH Hx). auto.
Qed.

Lemma update_first_fixed {A} (test : A -> bool) (f : A -> A) (l : list A) (x : A) :
  List.find test l = Some x -> f x = x -> update_first test f l = l.
Proof.
  induction l as [|y l IH]; cbn; [reflexivity|].
  destruct (test y) eqn:Hy.
  - intros [= ->] ->. reflexivity.
  - intros Hx Hfx. rewrite IH; auto.
Qed.

Lemma set_isRead_twice (n : Notification) :
  set_isRead true (set_isRead true n) = set_isRead true n.
Proof. reflexivity. Qed.

Lemma set_isRead_read (n : Notification) :
  n_isRead n = true -> set_isRead true n = n.
Proof. destruct n; cbn; intros ->; reflexivity. Qed.

(** What the route does, by what the store holds. *)
Lemma patch_notification_read_run (w : World) (user : AuthUser) (id : string) :
  rejects e NotificationFindOneAndUpdate (calls w) = false ->
  let w' := snd (patch_notification_read user id e w) in
  match List.find (owned_by id (au_id user)) (notifications (db w)) with
  | Some n =>
      db w' = set_notifications
                (update_first (owned_by id (au_id user)) (set_isRead true)
                              (notifications (db w))) (db w) /\
      trace w' =
        (trace w ++ [Wrote NotificationFindOneAndUpdate id;
                     Emit (Some (user_room (au_id user))) "notificationRead"
                          (PNotificationRead (n_id n))
                          (members (user_room (au_id user)) (sockets w));
                     Respond 200 "Notification marked as read"
                             (PNotification (set_isRead true n))])%list
  | None =>
      db w' = db w /\
      trace w' = (trace w ++ [Respond 404 "Notification not found" PNone])%list
  end /\ calls w' = S (calls w) /\ sockets w' = sockets w.
Proof.
  intros Hok.
  unfold patch_notification_read, Notification_findOneAndUpdate, internal_error,
    respond, io_to_emit, db_call, get_db, put_db, log, try_catch, bind, ret.
  rewrite Hok. cbn.
  destruct (List.find (owned_by id (au_id user)) (notifications (db w))); cbn.
  - rewrite <- !app_assoc. repeat split.
  - repeat split.
Qed.

Lemma answers_app (t1 t2 : list Event) :
  answers (t1 ++ t2) = (answers t1 ++ answers t2)%list.
Proof.
  induction t1 as [|ev t1 IH]; [reflexivity|].
  destruct ev; cbn; rewrite IH; reflexivity.
Qed.

(** C9.  Marking a notification read answers 200 with the record, now
    read, whenever the caller owns a notification of that id, and a second
    call answers 200 again and leaves the store as the first left it; when
    every such record was already read the store does not change at all.
    The answer is 404 exactly when no notification has that id and that
    owner, and then nothing changes. *)
Theorem mark_read_idempotent_or_not_found (w : World) (user : AuthUser) (id : string) :
  rejects e NotificationFindOneAndUpdate (calls w) = false ->
  let w' := snd (patch_notification_read user id e w) in
  let owned := exists n, In n (notifications (db w)) /\ n_id n = id /\
                         n_userId n = au_id user in
  (owned ->
   (exists n',
       answers (trace w') =
         (answers (trace w) ++ [(200, "Notification marked as read")])%list /\
       In (Respond 200 "Notification marked as read" (PNotification n')) (trace w') /\
       n_isRead n' = true /\ n_id n' = id /\ n_userId n' = au_id user /\
       In n' (notifications (db w'))) /\
   ((forall m, In m (notifications (db w)) -> n_id m = id ->
               n_userId m = au_id user -> n_isRead m = true) ->
    db w' = db w) /\
   (rejects e NotificationFindOneAndUpdate (calls w') = false ->
    let w'' := snd (patch_notification_read user id e w') in
    db w'' = db w' /\
    answers (trace w'') =
      (answers (trace w') ++ [(200, "Notification marked as read")])%list)) /\
  (answers (trace w') = (answers (trace w) ++ [(404, "Notification not found")])%list
   <-> ~ owned) /\
  (~ owned -> db w' = db w).
Proof.
  intros Hok. cbn zeta.
  pose proof (patch_notification_read_run w user id Hok) as Hrun. cbn zeta in Hrun.
  set (w' := snd (patch_notification_read user id e w)) in *.
  destruct (List.find (owned_by id (au_id user)) (notifications (db w)))
    as [n|] eqn:Hfind.
  - destruct Hrun as ((Hdb & Htrace) & Hcalls & Hsock).
    pose proof (find_some _ _ Hfind) as [Hin Hown].
    apply owned_by_spec in Hown. destruct Hown as [Hid Huser].
    pose proof (update_first_found _ (set_isRead true) _ _
                  (owned_by_set_isRead id (au_id user) true) Hfind) as [Hfind' Hin'].
    assert (Howned : exists n, In n (notifications (db w)) /\ n_id n = id /\
                               n_userId n = au_id user) by (exists n; auto).
    split; [intros _; split; [|split] | split].
    + exists (set_isRead true n). rewrite Htrace, Hdb, answers_app. cbn.
      repeat split; auto.
      apply in_or_app. right. right. right. left. reflexivity.
    + intros Hall. rewrite Hdb.
      rewrite (update_first_fixed _ _ _ n Hfind).
      * destruct (db w); reflexivity.
      * apply set_isRead_read. apply Hall; auto.
    + intros Hok'. cbn zeta.
      pose proof (patch_notification_read_run w' user id Hok') as Hrun'.
      cbn zeta in Hrun'. rewrite Hdb in Hrun' at 1. cbn [notifications set_notifications] in Hrun'.
      rewrite Hfind' in Hrun'. destruct Hrun' as ((Hdb' & Htrace') & _).
      split.
      * rewrite Hdb', Hdb. cbn.
        rewrite (update_first_fixed _ _ _ _ Hfind' (set_isRead_twice n)).
        reflexivity.
      * rewrite Htrace', answers_app. reflexivity.
    + split; [|intros Hno; contradiction].
      rewrite Htrace, answers_app. cbn. intros Heq.
      apply app_inv_head in Heq. discriminate.
    + intros Hno; contradiction.
  - destruct Hrun as ((Hdb & Htrace) & _).
    apply find_owned_none in Hfind.
    split; [intros Hyes; contradiction | split].
    + split; [intros _; exact Hfind|].
      intros _. rewrite Htrace, answers_app. reflexivity.
    + intros _. exact Hdb.
Qed.

End NotificationStore.

Section NotificationStoreExamples.

Import Backend.

(** alice marks her notification n1 read. *)
Lemma mark_read_idempotent_or_not_found_witness :
  let w := Examples.world_with 2 in
  let w' := snd (patch_notification_read Examples.alice "n1" Examples.env0 w) in
  exists n',
    answers (trace w') =
      (answers (trace w) ++ [(200, "Notification marked as read")])%list /\
    In (Respond 200 "Notification marked as read" (PNotification n')) (trace w') /\
    n_isRead n' = true /\ n_id n' = "n1" /\ n_userId n' = "A" /\
    In n' (notifications (db w')).
Proof.
  destruct (mark_read_idempotent_or_not_found Examples.env0 (Examples.world_with 2)
              Examples.alice "n1" eq_refl) as [Hsuccess _].
  apply Hsuccess.
  exists (Examples.notification_of 1). split; [right; left; reflexivity|].
  split; reflexivity.
Defined.

End NotificationStoreExamples.

(** *** Listing *)

Section Listing.

Import Backend.

Lemma insert_desc_perm (n : Notification) (l : list Notification) :
  Permutation (insert_desc n l) (n :: l).
Proof.
  induction l as [|m l IH]; cbn; [reflexivity|].
  destruct (Z.ltb (n_timestamp m) (n_timestamp n)); [reflexivity|].
  rewrite IH. apply perm_swap.
Qed.

Lemma sort_desc_perm (l : list Notification) : Permutation (sort_desc l) l.
Proof.
  induction l as [|n l IH]; cbn; [reflexivity|].
  rewrite insert_desc_perm. constructor. exact IH.
Qed.

Lemma insert_desc_sorted (n : Notification) (l : list Notification) :
  StronglySorted newer_first l -> StronglySorted newer_first (insert_desc n l).
Proof.
  induction 1 as [|m l Hl IH Hm]; cbn.
  - repeat constructor.
  - destruct (Z.ltb_spec (n_timestamp m) (n_timestamp n)) as [Hlt|Hge].
    + constructor; [constructor; assumption|].
      constructor; [unfold newer_first; lia|].
      eapply List.Forall_impl; [|exact Hm]. unfold newer_first. intros x Hx. lia.
    + constructor; [exact IH|].
      eapply Permutation_Forall; [symmetry; apply insert_desc_perm|].
      constructor; [exact Hge | exact Hm].
Qed.

Lemma sort_desc_sorted (l : list Notification) :
  StronglySorted newer_first (sort_desc l).
Proof.
  induction l as [|n l IH]; cbn; [constructor|].
  apply insert_desc_sorted, IH.
Qed.

Lemma sorted_app_order (l1 l2 : list Notification) :
  StronglySorted newer_first (l1 ++ l2) ->
  forall r o, In r l1 -> In o l2 -> n_timestamp o <= n_timestamp r.
Proof.
  induction l1 as [|x l1 IH]; cbn; intros Hs r o Hr Ho; [contradiction|].
  apply StronglySorted_inv in Hs. destruct Hs as [Hs Hx].
  destruct Hr as [->|Hr].
  - rewrite List.Forall_forall in Hx. apply (Hx o). apply in_or_app. right; exact Ho.
  - eapply IH; eauto.
Qed.

Lemma limit_positive (k : nat) (l : list Notification) :
  k <> O -> limit k l = firstn k l.
Proof. destruct k; [congruence | reflexivity]. Qed.

(** What the list route does when the store answers. *)
Lemma get_notifications_run (e : Env) (w : World) (user : AuthUser)
    (params : ListParams) :
  rejects e NotificationFind (calls w) = false ->
  let w' := snd (get_notifications user params e w) in
  let query :=
    {| query_userId := au_id user;
       query_type := filter_value (param_type params);
       query_priority := filter_value (param_priority params);
       query_isRead := if option_string_eqb (param_unreadOnly params) (Some "true")
                       then Some false else None |} in
  let k := match param_limit params with Some k => k | None => 50%nat end in
  db w' = db w /\
  trace w' =
    (trace w ++
     [Respond 200 EmptyString
        (PNotifications
           (List.map with_read_alias
              (limit k (sort_desc (List.filter (matches query)
                                               (notifications (db w)))))))])%list.
Proof.
  intros Hok.
  unfold get_notifications, Notification_find, internal_error, respond,
    db_call, get_db, log, try_catch, bind, ret.
  rewrite Hok. split; reflexivity.
Qed.

(** C10.  Without a limit parameter the list route answers with at most
    50 of the caller's matching notifications, the most recent ones: no
    notification it leaves out is more recent than one it returns.  With
    more than 50 matching records it returns exactly 50 and leaves the
    others out, and these stay in the store. *)
Theorem default_list_limit (e : Env) (w : World) (user : AuthUser)
    (params : ListParams) :
  rejects e NotificationFind (calls w) = false ->
  param_limit params = None ->
  let w' := snd (get_notifications user params e w) in
  let query :=
    {| query_userId := au_id user;
       query_type := filter_value (param_type params);
       query_priority := filter_value (param_priority params);
       query_isRead := if option_string_eqb (param_unreadOnly params) (Some "true")
                       then Some false else None |} in
  let matching := List.filter (matches query) (notifications (db w)) in
  exists returned omitted : list Notification,
    trace w' =
      (trace w ++ [Respond 200 EmptyString
                     (PNotifications (List.map with_read_alias returned))])%list /\
    db w' = db w /\
    length returned = Nat.min 50 (length matching) /\
    Permutation (returned ++ omitted) matching /\
    (forall r o, In r returned -> In o omitted -> n_timestamp o <= n_timestamp r) /\
    ((50 < length matching)%nat ->
     length returned = 50%nat /\ omitted <> [] /\
     forall o, In o omitted -> In o (notifications (db w'))).
Proof.
  intros Hok Hlimit. cbn zeta.
  destruct (get_notifications_run e w user params Hok) as [Hdb Htrace].
  rewrite Hlimit in Htrace.
  rewrite limit_positive in Htrace by discriminate.
  set (query := {| query_userId := au_id user;
                   query_type := filter_value (param_type params);
                   query_priority := filter_value (param_priority params);
                   query_isRead := if option_string_eqb (param_unreadOnly params)
                                                        (Some "true")
                                   then Some false else None |}) in *.
  set (matching := List.filter (matches query) (notifications (db w))) in *.
  assert (Hlen : length (sort_desc matching) = length matching)
    by (apply Permutation_length, sort_desc_perm).
  assert (Hsplit : (firstn 50 (sort_desc matching) ++ skipn 50 (sort_desc matching))%list
                   = sort_desc matching) by apply firstn_skipn.
  exists (firstn 50 (sort_desc matching)), (skipn 50 (sort_desc matching)).
  split; [exact Htrace|]. split; [exact Hdb|].
  split; [rewrite length_firstn, Hlen; reflexivity|].
  split; [rewrite Hsplit; apply sort_desc_perm|].
  split.
  - apply sorted_app_order. rewrite Hsplit. apply sort_desc_sorted.
  - intros Hmore. split; [rewrite length_firstn, Hlen; lia|]. split.
    + intros Hnil. apply (f_equal (@length _)) in Hnil.
      rewrite length_skipn, Hlen in Hnil. cbn in Hnil. lia.
    + intros o Ho. rewrite Hdb.
      assert (Hin : In o (sort_desc matching)).
      { rewrite <- Hsplit. apply in_or_app. right; exact Ho. }
      apply (Permutation_in _ (sort_desc_perm matching)) in Hin.
      unfold matching in Hin. apply List.filter_In in Hin. tauto.
Qed.

End Listing.

Section ListingExamples.

Import Backend.

(** alice lists her notifications when the store holds 51 of them. *)
Lemma default_list_limit_witness :
  let w := Examples.world_with 51 in
  let w' := snd (get_notifications Examples.alice Examples.no_params Examples.env0 w) in
  exists returned omitted : list Notification,
    trace w' =
      (trace w ++ [Respond 200 EmptyString
                     (PNotifications (List.map with_read_alias returned))])%list /\
    length returned = 50%nat /\ omitted <> [] /\
    forall o, In o omitted -> In o (notifications (db w')).
Proof.
  destruct (default_list_limit Examples.env0 (Examples.world_with 51)
              Examples.alice Examples.no_params eq_refl eq_refl)
    as (returned & omitted & Htrace & _ & _ & _ & _ & Hmore).
  exists returned, omitted. split; [exact Htrace|].
  apply Hmore. vm_compute. lia.
Defined.

End ListingExamples.

(** ** Rooms *)

Section Rooms.

Import Backend.

Lemma strict_eq_eq (a b : Js.value) : Js.strict_eq a b = true -> a = b.
Proof.
  destruct a, b; cbn; try discriminate; try reflexivity.
  - intros H. apply Bool.eqb_prop in H. congruence.
  - intros H. apply Z.eqb_eq in H. congruence.
  - intros H. apply String.eqb_eq in H. congruence.
Qed.

Lemma strict_eq_refuses (a b : Js.value) : a <> b -> Js.strict_eq a b = false.
Proof.
  intros Hne. destruct (Js.strict_eq a b) eqn:H; [|reflexivity].
  apply strict_eq_eq in H. contradiction.
Qed.

Lemma poll_room_not_personal (pollId : string) : personal (poll_room pollId) = false.
Proof. reflexivity. Qed.

Lemma personal_rooms_own_empty : personal_rooms_own ∅.
Proof. intros sid socket room H. rewrite lookup_empty in H. discriminate. Qed.

(** No socket event breaks the invariant. *)
Lemma personal_rooms_own_step (ev : SocketEvent) (reg : gmap string Socket) :
  personal_rooms_own reg -> personal_rooms_own (on_socket_event ev reg).
Proof.
  intros Hinv. destruct ev as [sid uid uname | sid userId | sid pid | sid pid | sid];
    cbn [on_socket_event].
  - intros sid' socket room Hlook Hin Hp.
    destruct (decide (sid = sid')) as [->|Hne].
    + rewrite lookup_insert_eq in Hlook. injection Hlook as <-.
      destruct (Js.truthy uid); cbn in Hin |- *.
      * apply elem_of_union in Hin. destruct Hin as [Hin|Hin].
        -- apply not_elem_of_empty in Hin. contradiction.
        -- apply elem_of_singleton in Hin. exact Hin.
      * apply not_elem_of_empty in Hin. contradiction.
    + rewrite lookup_insert_ne in Hlook by exact Hne. eapply Hinv; eauto.
  - destruct (reg !! sid) as [s|] eqn:Hs; [|exact Hinv].
    destruct (Js.strict_eq (Js.of_option (sock_user_id s)) userId) eqn:Heq;
      [|exact Hinv].
    apply strict_eq_eq in Heq. subst userId.
    intros sid' socket room Hlook Hin Hp.
    destruct (decide (sid = sid')) as [->|Hne].
    + rewrite lookup_insert_eq in Hlook. injection Hlook as <-.
      cbn in Hin |- *. apply elem_of_union in Hin. destruct Hin as [Hin|Hin].
      * eapply Hinv; eauto.
      * apply elem_of_singleton in Hin. exact Hin.
    + rewrite lookup_insert_ne in Hlook by exact Hne. eapply Hinv; eauto.
  - destruct (reg !! sid) as [s|] eqn:Hs; [|exact Hinv].
    intros sid' socket room Hlook Hin Hp.
    destruct (decide (sid = sid')) as [->|Hne].
    + rewrite lookup_insert_eq in Hlook. injection Hlook as <-.
      cbn in Hin |- *. apply elem_of_union in Hin. destruct Hin as [Hin|Hin].
      * eapply Hinv; eauto.
      * apply elem_of_singleton in Hin. subst room.
        rewrite poll_room_not_personal in Hp. discriminate.
    + rewrite lookup_insert_ne in Hlook by exact Hne. eapply Hinv; eauto.
  - destruct (reg !! sid) as [s|] eqn:Hs; [|exact Hinv].
    intros sid' socket room Hlook Hin Hp.
    destruct (decide (sid = sid')) as [->|Hne].
    + rewrite lookup_insert_eq in Hlook. injection Hlook as <-.
      cbn in Hin |- *. apply elem_of_difference in Hin. destruct Hin as [Hin _].
      eapply Hinv; eauto.
    + rewrite lookup_insert_ne in Hlook by exact Hne. eapply Hinv; eauto.
  - intros sid' socket room Hlook Hin Hp.
    destruct (decide (sid = sid')) as [->|Hne].
    + rewrite lookup_delete_eq in Hlook. discriminate.
    + rewrite lookup_delete_ne in Hlook by exact Hne. eapply Hinv; eauto.
Qed.

Lemma personal_rooms_own_fold (events : list SocketEvent) (reg : gmap string Socket) :
  personal_rooms_own reg ->
  personal_rooms_own (List.fold_left (fun r ev => on_socket_event ev r) events reg).
Proof.
  revert reg. induction events as [|ev events IH]; intros reg Hinv; cbn.
  - exact Hinv.
  - apply IH, personal_rooms_own_step, Hinv.
Qed.

(** C7.  On any registry the socket events can produce, a join request
    naming anyone but the socket's own user changes nothing, and each
    socket is in no personal room but its own user's. *)
Theorem personal_room_is_own (events : list SocketEvent) :
  let reg := registry_after events in
  (forall sid socket userId,
      reg !! sid = Some socket ->
      userId <> Js.of_option (sock_user_id socket) ->
      on_socket_event (Join sid userId) reg = reg) /\
  personal_rooms_own reg.
Proof.
  cbn zeta. split.
  - intros sid socket userId Hlook Hne. cbn [on_socket_event]. rewrite Hlook.
    rewrite strict_eq_refuses; [reflexivity|]. congruence.
  - apply personal_rooms_own_fold, personal_rooms_own_empty.
Qed.

(** alice's socket asks to join bob's personal room. *)
Lemma personal_room_is_own_witness :
  let reg := registry_after Examples.events1 in
  on_socket_event (Join "s1" (Js.VString "B")) reg = reg /\
  personal_rooms_own reg.
Proof.
  destruct (personal_room_is_own Examples.events1) as [Hjoin Hown].
  split; [|exact Hown].
  apply (Hjoin "s1" {| sock_user_id := Some "A"; sock_username := "alice";
                       rooms := {[ user_room "A" ]} ∪ {[ poll_room "p1" ]} |}).
  - vm_compute. reflexivity.
  - discriminate.
Defined.

End Rooms.

(** ** Scenarios *)

Section Scenarios.

Import Backend.

(** bob votes on alice's poll: one unread, low-priority vote notification
    for alice, pushed to her socket; once she marks it read, her unread list
    is empty. *)
Example vote_then_read :
  let w1 := snd (handle (VoteCast Examples.bob "p1" (Some "o1"))
                   Examples.env0 Examples.world1) in
  let w2 := snd (patch_notification_read Examples.alice "id1" Examples.env0 w1) in
  let w3 := snd (get_notifications Examples.alice Examples.unread_only Examples.env0 w2) in
  List.map (fun n => (n_id n, n_type n, n_userId n, n_priority n, n_isRead n))
           (notifications (db w1))
    = [("id1", "vote", "A", "low", false)] /\
  sent (trace w1) = [("user_A", "newNotification", ["s1"]);
                     ("poll_p1", "pollUpdate", [])] /\
  answers (trace w2) = [(200, "Vote recorded successfully");
                        (200, "Notification marked as read")] /\
  last (trace w3) = Some (Respond 200 EmptyString (PNotifications [])).
Proof.
  vm_compute. repeat split.
Qed.

(** The closing job finds alice's expired poll: it is closed, alice gets
    exactly one poll_closed notification, and the poll's room is sent
    pollUpdate and pollClosed. *)
Example automatic_closure :
  let w' := snd (close_expired_polls Examples.env0 Examples.world_expiring) in
  List.map (fun p => (poll_id p, status p)) (polls (db w'))
    = [("p1", "active"); ("p2", "closed")] /\
  List.map (fun n => (n_type n, n_userId n, n_message n)) (notifications (db w'))
    = [("poll_closed", "A",
        "Your poll " +:+ dq +:+ "Lunch" +:+ dq +:+
        " has been automatically closed as it reached its end date. Final results are now available.")] /\
  sent (trace w') = [("user_A", "newNotification", ["s1"]);
                     ("poll_p2", "pollUpdate", []);
                     ("poll_p2", "pollClosed", [])].
Proof.
  vm_compute. repeat split.
Qed.

End Scenarios.

(** * More properties *)

(** One step of a run: the calls are opened up, and the run is followed
    along each answer of the store. *)
Ltac open_calls :=
  unfold Routes.patch_mark_all_read, Routes.delete_notification, Routes.delete_clear_all,
    Routes.get_poll, Routes.Notification_updateMany, Routes.Notification_findOneAndDelete,
    Routes.Notification_deleteMany, Routes.db_call_more;
  unfold Backend.internal_error, Backend.createNotification,
    Backend.Poll_findOne, Backend.Poll_create, Backend.Poll_save,
    Backend.Poll_find_expired, Backend.Vote_findOne, Backend.Vote_create,
    Backend.User_findOneAndUpdate, Backend.Comment_findOne,
    Backend.Comment_findOne_recent, Backend.Comment_create, Backend.Comment_save,
    Backend.Comment_findOneAndUpdate, Backend.Comment_countDocuments,
    Backend.Notification_save, Backend.Notification_find,
    Backend.Notification_findOneAndUpdate;
  unfold Backend.respond, Backend.io_to_emit, Backend.io_emit, Backend.generateId,
    Backend.date_now, Backend.db_call, Backend.get_db, Backend.put_db, Backend.log,
    Backend.when, Backend.try_catch, Backend.bind, Backend.ret.

Ltac simpl_world :=
  cbn [fst snd Backend.db Backend.trace Backend.sockets Backend.next_id Backend.calls
       Backend.count_call Backend.with_db Backend.record
       Backend.users Backend.polls Backend.votes Backend.comments Backend.notifications
       Backend.set_users Backend.set_polls Backend.set_votes Backend.set_comments
       Backend.set_notifications negb andb orb].

Ltac follow :=
  repeat first
    [ progress simpl_world
    | match goal with
      | |- context [Backend.rejects ?e ?op ?k] =>
          destruct (Backend.rejects e op k) eqn:?
      end ].

(** A run of a route followed to each of its ends: by the answers of the
    store, by what the request carries and by what the store holds. *)
Ltac run_route :=
  repeat first
    [ progress simpl_world
    | match goal with
      | |- context [Backend.rejects ?e ?op ?k] => destruct (Backend.rejects e op k) eqn:?
      | |- context [Js.truthy ?o] => destruct (Js.truthy o) eqn:?
      | |- context [List.find ?f (?field (Backend.db ?v))] =>
          is_var v; destruct (List.find f (field (Backend.db v))) eqn:?
      | |- context [List.find ?f (Backend.options ?p)] =>
          is_var p; destruct (List.find f (Backend.options p)) eqn:?
      | |- context [Backend.allow_multiple_votes ?p] =>
          destruct (Backend.allow_multiple_votes p) eqn:?
      | |- context [existsb ?f (Backend.liked_by ?c)] =>
          is_var c; destruct (existsb f (Backend.liked_by c)) eqn:?
      | |- context [String.eqb ?a ?b] => destruct (String.eqb a b) eqn:?
      end ].

(** The ways a run ends: refused with nothing written; failed. *)
Ltac ends_refused :=
  left; eexists _, _; split; [|split; reflexivity]; cbn; tauto.

Ltac ends_failed :=
  right; left; rewrite ?answers_app; cbn [Backend.answers]; rewrite ?app_nil_r;
  reflexivity.

(** A run that did not end with the answer that is assumed of it. *)
Ltac wrong_answer :=
  let H := fresh in
  intros H; exfalso; rewrite ?answers_app in H; cbn [Backend.answers] in H;
  rewrite ?app_nil_r in H;
  first [ apply app_inv_head in H; discriminate H
        | symmetry in H; apply app_eq_nil in H; destruct H; discriminate
        | (rewrite <- (app_nil_r (Backend.answers _)) in H at 1;
           apply app_inv_head in H; discriminate H) ].

(** ** The notification store, continued *)

Section StoreRoutes.

Import Backend Routes.

Context (e : Env).






Lemma update_first_pointwise {A} (test : A -> bool) (f : A -> A) (l : list A) :
  Forall2 (fun a b => b = a \/ (b = f a /\ test a = true)) l (update_first test f l).
Proof.
  induction l as [|a l IH]; cbn; [constructor|].
  destruct (test a) eqn:Ha.
  - constructor; [right; auto|].
    clear. induction l; constructor; auto.
  - constructor; [left; reflexivity | exact IH].
Qed.

Lemma Forall2_same {A} (R : A -> A -> Prop) (l : list A) :
  (forall a, R a a) -> Forall2 R l l.
Proof. intros H. induction l; constructor; auto. Qed.

(** X2.  Whatever the store answers, marking a notification read changes
    nothing but the [isRead] flag of a notification with that id that the
    caller owns, and only from unread to read: the store keeps its length and
    order, every other record (in particular every record of another user) is
    what it was, and no record goes from read to unread. *)
Theorem mark_read_touches_own_only (w : World) (user : AuthUser) (id : string) :
  let w' := snd (patch_notification_read user id e w) in
  Forall2 (fun before after =>
             after = before \/
             (after = set_isRead true before /\
              n_id before = id /\ n_userId before = au_id user))
          (notifications (db w)) (notifications (db w')) /\
  users (db w') = users (db w) /\ polls (db w') = polls (db w) /\
  votes (db w') = votes (db w) /\ comments (db w') = comments (db w).
Proof.
  cbn zeta. unfold patch_notification_read. open_calls. follow.
  - split; [|repeat split]. apply Forall2_same. auto.
  - destruct (List.find (owned_by id (au_id user)) (notifications (db w))); follow.
    + split; [|repeat split].
      eapply Forall2_impl; [apply update_first_pointwise|].
      cbn. intros a b [->|[-> Ho]]; [left; reflexivity|].
      right. apply owned_by_spec in Ho. tauto.
    + split; [|repeat split]. apply Forall2_same. auto.
Qed.

(** *** Marking all read, deleting *)

Context (x : MoreOp -> nat -> bool).

Lemma filter_none {A} (f : A -> bool) (l : list A) :
  (forall a, In a l -> f a = false) -> List.filter f l = [].
Proof.
  induction l as [|a l IH]; cbn; intros H; [reflexivity|].
  rewrite (H a) by (left; reflexivity). apply IH. intros b Hb. apply H. right; exact Hb.
Qed.

Lemma mark_all_map (userId : string) (l : list Notification) :
  List.map (fun n => if unread_of userId n then set_isRead true n else n) l
  = List.map (fun n => if String.eqb (n_userId n) userId then set_isRead true n else n) l.
Proof.
  apply map_ext. intros n. unfold unread_of.
  destruct (String.eqb (n_userId n) userId); [|reflexivity].
  destruct (n_isRead n) eqn:Hr; cbn; [|reflexivity].
  symmetry. apply set_isRead_read. exact Hr.
Qed.

(** What marking all read does when the store answers. *)
Lemma patch_mark_all_read_run (w : World) (user : AuthUser) :
  x NotificationUpdateMany (calls w) = false ->
  let w' := snd (patch_mark_all_read x user e w) in
  db w' = set_notifications
            (List.map (fun n => if String.eqb (n_userId n) (au_id user)
                                then set_isRead true n else n)
                      (notifications (db w))) (db w) /\
  trace w' =
    (trace w ++ [Emit (Some (user_room (au_id user))) "allNotificationsRead" PNone
                      (members (user_room (au_id user)) (sockets w));
                 Respond 200 "All notifications marked as read"
                   (PCount (Z.of_nat (length (List.filter (unread_of (au_id user))
                                                          (notifications (db w))))))])%list /\
  calls w' = S (calls w).
Proof.
  intros Hok. cbn zeta. unfold patch_mark_all_read. open_calls. rewrite Hok. follow.
  rewrite mark_all_map, <- app_assoc. repeat split.
Qed.

(** X3.  When the store answers, marking all read tells the caller's room
    and then answers 200 with, as [count], the number of the caller's
    notifications that were unread; it leaves every notification of the
    caller read and every notification of another user as it was, and a list
    of the caller's unread notifications asked for next is empty. *)
Theorem mark_all_read_leaves_none_unread (w : World) (user : AuthUser) :
  x NotificationUpdateMany (calls w) = false ->
  let w' := snd (patch_mark_all_read x user e w) in
  trace w' =
    (trace w ++ [Emit (Some (user_room (au_id user))) "allNotificationsRead" PNone
                      (members (user_room (au_id user)) (sockets w));
                 Respond 200 "All notifications marked as read"
                   (PCount (Z.of_nat (length (List.filter
                                                (fun n => String.eqb (n_userId n) (au_id user) &&
                                                          negb (n_isRead n))%bool
                                                (notifications (db w))))))])%list /\
  Forall2 (fun before after =>
             if String.eqb (n_userId before) (au_id user)
             then after = set_isRead true before
             else after = before)
          (notifications (db w)) (notifications (db w')) /\
  (forall params,
      param_unreadOnly params = Some "true" ->
      rejects e NotificationFind (calls w') = false ->
      trace (snd (get_notifications user params e w'))
      = (trace w' ++ [Respond 200 EmptyString (PNotifications [])])%list).
Proof.
  intros Hok. cbn zeta.
  destruct (patch_mark_all_read_run w user Hok) as (Hdb & Htrace & _).
  split; [|split].
  - exact Htrace.
  - rewrite Hdb. cbn [notifications set_notifications].
    generalize (notifications (db w)) as l. clear. intros l.
    induction l as [|n l IH]; cbn; constructor; [|exact IH].
    destruct (String.eqb (n_userId n) (au_id user)); reflexivity.
  - intros params Hunread Hfind.
    destruct (get_notifications_run e _ user params Hfind) as [_ Hlist].
    rewrite Hlist. rewrite Hunread. cbn [option_string_eqb].
    rewrite String.eqb_refl. rewrite Hdb. cbn [notifications set_notifications].
    rewrite filter_none; [destruct (param_limit params) as [[|k]|]; reflexivity|].
    intros n Hn. apply in_map_iff in Hn. destruct Hn as (m & <- & _).
    unfold matches. cbn [query_userId query_type query_priority query_isRead].
    destruct (String.eqb (n_userId m) (au_id user)) eqn:Hu; cbn.
    + rewrite Hu. cbn. rewrite !andb_false_r. reflexivity.
    + rewrite Hu. reflexivity.
Qed.

Lemma remove_first_perm {A} (test : A -> bool) (l : list A) (n : A) :
  List.find test l = Some n -> Permutation (n :: remove_first test l) l.
Proof.
  induction l as [|y l IH]; cbn; [discriminate|].
  destruct (test y).
  - intros [= ->]. reflexivity.
  - intros H. rewrite perm_swap. constructor. apply IH, H.
Qed.

Lemma remove_first_keeps {A} (test keep : A -> bool) (l : list A) :
  (forall y, test y = true -> keep y = false) ->
  List.filter keep (remove_first test l) = List.filter keep l.
Proof.
  intros H. induction l as [|y l IH]; cbn; [reflexivity|].
  destruct (test y) eqn:Hy.
  - rewrite (H y Hy). reflexivity.
  - cbn. rewrite IH. reflexivity.
Qed.

(** X4.  Deleting a notification removes exactly one record, one with that
    id that the caller owns, and answers 200; when there is none it answers
    404 and the store is as it was.  Either way the notifications of every
    other user are untouched. *)
Theorem delete_removes_own_one (w : World) (user : AuthUser) (id : string) :
  x NotificationFindOneAndDelete (calls w) = false ->
  let w' := snd (delete_notification x user id e w) in
  let owned := exists n, In n (notifications (db w)) /\ n_id n = id /\
                         n_userId n = au_id user in
  (owned ->
   exists n, n_id n = id /\ n_userId n = au_id user /\
             Permutation (n :: notifications (db w')) (notifications (db w)) /\
             answers (trace w') =
               (answers (trace w) ++ [(200, "Notification deleted successfully")])%list) /\
  (~ owned ->
   db w' = db w /\
   answers (trace w') = (answers (trace w) ++ [(404, "Notification not found")])%list) /\
  List.filter (fun n => negb (String.eqb (n_userId n) (au_id user))) (notifications (db w'))
  = List.filter (fun n => negb (String.eqb (n_userId n) (au_id user))) (notifications (db w)).
Proof.
  intros Hok. cbn zeta. unfold delete_notification. open_calls. rewrite Hok. follow.
  destruct (List.find (owned_by id (au_id user)) (notifications (db w))) as [n|] eqn:Hfind;
    follow.
  - pose proof (find_some _ _ Hfind) as [Hin Ho]. apply owned_by_spec in Ho.
    split; [|split].
    + intros _. exists n. rewrite answers_app. repeat split; try tauto.
      apply remove_first_perm, Hfind.
    + intros Hno. exfalso. apply Hno. exists n. tauto.
    + apply remove_first_keeps. intros y Hy. apply owned_by_spec in Hy.
      destruct Hy as [_ ->]. rewrite String.eqb_refl. reflexivity.
  - apply find_owned_none in Hfind. split; [|split].
    + intros Hyes. contradiction.
    + intros _. rewrite answers_app. split; reflexivity.
    + reflexivity.
Qed.

End StoreRoutes.

Section StoreExamples.

Import Backend Routes.


End StoreExamples.

(** ** The routing table *)

Section Routing.

Import Routes.

(** A path that fits the special pattern fits the general one. *)
Lemma covers_fits (general special : list Segment) (path : list string) :
  covers general special = true ->
  path_fits special path = true -> path_fits general path = true.
Proof.
  revert special path. induction general as [|g general IH];
    intros [|s special] [|piece path]; cbn; try discriminate; auto.
  - destruct g; discriminate.
  - destruct g as [a|a], s as [b|b]; try discriminate; intros Hc Hf;
      apply andb_true_iff in Hf; destruct Hf as [Hseg Hrest].
    + apply andb_true_iff in Hc. destruct Hc as [Hab Hc].
      apply andb_true_iff. split; [|eapply IH; eauto].
      cbn in *. apply String.eqb_eq in Hab, Hseg. apply String.eqb_eq. congruence.
    + apply andb_true_iff in Hc. destruct Hc as [Hb Hc].
      apply andb_true_iff. split; [|eapply IH; eauto].
      cbn in *. apply String.eqb_eq in Hseg.
      destruct piece; [|reflexivity].
      cbn in Hseg. rewrite <- Hseg in Hb. discriminate.
    + apply andb_true_iff. split; [exact Hseg | eapply IH; eauto].
Qed.

Lemma method_eqb_eq (a b : Method) : method_eqb a b = true -> a = b.
Proof. destruct a, b; cbn; congruence. Qed.

Lemma shadowed_served (method : Method) (path : list string)
    (earlier : list Route) (r : Route) :
  shadowed_by earlier r = true -> serves method path r = true ->
  exists y, In y earlier /\ serves method path y = true.
Proof.
  unfold shadowed_by, serves. intros Hs Hr.
  apply existsb_exists in Hs. destruct Hs as (y & Hy & Hc).
  apply andb_true_iff in Hc. destruct Hc as [Hm Hc].
  apply andb_true_iff in Hr. destruct Hr as [Hmr Hf].
  exists y. split; [exact Hy|].
  apply method_eqb_eq in Hm. rewrite Hm, Hmr. cbn.
  eapply covers_fits; eauto.
Qed.

(** The route that answers is one that no earlier route shadows. *)
Lemma find_unshadowed (method : Method) (path : list string)
    (earlier l : list Route) (r : Route) :
  (forall y, In y earlier -> serves method path y = false) ->
  List.find (serves method path) l = Some r ->
  In r (unshadowed earlier l).
Proof.
  revert earlier. induction l as [|y l IH]; intros earlier Hnone; cbn; [discriminate|].
  destruct (serves method path y) eqn:Hy.
  - intros [= ->]. apply in_or_app. left.
    destruct (shadowed_by earlier r) eqn:Hs; [|left; reflexivity].
    destruct (shadowed_served method path earlier r Hs Hy) as (z & Hz & Hserved).
    rewrite (Hnone z Hz) in Hserved. discriminate.
  - intros Hfind. apply in_or_app. right. apply IH; [|exact Hfind].
    intros z Hz. apply in_app_or in Hz. destruct Hz as [Hz|[<-|[]]]; auto.
Qed.

(** X5.  Four registrations never answer a request, because an earlier
    route for the same method takes every path they take: the clear-all route
    of line 1606 (behind [DELETE /api/notifications/:id], which takes
    [clear-all] as an id) and the second registrations of lines 1805, 1914
    and 1946. *)
Theorem shadowed_routes_never_answer (method : Method) (path : list string) (r : Route) :
  dispatch method path = Some r ->
  ~ In (route_line r) [1606; 1805; 1914; 1946]%nat.
Proof.
  intros Hd.
  apply (find_unshadowed method path [] routes r) in Hd; [|intros y []].
  intros Hdead.
  assert (Hlive : forallb (fun y => negb (existsb (Nat.eqb (route_line y))
                                            [1606; 1805; 1914; 1946]%nat))
                          (unshadowed [] routes) = true)
    by (vm_compute; reflexivity).
  rewrite forallb_forall in Hlive. specialize (Hlive r Hd).
  apply negb_true_iff in Hlive.
  assert (Hin : existsb (Nat.eqb (route_line r)) [1606; 1805; 1914; 1946]%nat = true).
  { apply existsb_exists. exists (route_line r). split; [exact Hdead|].
    apply Nat.eqb_refl. }
  congruence.
Qed.

(** A request to clear all notifications is answered by the route that
    deletes one. *)
Lemma shadowed_routes_never_answer_witness :
  dispatch DELETE ["api"; "notifications"; "clear-all"]
  = Some (mkRoute DELETE [Lit "api"; Lit "notifications"; Par "id"] 1588) /\
  ~ In 1588%nat [1606; 1805; 1914; 1946]%nat.
Proof.
  split; [reflexivity|].
  exact (shadowed_routes_never_answer DELETE ["api"; "notifications"; "clear-all"]
           (mkRoute DELETE [Lit "api"; Lit "notifications"; Par "id"] 1588) eq_refl).
Defined.

End Routing.

(** ** The handshake and the delivery of a push *)

Section Handshake.

Import Backend Routes.

(** X6.  The handshake accepts a socket exactly when its token is a
    string of three parts between dots that [jwt.verify] accepts, and the
    socket's user is then the verified payload.  A token that the client's
    [isValidTokenFormat] turns down is refused whatever [jwt.verify] would
    say, and registers no socket. *)
Theorem handshake_accepts_verified_only
    (verify : string -> VerifyError + (option string * string)) (token : Js.value) :
  (forall user_id username,
      io_use verify token = Accepted user_id username <->
      exists s, token = Js.VString s /\ Service.isValidTokenFormat token = true /\
                verify s = inr (user_id, username)) /\
  (Service.isValidTokenFormat token = false ->
   (exists message, io_use verify token = Refused message) /\
   (forall verify', io_use verify' token = io_use verify token) /\
   (forall sid reg, connect sid (io_use verify token) reg = reg)).
Proof.
  assert (Hbad : Service.isValidTokenFormat token = false ->
                 exists message, forall v, io_use v token = Refused message).
  { unfold Service.isValidTokenFormat, io_use.
    destruct token as [| |b|z|s|r]; cbn [truthy_value negb]; intros H.
    - eexists; reflexivity.
    - eexists; reflexivity.
    - destruct b; eexists; reflexivity.
    - destruct (Z.eqb z 0); eexists; reflexivity.
    - destruct (String.eqb s EmptyString); cbn [negb]; [eexists; reflexivity|].
      rewrite H. eexists; reflexivity.
    - eexists; reflexivity. }
  split.
  - intros user_id username. split.
    + intros Hacc.
      destruct (Service.isValidTokenFormat token) eqn:Hfmt.
      * unfold Service.isValidTokenFormat in Hfmt. unfold io_use in Hacc.
        destruct token as [| |b|z|s|r]; try discriminate.
        exists s. split; [reflexivity|]. split; [reflexivity|].
        cbn [truthy_value] in Hacc.
        destruct (String.eqb s EmptyString); [discriminate|]. cbn [negb] in Hacc.
        rewrite Hfmt in Hacc. cbn [negb] in Hacc.
        destruct (verify s) as [[| |]|[uid name]]; try discriminate.
        injection Hacc as -> ->. reflexivity.
      * destruct (Hbad eq_refl) as [message Hm]. rewrite Hm in Hacc. discriminate.
    + intros (s & -> & Hfmt & Hv). unfold Service.isValidTokenFormat in Hfmt.
      unfold io_use. cbn [truthy_value].
      destruct (String.eqb s EmptyString); [discriminate|]. cbn [negb].
      rewrite Hfmt, Hv. reflexivity.
  - intros Hfmt. destruct (Hbad Hfmt) as [message Hm]. split; [|split].
    + exists message. apply Hm.
    + intros verify'. rewrite !Hm. reflexivity.
    + intros sid reg. rewrite Hm. reflexivity.
Qed.

End Handshake.

Section Delivery.

Import Backend.

Lemma elem_of_members (room sid : string) (reg : gmap string Socket) :
  sid ∈ members room reg <->
  exists socket, reg !! sid = Some socket /\ room ∈ rooms socket.
Proof.
  unfold members. rewrite elem_of_dom. split.
  - intros [socket H]. apply map_lookup_filter_Some in H. exists socket. exact H.
  - intros (socket & Hl & Hr). exists socket. apply map_lookup_filter_Some. auto.
Qed.

Lemma user_room_not_poll_room (u p : string) : user_room u <> poll_room p.
Proof. unfold user_room, poll_room. cbn. discriminate. Qed.

(** A socket stays in the room of its user under every event but its own
    end and its own start. *)
Lemma own_room_step (sid u : string) (ev : SocketEvent) (reg : gmap string Socket) :
  ev <> Disconnect sid -> (forall uid name, ev <> Connection sid uid name) ->
  sid ∈ members (user_room u) reg ->
  sid ∈ members (user_room u) (on_socket_event ev reg).
Proof.
  intros Hd Hc Hin. apply elem_of_members in Hin. destruct Hin as (socket & Hl & Hr).
  apply elem_of_members.
  destruct ev as [sid' uid uname | sid' userId | sid' pid | sid' pid | sid'];
    cbn [on_socket_event].
  - destruct (decide (sid' = sid)) as [->|Hne]; [exfalso; eapply Hc; reflexivity|].
    exists socket. rewrite lookup_insert_ne by exact Hne. auto.
  - destruct (reg !! sid') as [s|] eqn:Hs; [|eauto].
    destruct (Js.strict_eq (Js.of_option (sock_user_id s)) userId); [|eauto].
    destruct (decide (sid' = sid)) as [->|Hne].
    + rewrite Hl in Hs. injection Hs as <-.
      eexists. rewrite lookup_insert_eq. split; [reflexivity|].
      cbn. apply elem_of_union. left. exact Hr.
    + exists socket. rewrite lookup_insert_ne by exact Hne. auto.
  - destruct (reg !! sid') as [s|] eqn:Hs; [|eauto].
    destruct (decide (sid' = sid)) as [->|Hne].
    + rewrite Hl in Hs. injection Hs as <-.
      eexists. rewrite lookup_insert_eq. split; [reflexivity|].
      cbn. apply elem_of_union. left. exact Hr.
    + exists socket. rewrite lookup_insert_ne by exact Hne. auto.
  - destruct (reg !! sid') as [s|] eqn:Hs; [|eauto].
    destruct (decide (sid' = sid)) as [->|Hne].
    + rewrite Hl in Hs. injection Hs as <-.
      eexists. rewrite lookup_insert_eq. split; [reflexivity|].
      cbn. apply elem_of_difference. split; [exact Hr|].
      intros Heq. apply elem_of_singleton in Heq.
      exact (user_room_not_poll_room _ _ Heq).
    + exists socket. rewrite lookup_insert_ne by exact Hne. auto.
  - destruct (decide (sid' = sid)) as [->|Hne]; [contradiction|].
    exists socket. rewrite lookup_delete_ne by exact Hne. auto.
Qed.

Lemma own_room_fold (sid u : string) (events : list SocketEvent)
    (reg : gmap string Socket) :
  Forall (fun ev => ev <> Disconnect sid /\ forall uid name, ev <> Connection sid uid name)
         events ->
  sid ∈ members (user_room u) reg ->
  sid ∈ members (user_room u) (List.fold_left (fun r ev => on_socket_event ev r) events reg).
Proof.
  revert reg. induction events as [|ev events IH]; intros reg Hall Hin; cbn; [exact Hin|].
  inversion Hall as [|? ? [Hd Hc] Hrest]; subst.
  apply IH; [exact Hrest|]. apply own_room_step; assumption.
Qed.

(** A socket that connected with a user id, and has not ended since, is in
    the room of that user. *)
Lemma connected_in_own_room (before later : list SocketEvent) (sid u name : string) :
  u <> EmptyString ->
  Forall (fun ev => ev <> Disconnect sid /\ forall uid nm, ev <> Connection sid uid nm)
         later ->
  sid ∈ members (user_room u)
        (registry_after (before ++ Connection sid (Some u) name :: later)).
Proof.
  intros Hu Hlater. unfold registry_after.
  rewrite fold_left_app. cbn [List.fold_left].
  apply own_room_fold; [exact Hlater|].
  apply elem_of_members. cbn [on_socket_event Js.truthy].
  apply String.eqb_neq in Hu. rewrite Hu. cbn [negb].
  eexists. rewrite lookup_insert_eq. split; [reflexivity|].
  cbn. apply elem_of_union. right. apply elem_of_singleton. reflexivity.
Qed.

(** X7.  A notification reaches every connection of its recipient: a
    socket that connected as user [u], whatever rooms it or others joined or
    left since, is among the receivers of the newNotification message of a
    notification created for [u], once the store has taken the record. *)
Theorem push_reaches_connected_user (e : Env) (w : World)
    (before later : list SocketEvent) (sid u name : string)
    (type : string) (data : NotificationData) :
  u <> EmptyString ->
  Forall (fun ev => ev <> Disconnect sid /\ forall uid nm, ev <> Connection sid uid nm)
         later ->
  sockets w = registry_after (before ++ Connection sid (Some u) name :: later) ->
  rejects e NotificationSave (calls w) = false ->
  exists n receivers,
    trace (snd (createNotification type data u e w))
    = (trace w ++ [Wrote NotificationSave (n_id n);
                   Emit (Some (user_room u)) "newNotification" (PNotification n)
                        receivers])%list /\
    sid ∈ receivers /\ n_userId n = u /\ n_type n = type.
Proof.
  intros Hu Hlater Hreg Hok.
  pose proof (createNotification_run e w type data u) as Hrun. cbn zeta in Hrun.
  rewrite Hok in Hrun. destruct Hrun as (_ & _ & Htrace & _).
  eexists _, _. split; [exact Htrace|]. split; [|split; reflexivity].
  rewrite Hreg. apply connected_in_own_room; assumption.
Qed.

End Delivery.

Section SocketExamples.

Import Backend Routes.

(** A token of two parts. *)
Lemma handshake_accepts_verified_only_witness :
  (exists message,
      io_use (fun _ => inr (Some "A", "alice")) (Js.VString "a.b") = Refused message) /\
  (forall verify',
      io_use verify' (Js.VString "a.b")
      = io_use (fun _ => inr (Some "A", "alice")) (Js.VString "a.b")) /\
  (forall sid reg,
      connect sid (io_use (fun _ => inr (Some "A", "alice")) (Js.VString "a.b")) reg = reg).
Proof.
  apply (proj2 (handshake_accepts_verified_only
                  (fun _ => inr (Some "A", "alice")) (Js.VString "a.b"))).
  reflexivity.
Defined.

(** alice, connected on s1 and looking at poll p1, is sent a system
    notification. *)
Lemma push_reaches_connected_user_witness :
  exists n receivers,
    trace (snd (createNotification "system" no_data "A" Examples.env0
                  (with_sockets (registry_after Examples.events1) Examples.world1)))
    = [Wrote NotificationSave (n_id n);
       Emit (Some (user_room "A")) "newNotification" (PNotification n) receivers] /\
    "s1" ∈ receivers /\ n_userId n = "A" /\ n_type n = "system".
Proof.
  apply (push_reaches_connected_user Examples.env0
           (with_sockets (registry_after Examples.events1) Examples.world1)
           [] [JoinPoll "s1" (Js.VString "p1")] "s1" "A" "alice" "system" no_data).
  - discriminate.
  - repeat constructor; discriminate.
  - reflexivity.
  - reflexivity.
Defined.

End SocketExamples.

(** ** Polls: reading, voting, liking, closing *)

Section ReadingAPoll.

Import Backend Routes.

Context (e : Env).

Lemma find_poll_id (id : string) (l : list Poll) (p : Poll) :
  List.find (has_poll_id id) l = Some p -> poll_id p = id /\ In p l.
Proof.
  intros H. apply find_some in H. destruct H as [Hin Hid].
  apply String.eqb_eq in Hid. auto.
Qed.

(** The first element that passes is replaced by one that passes: it is
    the one found afterwards. *)
Lemma update_first_find {A} (test : A -> bool) (f : A -> A) (l : list A) (x : A) :
  List.find test l = Some x -> test (f x) = true ->
  List.find test (update_first test f l) = Some (f x).
Proof.
  induction l as [|y l IH]; cbn; [discriminate|].
  destruct (test y) eqn:Hy.
  - intros [= ->] Hf. cbn. rewrite Hf. reflexivity.
  - intros Hx Hf. cbn. rewrite Hy. auto.
Qed.

Lemma update_first_length {A} (test : A -> bool) (f : A -> A) (l : list A) :
  length (update_first test f l) = length l.
Proof.
  induction l as [|y l IH]; cbn; [reflexivity|].
  destruct (test y); cbn; congruence.
Qed.

(** X8.  A draft is hidden from everyone but its creator: unless the
    request carries a token that verifies to the creator's id, the route
    answers 404 Poll not found and writes nothing, which is to the letter the
    answer for an id that no poll has. *)
Theorem draft_is_hidden (verify : string -> option (option string))
    (authorization : option string) (id : string) (w w0 : World) (poll : Poll) :
  List.find (has_poll_id id) (polls (db w)) = Some poll ->
  status poll = "draft" ->
  (forall token, bearer_token authorization = Some token ->
                 verify token <> Some (Some (creator poll))) ->
  List.find (has_poll_id id) (polls (db w0)) = None ->
  rejects e PollFindOne (calls w) = false ->
  rejects e PollFindOne (calls w0) = false ->
  let w' := snd (get_poll verify authorization id e w) in
  let w0' := snd (get_poll verify authorization id e w0) in
  db w' = db w /\
  trace w' = (trace w ++ [Respond 404 "Poll not found" PNone])%list /\
  trace w0' = (trace w0 ++ [Respond 404 "Poll not found" PNone])%list.
Proof.
  intros Hfind Hdraft Hnot Hnone Hok Hok0. cbn zeta.
  unfold get_poll. open_calls. rewrite Hok, Hok0. simpl_world.
  rewrite Hfind, Hnone, Hdraft. cbn [String.eqb Ascii.eqb Bool.eqb].
  split; [|split]; [| |reflexivity].
  - destruct (bearer_token authorization) as [token|] eqn:Htoken; cbn [Js.truthy].
    + destruct (String.eqb token EmptyString) eqn:Hempty; cbn [negb]; [reflexivity|].
      cbn [Js.or_else]. rewrite Hempty.
      destruct (verify token) as [decoded|] eqn:Hv; [|reflexivity].
      destruct (Js.strict_eq (Js.of_option decoded) (Js.VString (creator poll))) eqn:Heq;
        [|reflexivity].
      apply strict_eq_eq in Heq. destruct decoded as [d|]; [|discriminate].
      injection Heq as ->. exfalso. exact (Hnot token eq_refl Hv).
    + reflexivity.
  - destruct (bearer_token authorization) as [token|] eqn:Htoken; cbn [Js.truthy].
    + destruct (String.eqb token EmptyString) eqn:Hempty; cbn [negb]; [reflexivity|].
      cbn [Js.or_else]. rewrite Hempty.
      destruct (verify token) as [decoded|] eqn:Hv; [|reflexivity].
      destruct (Js.strict_eq (Js.of_option decoded) (Js.VString (creator poll))) eqn:Heq;
        [|reflexivity].
      apply strict_eq_eq in Heq. destruct decoded as [d|]; [|discriminate].
      injection Heq as ->. exfalso. exact (Hnot token eq_refl Hv).
    + reflexivity.
Qed.

(** X9.  Reading a poll writes: when the poll may be shown and the store
    answers, the route stores the number of the poll's comments in the
    poll's [comments_count] before it answers with the poll, whatever the
    count was; nothing else in the store changes. *)
Theorem read_repairs_comment_count (verify : string -> option (option string))
    (authorization : option string) (id : string) (w : World) (poll : Poll) :
  List.find (has_poll_id id) (polls (db w)) = Some poll ->
  status poll <> "draft" ->
  (forall op k, rejects e op k = false) ->
  let w' := snd (get_poll verify authorization id e w) in
  let shown :=
    set_comments_count
      (Z.of_nat (length (List.filter (fun c => String.eqb (comment_poll_id c) id)
                                     (comments (db w))))) poll in
  trace w' = (trace w ++ [Wrote PollSave id; Respond 200 EmptyString (PPoll shown)])%list /\
  List.find (has_poll_id id) (polls (db w')) = Some shown /\
  length (polls (db w')) = length (polls (db w)) /\
  users (db w') = users (db w) /\ votes (db w') = votes (db w) /\
  comments (db w') = comments (db w) /\ notifications (db w') = notifications (db w).
Proof.
  intros Hfind Hshown Hok. cbn zeta.
  destruct (find_poll_id _ _ _ Hfind) as [Hid _].
  unfold get_poll. open_calls. rewrite !Hok. simpl_world.
  rewrite Hfind. apply String.eqb_neq in Hshown. rewrite Hshown.
  simpl_world. rewrite !Hok. simpl_world.
  cbn [poll_id set_comments_count]. rewrite Hid.
  rewrite <- app_assoc. split; [reflexivity|].
  split; [|split; [apply update_first_length | repeat split]].
  apply (update_first_find (has_poll_id id) (fun _ => _) _ poll Hfind).
  unfold has_poll_id. cbn [poll_id set_comments_count]. rewrite Hid.
  apply String.eqb_refl.
Qed.

End ReadingAPoll.

Section Voting.

Import Backend Routes.

Context (e : Env).

(** X10.  Every run of the vote route ends in one of three ways.  It is
    refused with 400, 403 or 404, and then nothing was written.  Or it fails
    with 500.  Or it answers 200, and then the poll was active, the option is
    one of the poll's, the user had no vote on the poll unless the poll takes
    several, and the store has one more vote: this user's, on this poll, for
    this option. *)
Theorem vote_refused_failed_or_counted (w : World) (user : AuthUser) (pollId : string)
    (option_id : option string) :
  let w' := snd (post_vote user pollId option_id e w) in
  (exists code text,
      In code [400; 403; 404] /\
      trace w' = (trace w ++ [Respond code text PNone])%list /\ db w' = db w) \/
  answers (trace w') = (answers (trace w) ++ [(500, "Internal server error")])%list \/
  (exists poll opt,
      List.find (has_poll_id pollId) (polls (db w)) = Some poll /\
      status poll = "active" /\
      List.find (fun o => String.eqb (opt_id o) (Js.or_else option_id EmptyString))
                (options poll) = Some opt /\
      (allow_multiple_votes poll = false ->
       List.find (fun v => String.eqb (vote_user v) (au_id user) &&
                           String.eqb (vote_poll_id v) pollId)%bool
                 (votes (db w)) = None) /\
      votes (db w')
      = (votes (db w) ++ [{| vote_id := fresh e (next_id w); vote_poll_id := pollId;
                             vote_option_id := Js.or_else option_id EmptyString;
                             voter_email := au_email user;
                             vote_user := au_id user |}])%list /\
      answers (trace w')
      = (answers (trace w) ++ [(200, "Vote recorded successfully")])%list).
Proof.
  cbn zeta. unfold post_vote. open_calls. run_route.
  all: try solve [ends_refused].
  all: try solve [ends_failed].
  all: right; right; eexists _, _; split; [reflexivity|];
    split; [apply String.eqb_eq; eassumption|];
    split; [eassumption|]; split; [first [intros _; assumption | congruence]|];
    split; [reflexivity|];
    rewrite ?answers_app; cbn [answers]; rewrite ?app_nil_r; reflexivity.
Qed.

(** On a safe integer, adding one is exact. *)
Lemma plus_one_safe (z : Z) : Js.isSafeInteger z = true -> Js.plus z 1 = z + 1.
Proof.
  unfold Js.isSafeInteger, Js.plus, Js.round53. intros H.
  apply Z.leb_le in H. change (2 ^ 53) with 9007199254740992 in *.
  destruct (Z.ltb_spec (Z.abs (z + 1)) 9007199254740992) as [_|Hbig]; [reflexivity|].
  assert (z = 9007199254740991) as -> by lia.
  vm_compute. reflexivity.
Qed.

Lemma option_votes_counted (option_id : string) (l : list PollOption) (x : PollOption) :
  Forall (fun o => Js.isSafeInteger (opt_votes o) = true) l ->
  List.find (fun o => String.eqb (opt_id o) option_id) l = Some x ->
  List.fold_right Z.add 0
    (List.map opt_votes
       (update_first (fun o => String.eqb (opt_id o) option_id) add_vote l))
  = List.fold_right Z.add 0 (List.map opt_votes l) + 1.
Proof.
  induction 1 as [|o l Ho Hl IH]; cbn; [discriminate|].
  destruct (String.eqb (opt_id o) option_id).
  - intros _. cbn. rewrite (plus_one_safe _ Ho). lia.
  - intros H. cbn. rewrite (IH H). lia.
Qed.

Lemma count_vote_totals (option_id : string) (p : Poll) (x : PollOption) :
  safe_counts p ->
  List.find (fun o => String.eqb (opt_id o) option_id) (options p) = Some x ->
  total_votes (count_vote option_id p) = total_votes p + 1 /\
  option_votes (count_vote option_id p) = option_votes p + 1.
Proof.
  intros [Ht Ho] H. split; [exact (plus_one_safe _ Ht)|].
  unfold option_votes. cbn [options count_vote]. apply (option_votes_counted _ _ x Ho H).
Qed.

Lemma Forall_update_first {A} (P : A -> Prop) (test : A -> bool) (f : A -> A)
    (l : list A) (x : A) :
  Forall P l -> List.find test l = Some x -> P (f x) ->
  Forall P (update_first test f l).
Proof.
  induction 1 as [|y l Hy Hl IH]; cbn; [constructor|].
  destruct (test y).
  - intros [= ->] Hf. constructor; assumption.
  - intros Hx Hf. constructor; auto.
Qed.

(** X11.  Voting keeps the books of a poll whose counts are safe integers
    (its [total_votes] and the votes of each of its options pass
    [Number.isSafeInteger], so that adding one to them is exact).  For a
    vote on such a poll: if, before the run of the vote route, each poll's
    [total_votes] is the sum of the votes of its options, it is so after the
    run, however the run ends; and when the run answers 200 the poll's total
    and the sum over its options have both gone up by one. *)
Theorem vote_keeps_totals (w : World) (user : AuthUser) (pollId : string)
    (option_id : option string) :
  (forall p, List.find (has_poll_id pollId) (polls (db w)) = Some p ->
             safe_counts p) ->
  let w' := snd (post_vote user pollId option_id e w) in
  (Forall (fun p => total_votes p = option_votes p) (polls (db w)) ->
   Forall (fun p => total_votes p = option_votes p) (polls (db w'))) /\
  (answers (trace w') = (answers (trace w) ++ [(200, "Vote recorded successfully")])%list ->
   exists before after,
     List.find (has_poll_id pollId) (polls (db w)) = Some before /\
     List.find (has_poll_id pollId) (polls (db w')) = Some after /\
     total_votes after = total_votes before + 1 /\
     option_votes after = option_votes before + 1).
Proof.
  intros Hsafe. cbn zeta. unfold post_vote. open_calls. run_route.
  all: split; [try solve [intros; assumption] | try solve [wrong_answer]].
  all: try match goal with
      | Hp : List.find (has_poll_id _) _ = Some ?p,
        Ho : List.find (fun o => String.eqb (opt_id o) ?i) (options ?p) = Some ?x
        |- Forall _ _ -> Forall _ _ =>
          let H := fresh in
          intros H; destruct (find_poll_id _ _ _ Hp) as [Hid Hin];
          cbn [poll_id count_vote]; rewrite Hid;
          apply (Forall_update_first _ _ (fun _ => _) _ p H Hp);
          destruct (count_vote_totals i p x (Hsafe p eq_refl) Ho) as [-> ->];
          rewrite List.Forall_forall in H; rewrite (H p Hin); reflexivity
      end.
  all: match goal with
      | Hp : List.find (has_poll_id _) _ = Some ?p,
        Ho : List.find (fun o => String.eqb (opt_id o) ?i) (options ?p) = Some ?x
        |- _ -> _ =>
          intros _; destruct (find_poll_id _ _ _ Hp) as [Hid Hin];
          exists p, (count_vote i p); split; [reflexivity|];
          split; [|exact (count_vote_totals i p x (Hsafe p eq_refl) Ho)];
          cbn [poll_id count_vote]; rewrite Hid;
          apply (update_first_find (has_poll_id _) (fun _ => _) _ p Hp);
          unfold has_poll_id; cbn [poll_id count_vote]; rewrite Hid;
          apply String.eqb_refl
      end.
Qed.

Lemma find_app_hit {A} (test : A -> bool) (l : list A) (x : A) :
  test x = true -> exists y, List.find test (l ++ [x]) = Some y.
Proof.
  intros Hx. induction l as [|a l IH]; cbn.
  - rewrite Hx. eauto.
  - destruct (test a); eauto.
Qed.

(** X12.  The vote and its count are two writes, and the first stays when
    the second fails.  If the store takes the vote and then rejects the save
    of the poll, the route answers 500 with the vote stored and the poll's
    totals as they were; and on a poll that takes one vote per user the same
    user's next attempt, with the store in order, is refused as a second
    vote and changes nothing: that vote is never counted. *)
Theorem vote_stored_but_not_counted (e2 : Env) (w : World) (user : AuthUser)
    (pollId : string) (option_id : option string) (poll : Poll) (opt : PollOption) :
  Js.truthy option_id = true ->
  List.find (has_poll_id pollId) (polls (db w)) = Some poll ->
  status poll = "active" ->
  allow_multiple_votes poll = false ->
  List.find (fun o => String.eqb (opt_id o) (Js.or_else option_id EmptyString))
            (options poll) = Some opt ->
  List.find (fun v => String.eqb (vote_user v) (au_id user) &&
                      String.eqb (vote_poll_id v) pollId)%bool
            (votes (db w)) = None ->
  rejects e PollFindOne (calls w) = false ->
  rejects e VoteFindOne (S (calls w)) = false ->
  rejects e VoteSave (S (S (calls w))) = false ->
  rejects e PollSave (S (S (S (calls w)))) = true ->
  (forall op k, rejects e2 op k = false) ->
  let w1 := snd (post_vote user pollId option_id e w) in
  let w2 := snd (post_vote user pollId option_id e2 w1) in
  answers (trace w1) = (answers (trace w) ++ [(500, "Internal server error")])%list /\
  votes (db w1)
  = (votes (db w) ++ [{| vote_id := fresh e (next_id w); vote_poll_id := pollId;
                         vote_option_id := Js.or_else option_id EmptyString;
                         voter_email := au_email user;
                         vote_user := au_id user |}])%list /\
  polls (db w1) = polls (db w) /\
  trace w2
  = (trace w1 ++ [Respond 400 "You have already voted on this poll" PNone])%list /\
  db w2 = db w1.
Proof.
  intros Htruthy Hfind Hactive Hsingle Hopt Hnone H1 H2 H3 H4 Hok2. cbn zeta.
  unfold post_vote. open_calls.
  rewrite Htruthy. simpl_world. rewrite H1. simpl_world. rewrite Hfind.
  rewrite Hactive. cbn [String.eqb Ascii.eqb Bool.eqb]. simpl_world.
  rewrite Hsingle. simpl_world. rewrite H2. simpl_world. rewrite Hnone, Hopt.
  simpl_world. rewrite H3. simpl_world. rewrite H4. simpl_world.
  repeat first
    [ progress simpl_world
    | rewrite Hok2
    | rewrite Hfind
    | rewrite Hsingle
    | rewrite Hactive; cbn [String.eqb Ascii.eqb Bool.eqb] ].
  match goal with
  | |- context [List.find ?g (votes (db w) ++ [?v])%list] =>
      destruct (find_app_hit g (votes (db w)) v) as [earlier Hearlier];
        [cbn; rewrite !String.eqb_refl; reflexivity | rewrite Hearlier]
  end.
  simpl_world. rewrite !answers_app. cbn [answers]. rewrite app_nil_r.
  repeat split.
Qed.

End Voting.

Section Liking.

Import Backend Routes.

Context (e : Env).

Lemma existsb_eqb_In (u : string) (l : list string) :
  existsb (String.eqb u) l = true <-> In u l.
Proof.
  rewrite existsb_exists. split.
  - intros (x & Hin & Heq). apply String.eqb_eq in Heq. congruence.
  - intros Hin. exists u. split; [exact Hin | apply String.eqb_refl].
Qed.

Lemma filter_out_absent (u : string) (l : list string) :
  ~ In u l -> List.filter (fun x => negb (String.eqb x u)) l = l.
Proof.
  induction l as [|x l IH]; cbn; [reflexivity|]. intros Hno.
  destruct (String.eqb_spec x u) as [->|_]; [exfalso; apply Hno; left; reflexivity|].
  cbn. rewrite IH; [reflexivity|]. intros H. apply Hno. right. exact H.
Qed.

Lemma filter_out_length (u : string) (l : list string) :
  List.NoDup l -> In u l ->
  S (length (List.filter (fun x => negb (String.eqb x u)) l)) = length l.
Proof.
  induction 1 as [|x l Hx Hl IH]; cbn; [tauto|].
  destruct (String.eqb_spec x u) as [->|Hne]; cbn.
  - intros _. rewrite filter_out_absent by exact Hx. reflexivity.
  - intros [Heq|Hin]; [contradiction|]. rewrite IH by exact Hin. reflexivity.
Qed.

Lemma NoDup_filter_out (u : string) (l : list string) :
  List.NoDup l -> List.NoDup (List.filter (fun x => negb (String.eqb x u)) l).
Proof.
  induction 1 as [|x l Hx Hl IH]; cbn; [constructor|].
  destruct (negb (String.eqb x u)); [|exact IH].
  constructor; [|exact IH]. intros H. apply List.filter_In in H. tauto.
Qed.

Lemma NoDup_snoc (u : string) (l : list string) :
  List.NoDup l -> ~ In u l -> List.NoDup (l ++ [u]).
Proof.
  induction 1 as [|x l Hx Hl IH]; cbn; intros Hu.
  - constructor; [tauto | constructor].
  - constructor.
    + intros Hin. apply in_app_or in Hin. destruct Hin as [Hin|[->|[]]]; tauto.
    + apply IH. tauto.
Qed.

(** The books of a comment: nobody is listed twice among those who like
    it, and [likes] is their number. *)
Lemma likes_counted_like (u : string) (c : Comment) :
  existsb (String.eqb u) (liked_by c) = false ->
  List.NoDup (liked_by c) /\ likes c = Z.of_nat (length (liked_by c)) ->
  List.NoDup (liked_by c ++ [u]) /\
  likes c + 1 = Z.of_nat (length (liked_by c ++ [u])).
Proof.
  intros Hno [Hnd Hlen]. split.
  - apply NoDup_snoc; [exact Hnd|].
    intros Hin. apply existsb_eqb_In in Hin. congruence.
  - rewrite length_app. cbn. lia.
Qed.

Lemma likes_counted_unlike (u : string) (c : Comment) :
  existsb (String.eqb u) (liked_by c) = true ->
  List.NoDup (liked_by c) /\ likes c = Z.of_nat (length (liked_by c)) ->
  List.NoDup (List.filter (fun x => negb (String.eqb x u)) (liked_by c)) /\
  Z.max 0 (likes c - 1)
  = Z.of_nat (length (List.filter (fun x => negb (String.eqb x u)) (liked_by c))).
Proof.
  intros Hyes [Hnd Hlen]. apply existsb_eqb_In in Hyes. split.
  - apply NoDup_filter_out, Hnd.
  - pose proof (filter_out_length u (liked_by c) Hnd Hyes). lia.
Qed.

(** X13.  The like route keeps the books of every comment, however a run
    ends: if before the run nobody is listed twice among those who like a
    comment and [likes] is their number, it is so after the run. *)
Theorem like_keeps_count (w : World) (user : AuthUser) (id : string) :
  let counted c := List.NoDup (liked_by c) /\ likes c = Z.of_nat (length (liked_by c)) in
  Forall counted (comments (db w)) ->
  Forall counted (comments (db (snd (post_comment_like user id e w)))).
Proof.
  cbn zeta. intros Hall. unfold post_comment_like. open_calls. run_route.
  all: try assumption.
  all: match goal with
       | Hc : List.find (has_comment_id _) _ = Some ?c |- _ =>
           pose proof (find_some _ _ Hc) as [Hin Hid];
           apply String.eqb_eq in Hid;
           cbn [comment_id set_likes]; rewrite Hid;
           apply (Forall_update_first _ _ (fun _ => _) _ c Hall Hc);
           cbn [liked_by likes set_likes];
           rewrite List.Forall_forall in Hall; specialize (Hall c Hin)
       end.
  all: first [ apply likes_counted_like; assumption
             | apply likes_counted_unlike; assumption ].
Qed.

Lemma update_first_back {A} (test : A -> bool) (x y : A) (l : list A) :
  List.find test l = Some x -> test y = true ->
  update_first test (fun _ => x) (update_first test (fun _ => y) l) = l.
Proof.
  induction l as [|a l IH]; cbn; [discriminate|].
  destruct (test a) eqn:Ha.
  - intros [= ->] Hy. cbn. rewrite Hy. reflexivity.
  - intros Hx Hy. cbn. rewrite Ha, IH; auto.
Qed.

Lemma existsb_snoc (u : string) (l : list string) :
  existsb (String.eqb u) (l ++ [u]) = true.
Proof. rewrite existsb_app. cbn. rewrite String.eqb_refl. apply orb_true_r. Qed.

Lemma filter_out_snoc (u : string) (l : list string) :
  existsb (String.eqb u) l = false ->
  List.filter (fun x => negb (String.eqb x u)) (l ++ [u]) = l.
Proof.
  intros Hno. rewrite List.filter_app. cbn. rewrite String.eqb_refl. cbn.
  rewrite app_nil_r. apply filter_out_absent.
  intros Hin. apply existsb_eqb_In in Hin. congruence.
Qed.

(** X14.  Liking a comment and then taking the like back leaves the
    comment as it was: for a user who did not like the comment, with the
    store in order, the two runs answer Comment liked and Comment unliked and
    the comments of the store are what they were before the first. *)
Theorem like_then_unlike (e2 : Env) (w : World) (user : AuthUser) (id : string)
    (c : Comment) :
  List.find (has_comment_id id) (comments (db w)) = Some c ->
  existsb (String.eqb (au_id user)) (liked_by c) = false ->
  0 <= likes c ->
  (forall op k, rejects e op k = false) ->
  (forall op k, rejects e2 op k = false) ->
  let w1 := snd (post_comment_like user id e w) in
  let w2 := snd (post_comment_like user id e2 w1) in
  answers (trace w1) = (answers (trace w) ++ [(200, "Comment liked")])%list /\
  List.find (has_comment_id id) (comments (db w1))
  = Some (set_likes (likes c + 1) (liked_by c ++ [au_id user]) c) /\
  answers (trace w2) = (answers (trace w1) ++ [(200, "Comment unliked")])%list /\
  comments (db w2) = comments (db w).
Proof.
  intros Hfind Hnot Hlikes Hok Hok2. cbn zeta.
  pose proof (find_some _ _ Hfind) as [_ Hid]. apply String.eqb_eq in Hid.
  set (liked := set_likes (likes c + 1) (liked_by c ++ [au_id user]) c).
  assert (Hliked : List.find (has_comment_id id)
                     (update_first (has_comment_id id) (fun _ => liked) (comments (db w)))
                   = Some liked).
  { apply (update_first_find _ (fun _ => liked) _ c Hfind).
    unfold has_comment_id. cbn. rewrite Hid. apply String.eqb_refl. }
  assert (Hback : set_likes (Z.max 0 (likes liked - 1))
                    (List.filter (fun x => negb (String.eqb x (au_id user)))
                                 (liked_by liked)) liked = c).
  { cbn [liked_by likes liked set_likes]. rewrite (filter_out_snoc _ _ Hnot).
    replace (Z.max 0 (likes c + 1 - 1)) with (likes c) by lia.
    destruct c; reflexivity. }
  assert (Hnow : existsb (String.eqb (au_id user)) (liked_by liked) = true)
    by apply existsb_snoc.
  assert (Hsame : comment_id liked = id) by exact Hid.
  unfold post_comment_like. open_calls.
  repeat first
    [ progress simpl_world
    | rewrite Hok
    | rewrite Hok2
    | rewrite Hfind
    | rewrite Hnot
    | progress cbn [comment_id comment_poll_id comment_user set_likes]
    | rewrite Hid
    | match goal with
      | |- context [String.eqb ?a ?b] => destruct (String.eqb a b) eqn:?
      | |- context [List.find ?f (polls (db w))] =>
          destruct (List.find f (polls (db w))) eqn:?
      end ].
  all: fold liked; rewrite ?Hliked; simpl_world.
  all: repeat first
    [ progress simpl_world
    | rewrite Hok2
    | rewrite Hnow
    | rewrite Hback
    | rewrite Hsame
    | rewrite Hid ].
  all: rewrite ?answers_app; cbn [answers]; rewrite ?app_nil_r.
  all: split; [reflexivity|]; split; [reflexivity|]; split; [reflexivity|].
  all: apply update_first_back; [exact Hfind|].
  all: unfold has_comment_id; cbn; rewrite Hid; apply String.eqb_refl.
Qed.

End Liking.

Section PollStatus.

Import Backend Routes.

Context (e : Env).

Lemma update_first_const_pointwise {A} (test : A -> bool) (x y : A) (l : list A) :
  List.find test l = Some x ->
  Forall2 (fun a b => b = a \/ (a = x /\ b = y)) l (update_first test (fun _ => y) l).
Proof.
  induction l as [|a l IH]; cbn; [discriminate|].
  destruct (test a).
  - intros [= ->]. constructor; [right; auto|]. apply Forall2_same. auto.
  - intros H. constructor; [left; reflexivity | exact (IH H)].
Qed.

(** X15.  The status route changes one poll at most, and only for its
    creator: after any run, each poll is what it was, except that the poll of
    the request, if the caller created it and the status asked for is one of
    active, closed and draft, may have that status with its end date and its
    override flag set anew; users, votes and comments are what they were. *)
Theorem status_changed_by_creator_only (w : World) (user : AuthUser) (id : string)
    (body_status : option string) :
  let w' := snd (patch_poll user id body_status e w) in
  Forall2 (fun before after =>
             after = before \/
             (poll_id before = id /\ creator before = au_id user /\
              exists s override ends,
                body_status = Some s /\ valid_status s = true /\
                after = set_status s override ends before))
          (polls (db w)) (polls (db w')) /\
  users (db w') = users (db w) /\ votes (db w') = votes (db w) /\
  comments (db w') = comments (db w).
Proof.
  cbn zeta. unfold patch_poll.
  destruct body_status as [s|]; [destruct (valid_status s) eqn:Hvalid|]; open_calls;
    run_route.
  all: split; [|repeat split].
  all: try solve [apply Forall2_same; auto].
  all: match goal with
       | Hp : List.find (has_poll_id _) _ = Some ?p,
         Hc : String.eqb (creator ?p) (au_id _) = true |- _ =>
           destruct (find_poll_id _ _ _ Hp) as [Hid _];
           apply String.eqb_eq in Hc;
           cbn [poll_id set_status]; rewrite Hid;
           eapply Forall2_impl;
             [apply (update_first_const_pointwise _ p _ _ Hp)|];
           cbn beta; intros a b [->|[-> ->]]; [left; reflexivity|];
           right; split; [exact Hid|]; split; [exact Hc|];
           eexists _, _, _; split; [reflexivity|]; split; [exact Hvalid|reflexivity]
       end.
Qed.

End PollStatus.

Section ClosingJob.

Import Backend Routes.

Context (e : Env).

(** One turn of the job's loop. *)
Local Abbreviation job_turn :=
  (fun poll : Poll =>
     try_catch
       (let poll := set_status "closed" false None poll in
        bind (Poll_save poll) (fun _ =>
        bind (createNotification "poll_closed"
                {| pollId := Some (poll_id poll); commentId := None; voterName := None;
                   commenterName := None; replierName := None; likerName := None;
                   pollTitle := Some (title poll);
                   reason := Some "automatic_closure"; data_message := None |}
                (creator poll)) (fun _ =>
        bind (io_to_emit (poll_room (poll_id poll)) "pollUpdate" (PPoll poll)) (fun _ =>
        bind (io_emit "pollUpdate" (PPoll poll)) (fun _ =>
        io_to_emit (poll_room (poll_id poll)) "pollClosed"
          (PPollClosed (poll_id poll) (title poll)
             "This poll has been automatically closed as it reached its end date."))))))
       (ret tt)).

Lemma job_turn_run (poll : Poll) (w : World) :
  fst (job_turn poll e w) = Ok tt /\
  polls (db (snd (job_turn poll e w)))
  = (if rejects e PollSave (calls w) then polls (db w)
     else update_first (has_poll_id (poll_id poll)) (fun _ => closed_by_job poll)
                       (polls (db w))).
Proof.
  cbn zeta. open_calls. follow; split; reflexivity.
Qed.

Lemma job_unfold (w : World) :
  close_expired_polls e w
  = if rejects e PollFind (calls w) then (Ok tt, count_call w)
    else match for_each (List.filter (is_expired (now e)) (polls (db w))) job_turn e
                 (count_call w) with
         | (Ok a, w') => (Ok a, w')
         | (Thrown, w') => (Ok tt, w')
         end.
Proof.
  unfold close_expired_polls, try_catch at 1.
  unfold bind at 1. unfold date_now. unfold bind at 1.
  unfold Poll_find_expired. unfold bind at 1. unfold bind at 1. unfold db_call.
  destruct (rejects e PollFind (calls w)); reflexivity.
Qed.

(** In a list without two polls of one id, saving the closed copy of a
    poll closes that poll and no other. *)
Lemma close_in_view (closed : list string) (l : list Poll) (p : Poll) :
  List.NoDup (List.map poll_id l) -> In p l ->
  update_first (has_poll_id (poll_id p)) (fun _ => closed_by_job p)
    (List.map (fun q => if existsb (String.eqb (poll_id q)) closed
                        then closed_by_job q else q) l)
  = List.map (fun q => if existsb (String.eqb (poll_id q)) (poll_id p :: closed)
                       then closed_by_job q else q) l.
Proof.
  induction l as [|a l IH]; cbn [List.map update_first]; [tauto|].
  intros Hnd Hin. inversion Hnd as [|? ? Ha Hl]; subst.
  assert (Hid : has_poll_id (poll_id p)
                  (if existsb (String.eqb (poll_id a)) closed then closed_by_job a else a)
                = String.eqb (poll_id a) (poll_id p)).
  { destruct (existsb (String.eqb (poll_id a)) closed); reflexivity. }
  rewrite Hid. cbn [existsb].
  destruct (String.eqb_spec (poll_id a) (poll_id p)) as [Heq|Hne].
  - assert (p = a) as ->.
    { destruct Hin as [->|Hin]; [reflexivity|].
      exfalso. apply Ha. rewrite Heq. apply in_map, Hin. }
    cbn [orb]. f_equal. apply map_ext_in. intros q Hq.
    destruct (String.eqb_spec (poll_id q) (poll_id a)) as [Hqa|_]; [|reflexivity].
    exfalso. apply Ha. rewrite <- Hqa. apply in_map, Hq.
  - cbn [orb]. f_equal. apply IH; [exact Hl|].
    destruct Hin as [->|Hin]; [contradiction | exact Hin].
Qed.

Lemma bind_ok {A B} (c : M A) (k : A -> M B) (w w1 : World) (a : A) :
  c e w = (Ok a, w1) -> bind c k e w = k a e w1.
Proof. intros H. unfold bind. rewrite H. reflexivity. Qed.

(** The loop closes polls of its list, in a store without two polls of
    one id, and all of them when the store answers every call. *)
Lemma job_loop (orig : list Poll) :
  List.NoDup (List.map poll_id orig) ->
  forall (l : list Poll) (closed : list string) (w : World),
    (forall p, In p l -> In p orig) ->
    polls (db w)
    = List.map (fun q => if existsb (String.eqb (poll_id q)) closed
                         then closed_by_job q else q) orig ->
    exists closed',
      fst (for_each l job_turn e w) = Ok tt /\
      polls (db (snd (for_each l job_turn e w)))
      = List.map (fun q => if existsb (String.eqb (poll_id q)) closed'
                           then closed_by_job q else q) orig /\
      (forall i, In i closed' -> In i closed \/ In i (List.map poll_id l)) /\
      ((forall op k, rejects e op k = false) ->
       forall i, In i closed \/ In i (List.map poll_id l) -> In i closed').
Proof.
  intros Hnd. induction l as [|p l IH]; intros closed w Hsub Hview.
  - exists closed. cbn. repeat split; auto. intros _ i [H|[]]. exact H.
  - destruct (job_turn_run p w) as [Hok Hpolls].
    destruct (job_turn p e w) as [o w1] eqn:Hturn. cbn [fst snd] in Hok, Hpolls.
    subst o.
    assert (Hstep : for_each (p :: l) job_turn e w = for_each l job_turn e w1)
      by exact (bind_ok (job_turn p) (fun _ => for_each l job_turn) w w1 tt Hturn).
    rewrite Hstep. clear Hstep Hturn.
    assert (Hsub' : forall q, In q l -> In q orig) by (intros q Hq; apply Hsub; right; exact Hq).
    destruct (rejects e PollSave (calls w)) eqn:Hrej.
    + destruct (IH closed w1 Hsub' (eq_trans Hpolls Hview)) as (closed' & H1 & H2 & H3 & H4).
      exists closed'. split; [exact H1|]. split; [exact H2|]. split.
      * intros i Hi. destruct (H3 i Hi); [left | right; right]; assumption.
      * intros Hall. rewrite Hall in Hrej. discriminate.
    + assert (Hview' : polls (db w1)
                = List.map (fun q => if existsb (String.eqb (poll_id q)) (poll_id p :: closed)
                                     then closed_by_job q else q) orig).
      { rewrite Hpolls, Hview. apply close_in_view; [exact Hnd|].
        apply Hsub. left. reflexivity. }
      destruct (IH (poll_id p :: closed) w1 Hsub' Hview') as (closed' & H1 & H2 & H3 & H4).
      exists closed'. split; [exact H1|]. split; [exact H2|]. split.
      * intros i Hi. destruct (H3 i Hi) as [[<-|Hc]|Hl].
        -- right. left. reflexivity.
        -- left. exact Hc.
        -- right. right. exact Hl.
      * intros Hall i Hi. apply (H4 Hall). cbn [In List.map] in *. tauto.
Qed.

Lemma NoDup_map_same {A B} (f : A -> B) (l : list A) (x y : A) :
  List.NoDup (List.map f l) -> In x l -> In y l -> f x = f y -> x = y.
Proof.
  induction l as [|a l IH]; cbn; [tauto|].
  intros Hnd Hx Hy Hf. inversion Hnd as [|? ? Ha Hl]; subst.
  destruct Hx as [->|Hx], Hy as [->|Hy]; auto.
  - exfalso. apply Ha. rewrite Hf. apply in_map, Hy.
  - exfalso. apply Ha. rewrite <- Hf. apply in_map, Hx.
Qed.

Lemma Forall2_map_in {A} (R : A -> A -> Prop) (g : A -> A) (l : list A) :
  (forall a, In a l -> R a (g a)) -> Forall2 R l (List.map g l).
Proof.
  induction l as [|a l IH]; cbn; intros H; constructor; auto.
Qed.

Lemma closed_is_not_expired (t : Z) (p : Poll) : is_expired t (closed_by_job p) = false.
Proof. reflexivity. Qed.

(** X16.  The closing job, on a store without two polls of one id, closes
    nothing but active polls whose end date has passed, whatever the store
    answers: each poll is afterwards what it was, or it was such a poll and
    is now closed, with no end date and the override flag down.  When the
    store answers every call the job closes all of them, and no poll is left
    for the job's next run to close. *)
Theorem job_closes_expired_polls (w : World) :
  List.NoDup (List.map poll_id (polls (db w))) ->
  let w' := snd (close_expired_polls e w) in
  Forall2 (fun before after =>
             after = before \/
             (is_expired (now e) before = true /\ after = closed_by_job before))
          (polls (db w)) (polls (db w')) /\
  ((forall op k, rejects e op k = false) ->
   polls (db w')
   = List.map (fun p => if is_expired (now e) p then closed_by_job p else p) (polls (db w)) /\
   Forall (fun p => is_expired (now e) p = false) (polls (db w'))).
Proof.
  intros Hnd. cbn zeta. rewrite job_unfold.
  destruct (rejects e PollFind (calls w)) eqn:Hfind.
  - cbn [snd db count_call]. split; [apply Forall2_same; auto|].
    intros Hall. rewrite Hall in Hfind. discriminate.
  - set (orig := polls (db w)) in *.
    set (l := List.filter (is_expired (now e)) orig).
    assert (Hstart : polls (db (count_call w))
                     = List.map (fun q => if existsb (String.eqb (poll_id q)) []
                                          then closed_by_job q else q) orig).
    { cbn. symmetry. apply map_id. }
    assert (Hsub : forall p, In p l -> In p orig).
    { intros p Hp. apply List.filter_In in Hp. tauto. }
    destruct (job_loop orig Hnd l [] (count_call w) Hsub Hstart)
      as (closed' & Hok & Hpolls & Honly & Hall).
    destruct (for_each l job_turn e (count_call w)) as [o w1]. cbn [fst snd] in *.
    subst o. cbn [snd].
    assert (Hin : forall q, In q orig -> existsb (String.eqb (poll_id q)) closed' = true ->
                            is_expired (now e) q = true).
    { intros q Hq Hex. apply existsb_exists in Hex. destruct Hex as (i & Hi & Heq).
      apply String.eqb_eq in Heq. subst i.
      destruct (Honly _ Hi) as [[]|Hl]. apply in_map_iff in Hl.
      destruct Hl as (p & Hpid & Hp). apply List.filter_In in Hp.
      destruct Hp as [Hp Hexp].
      rewrite (NoDup_map_same poll_id orig q p Hnd Hq Hp (eq_sym Hpid)). exact Hexp. }
    split.
    + rewrite Hpolls. apply Forall2_map_in. intros q Hq.
      destruct (existsb (String.eqb (poll_id q)) closed') eqn:Hex; [|left; reflexivity].
      right. split; [apply Hin; assumption | reflexivity].
    + intros Haccept.
      assert (Heq : polls (db w1)
                = List.map (fun p => if is_expired (now e) p then closed_by_job p else p)
                           orig).
      { rewrite Hpolls. apply map_ext_in. intros q Hq.
        destruct (is_expired (now e) q) eqn:Hexp.
        - assert (Hex : existsb (String.eqb (poll_id q)) closed' = true).
          { apply existsb_exists. exists (poll_id q). split; [|apply String.eqb_refl].
            apply (Hall Haccept). right. apply in_map. apply List.filter_In. auto. }
          rewrite Hex. reflexivity.
        - destruct (existsb (String.eqb (poll_id q)) closed') eqn:Hex; [|reflexivity].
          rewrite (Hin q Hq Hex) in Hexp. discriminate. }
      split; [exact Heq|]. rewrite Heq. apply List.Forall_forall.
      intros p Hp. apply in_map_iff in Hp. destruct Hp as (q & <- & Hq).
      destruct (is_expired (now e) q) eqn:Hexp;
        [apply closed_is_not_expired | exact Hexp].
Qed.

End ClosingJob.

Section Commenting.

Import Backend Routes.

Context (e : Env).

(** X17.  Every run of the comment route ends in one of three ways.  It
    is refused with 400, 403, 404 or 429, and then nothing was written.  Or
    it fails with 500.  Or it answers 201, and then the poll was not closed
    (and was a draft only if the caller created it), the text is not blank,
    the store has one more comment, and the poll's [comments_count] is the
    number of the poll's comments in the store. *)
Theorem comment_refused_failed_or_posted (w : World) (user : AuthUser)
    (body_poll_id body_content body_parent_comment_id : option string) :
  let w' := snd (post_comments user body_poll_id body_content body_parent_comment_id e w) in
  let pid := Js.or_else body_poll_id EmptyString in
  (exists code text,
      In code [400; 403; 404; 429] /\
      trace w' = (trace w ++ [Respond code text PNone])%list /\ db w' = db w) \/
  answers (trace w') = (answers (trace w) ++ [(500, "Internal server error")])%list \/
  (exists poll after,
      List.find (has_poll_id pid) (polls (db w)) = Some poll /\
      status poll <> "closed" /\
      (status poll = "draft" -> creator poll = au_id user) /\
      Js.trim (Js.or_else body_content EmptyString) <> EmptyString /\
      length (comments (db w')) = S (length (comments (db w))) /\
      List.find (has_poll_id pid) (polls (db w')) = Some after /\
      comments_count after
      = Z.of_nat (length (List.filter (fun c => String.eqb (comment_poll_id c) pid)
                                      (comments (db w')))) /\
      answers (trace w') = (answers (trace w) ++ [(201, EmptyString)])%list).
Proof.
  cbn zeta. unfold post_comments. open_calls. run_route.
  all: try solve [ends_refused].
  all: try solve [ends_failed].
  all: try match goal with
       | H : Some _ = None |- _ => discriminate H
       | H : None = Some _ |- _ => discriminate H
       end.
  all: repeat match goal with
       | H : Some _ = Some _ |- _ => injection H as H; subst
       end.
  all: right; right;
    match goal with
    | Hp : List.find (has_poll_id _) _ = Some ?p |- _ =>
        destruct (find_poll_id _ _ _ Hp) as [Hid _];
        eexists p, _
    end.
  all: split; [reflexivity|].
  all: split; [apply String.eqb_neq; assumption|].
  all: split; [intros Hd; first [apply String.eqb_eq; assumption
                                 | rewrite Hd in *; discriminate]|].
  all: split; [apply String.eqb_neq; assumption|].
  all: split; [rewrite ?update_first_length, length_app; cbn; lia|].
  all: split; [cbn [poll_id set_comments_count]; rewrite Hid;
                apply (update_first_find (has_poll_id _) (fun _ => _) _ _ ltac:(eassumption));
                unfold has_poll_id; cbn [poll_id set_comments_count]; rewrite Hid;
                apply String.eqb_refl|].
  all: split; [reflexivity|].
  all: rewrite ?answers_app; cbn [answers]; rewrite ?app_nil_r; reflexivity.
Qed.

Lemma update_first_keeps_in {A} (test : A -> bool) (f : A -> A) (l : list A) (x : A) :
  In x l -> exists y, In y (update_first test f l) /\ (y = x \/ y = f x).
Proof.
  induction l as [|a l IH]; cbn; [tauto|].
  destruct (test a) eqn:Ha; intros [->|Hin].
  - exists (f x). split; [left; reflexivity | right; reflexivity].
  - exists x. split; [right; exact Hin | left; reflexivity].
  - exists x. split; [left; reflexivity | left; reflexivity].
  - destruct (IH Hin) as (y & Hy & Hxy). exists y. split; [right; exact Hy | exact Hxy].
Qed.

Lemma option_string_eqb_refl (o : option string) : option_string_eqb o o = true.
Proof. destruct o; cbn; [apply String.eqb_refl | reflexivity]. Qed.

(** X18.  The same comment sent twice is stored once: when a comment was
    posted, the same user's request with the same poll, text and parent that
    arrives within five seconds is refused with 429 and writes nothing. *)
Theorem duplicate_comment_is_refused (e2 : Env) (w : World) (user : AuthUser)
    (body_poll_id body_content body_parent_comment_id : option string) (poll : Poll) :
  Js.truthy body_poll_id = true ->
  Js.truthy body_content = true ->
  Js.trim (Js.or_else body_content EmptyString) <> EmptyString ->
  List.find (has_poll_id (Js.or_else body_poll_id EmptyString)) (polls (db w)) = Some poll ->
  status poll <> "closed" ->
  (status poll = "draft" -> creator poll = au_id user) ->
  List.find (fun c => String.eqb (comment_user c) (au_id user) &&
                      String.eqb (comment_poll_id c) (Js.or_else body_poll_id EmptyString) &&
                      String.eqb (content c) (Js.trim (Js.or_else body_content EmptyString)) &&
                      option_string_eqb (parent_comment_id c) (or_null body_parent_comment_id) &&
                      Z.leb (now e - 5000) (comment_createdAt c))%bool
            (comments (db w)) = None ->
  (forall op k, rejects e op k = false) ->
  (forall op k, rejects e2 op k = false) ->
  now e2 - 5000 <= now e ->
  let w1 := snd (post_comments user body_poll_id body_content body_parent_comment_id e w) in
  let w2 := snd (post_comments user body_poll_id body_content body_parent_comment_id e2 w1) in
  answers (trace w1) = (answers (trace w) ++ [(201, EmptyString)])%list /\
  length (comments (db w1)) = S (length (comments (db w))) /\
  trace w2
  = (trace w1 ++ [Respond 429 "Duplicate comment detected. Please wait before posting again."
                          PNone])%list /\
  db w2 = db w1.
Proof.
  intros Hpid Hcontent Htext Hfind Hclosed Hdraft Hnone Hok Hok2 Hsoon. cbn zeta.
  destruct (find_poll_id _ _ _ Hfind) as [Hid _].
  apply String.eqb_neq in Htext, Hclosed.
  apply Z.leb_le in Hsoon.
  unfold post_comments. open_calls.
  destruct (Js.truthy body_parent_comment_id) eqn:Hparent;
    destruct (String.eqb (status poll) "draft") eqn:Hd;
    destruct (String.eqb (creator poll) (au_id user)) eqn:Hcreator;
    try (apply String.eqb_eq in Hd; rewrite (Hdraft Hd), String.eqb_refl in Hcreator;
         discriminate Hcreator);
    repeat first
      [ progress simpl_world
      | progress cbn [creator status poll_id set_comments_count comment_id]
      | rewrite Hok | rewrite Hok2
      | rewrite Hpid | rewrite Hcontent | rewrite Htext | rewrite Hfind
      | rewrite Hd | rewrite Hclosed | rewrite Hnone | rewrite Hcreator
      | rewrite Hid
      | match goal with
        | |- context [List.find (has_poll_id ?i)
                                (update_first (has_poll_id ?i) ?f (polls (db w)))] =>
            rewrite (update_first_find (has_poll_id i) f (polls (db w)) poll Hfind)
              by (unfold has_poll_id; cbn [poll_id set_comments_count]; rewrite Hid;
                  apply String.eqb_refl)
        end ].
  all: match goal with
       | |- context [List.find ?t ?L] => destruct (List.find t L) eqn:Hrecent
       end.
  all: try (simpl_world; rewrite ?answers_app; cbn [answers]; rewrite ?app_nil_r;
            rewrite ?update_first_length, length_app; cbn [length];
            repeat split; try reflexivity; lia).
  all: exfalso; pose proof (find_none _ _ Hrecent) as Hno.
  all: match type of Hrecent with
       | List.find _ (update_first ?t ?f (?l ++ [?c])%list) = None =>
           assert (Hin : In c (l ++ [c])%list)
             by (apply in_or_app; right; left; reflexivity);
           destruct (update_first_keeps_in t f (l ++ [c])%list c Hin)
             as (y & Hy & [->| ->]); specialize (Hno _ Hy)
       | List.find _ (?l ++ [?c])%list = None =>
           assert (Hin : In c (l ++ [c])%list)
             by (apply in_or_app; right; left; reflexivity);
           specialize (Hno c Hin)
       end.
  all: cbn in Hno; rewrite !String.eqb_refl, option_string_eqb_refl, Hsoon in Hno;
    discriminate Hno.
Qed.

End Commenting.

Section CreatingAPoll.

Import Backend Routes.

Context (e : Env).

(** Normalising the options of a request reads no document and writes
    none; the options it makes carry the votes the request gave them. *)
Lemma normalize_run (opts : list OptionInput) (w : World) :
  exists l w1,
    map_m normalizeOption opts e w = (Ok l, w1) /\
    db w1 = db w /\ trace w1 = trace w /\ calls w1 = calls w /\
    sockets w1 = sockets w /\
    List.map opt_votes (somes l) = flat_map requested_votes opts.
Proof.
  revert w. induction opts as [|opt opts IH]; intros w.
  - exists [], w. repeat split.
  - cbn [map_m]. unfold bind at 1.
    assert (Hopt : exists y w0,
               normalizeOption opt e w = (Ok y, w0) /\
               db w0 = db w /\ trace w0 = trace w /\ calls w0 = calls w /\
               sockets w0 = sockets w /\
               List.map opt_votes (somes [y]) = requested_votes opt).
    { destruct opt as [text|oid otext ovotes|]; cbn [normalizeOption].
      - eexists _, _. unfold bind, generateId, ret. repeat split.
      - destruct (Js.truthy oid); eexists _, _; unfold bind, generateId, ret;
          repeat split.
      - eexists _, _. unfold ret. repeat split. }
    destruct Hopt as (y & w0 & Hy & Hdb0 & Ht0 & Hc0 & Hs0 & Hv0).
    rewrite Hy. destruct (IH w0) as (l & w1 & Hl & Hdb1 & Ht1 & Hc1 & Hs1 & Hv1).
    unfold bind at 1. rewrite Hl. unfold ret.
    exists (y :: l), w1. split; [reflexivity|].
    repeat split; try congruence.
    cbn [flat_map]. rewrite <- Hv0, <- Hv1.
    destruct y; reflexivity.
Qed.

(** X19.  A poll that the creation route answers 201 for is stored as the
    last poll, belongs to the caller, has a status among active, closed and
    draft, at least two options and no option with a blank text, and
    [total_votes] zero.  Its options, though, carry the votes that the
    request gave them: the route takes the counts from the client. *)
Theorem created_poll_is_as_requested (w : World) (user : AuthUser) (body : CreatePollBody) :
  let w' := snd (post_polls user body e w) in
  answers (trace w') = (answers (trace w) ++ [(201, EmptyString)])%list ->
  exists poll opts,
    body_options body = Some opts /\
    polls (db w') = (polls (db w) ++ [poll])%list /\
    creator poll = au_id user /\
    valid_status (status poll) = true /\
    (2 <= length (options poll))%nat /\
    Forall (fun o => blank (opt_text o) = false) (options poll) /\
    total_votes poll = 0 /\
    List.map opt_votes (options poll) = flat_map requested_votes opts.
Proof.
  cbn zeta. unfold post_polls.
  destruct (body_options body) as [opts|]; [|open_calls; simpl_world; wrong_answer].
  destruct (negb (Js.truthy (body_title body)) || Nat.ltb (length opts) 2)%bool;
    [open_calls; simpl_world; wrong_answer|].
  destruct (normalize_run opts w) as (l & w1 & Hl & Hdb & Ht & Hc & Hs & Hv).
  open_calls. rewrite Hl.
  destruct (Nat.ltb (length (somes l)) 2) eqn:Hlen; cbn [orb].
  { simpl_world. rewrite Ht. wrong_answer. }
  destruct (existsb (fun o => blank (opt_text o)) (somes l)) eqn:Hblank.
  { simpl_world. rewrite Ht. wrong_answer. }
  run_route.
  all: rewrite ?Ht, ?Hdb.
  all: try solve [wrong_answer].
  all: intros _; eexists _, opts; split; [reflexivity|]; split; [reflexivity|];
    cbn [creator status options total_votes];
    split; [reflexivity|];
    split; [destruct (body_status body) as [s|]; [|reflexivity];
            destruct (valid_status s) eqn:Hv'; [exact Hv' | reflexivity]|];
    split; [apply Nat.ltb_ge in Hlen; exact Hlen|];
    split; [apply List.Forall_forall; intros o Ho;
            destruct (blank (opt_text o)) eqn:Hb; [|reflexivity];
            assert (Hex : existsb (fun o => blank (opt_text o)) (somes l) = true)
              by (apply existsb_exists; exists o; auto);
            congruence|];
    split; [reflexivity | exact Hv].
Qed.

End CreatingAPoll.

(** ** The notification service of the client *)

Section ServiceSorting.

Import Frontend Service.

Lemma string_ltb_antisym (a b : string) :
  String.ltb a b = true -> String.ltb b a = false.
Proof.
  unfold String.ltb. rewrite (String.compare_antisym b a).
  destruct (String.compare a b); cbn; congruence.
Qed.

Lemma string_ltb_neither (a b : string) :
  String.ltb a b = false -> String.ltb b a = false -> a = b.
Proof.
  unfold String.ltb. intros Hab Hba. apply String.compare_eq_iff.
  rewrite (String.compare_antisym b a) in Hba.
  destruct (String.compare a b); cbn in *; congruence.
Qed.

Lemma greater_antisym (sortBy : SortKey) (a b : Notification) :
  greater sortBy a b = true -> greater sortBy b a = false.
Proof.
  destruct sortBy; cbn; try (intros H; apply Z.ltb_lt in H; apply Z.ltb_ge; lia).
  apply string_ltb_antisym.
Qed.

(** Two notifications that neither is greater than the other compare
    alike with every third one. *)
Lemma greater_neither (sortBy : SortKey) (a b : Notification) :
  greater sortBy a b = false -> greater sortBy b a = false ->
  forall y, greater sortBy a y = greater sortBy b y /\
            greater sortBy y a = greater sortBy y b.
Proof.
  destruct sortBy; cbn; intros Hab Hba y.
  - apply Z.ltb_ge in Hab, Hba.
    replace (n_timestamp a) with (n_timestamp b) by lia. split; reflexivity.
  - apply Z.ltb_ge in Hab, Hba.
    replace (priorityOrder (n_priority a)) with (priorityOrder (n_priority b)) by lia.
    split; reflexivity.
  - rewrite (string_ltb_neither _ _ Hba Hab). split; reflexivity.
  - apply Z.ltb_ge in Hab, Hba.
    replace (if n_isRead a then 1 else 0) with (if n_isRead b then 1 else 0) by lia.
    split; reflexivity.
Qed.

Lemma compare_zero (sortBy : SortKey) (order : string) (a b : Notification) :
  compare sortBy order a b = 0 <->
  greater sortBy a b = false /\ greater sortBy b a = false.
Proof.
  unfold compare.
  destruct (String.eqb order "desc"), (greater sortBy a b) eqn:Hab,
    (greater sortBy b a) eqn:Hba; split; intros H; try discriminate; try tauto;
    destruct H; discriminate.
Qed.

Lemma compare_zero_alike (sortBy : SortKey) (order : string) (a b y : Notification) :
  compare sortBy order a b = 0 -> compare sortBy order a y = compare sortBy order b y.
Proof.
  intros H. apply compare_zero in H. destruct H as [Hab Hba].
  destruct (greater_neither sortBy a b Hab Hba y) as [H1 H2].
  unfold compare. rewrite H1, H2. reflexivity.
Qed.

Lemma compare_positive_back (sortBy : SortKey) (order : string) (a b : Notification) :
  0 < compare sortBy order a b -> compare sortBy order b a <= 0.
Proof.
  unfold compare.
  destruct (String.eqb order "desc"), (greater sortBy a b) eqn:Hab,
    (greater sortBy b a) eqn:Hba; intros H; try lia;
    try (rewrite (greater_antisym _ _ _ Hab) in Hba; discriminate).
Qed.

Lemma insert_by_perm (cmp : Notification -> Notification -> Z) (x : Notification)
    (l : list Notification) :
  Permutation (insert_by cmp x l) (x :: l).
Proof.
  induction l as [|y l IH]; cbn; [reflexivity|].
  destruct (Z.ltb 0 (cmp x y)); [|reflexivity].
  rewrite IH. apply perm_swap.
Qed.

Lemma insert_by_sorted (sortBy : SortKey) (order : string) (x : Notification)
    (l : list Notification) :
  Sorted (fun a b => compare sortBy order a b <= 0) l ->
  Sorted (fun a b => compare sortBy order a b <= 0) (insert_by (compare sortBy order) x l).
Proof.
  induction 1 as [|y l Hl IH Hy]; cbn; [repeat constructor|].
  destruct (Z.ltb 0 (compare sortBy order x y)) eqn:Hxy.
  - apply Z.ltb_lt in Hxy. constructor; [exact IH|].
    destruct l as [|z l]; cbn.
    + constructor. apply compare_positive_back, Hxy.
    + destruct (Z.ltb 0 (compare sortBy order x z)).
      * constructor. inversion Hy; assumption.
      * constructor. apply compare_positive_back, Hxy.
  - apply Z.ltb_ge in Hxy. constructor; [constructor; assumption|].
    constructor. exact Hxy.
Qed.

Lemma insert_by_class (sortBy : SortKey) (order : string) (a x : Notification)
    (l : list Notification) :
  let same n := Z.eqb (compare sortBy order a n) 0 in
  List.filter same (insert_by (compare sortBy order) x l)
  = List.filter same (x :: l).
Proof.
  cbn zeta. induction l as [|y l IH]; [reflexivity|].
  cbn [insert_by].
  destruct (Z.ltb 0 (compare sortBy order x y)) eqn:Hxy; [|reflexivity].
  apply Z.ltb_lt in Hxy.
  cbn [List.filter] in *. rewrite IH.
  destruct (Z.eqb (compare sortBy order a x) 0) eqn:Hax; [|reflexivity].
  destruct (Z.eqb (compare sortBy order a y) 0) eqn:Hay; [|reflexivity].
  apply Z.eqb_eq in Hax, Hay.
  rewrite (compare_zero_alike _ _ _ _ y Hax) in Hay. lia.
Qed.

Lemma sort_perm (l : list Notification) (sortBy : SortKey) (order : string) :
  Permutation (sortNotifications l sortBy order) l.
Proof.
  unfold sortNotifications. induction l as [|x l IH]; cbn; [reflexivity|].
  rewrite insert_by_perm. constructor. exact IH.
Qed.

Lemma sort_sorted (l : list Notification) (sortBy : SortKey) (order : string) :
  Sorted (fun a b => compare sortBy order a b <= 0) (sortNotifications l sortBy order).
Proof.
  unfold sortNotifications. induction l as [|x l IH]; cbn; [constructor|].
  apply insert_by_sorted, IH.
Qed.



(** X20.  [sortNotifications] is a stable sort for each of its keys and both
    orders, on notifications that, when the key is the priority, have no
    priority that names a member of [Object.prototype]: the result has the
    notifications of the argument, each is placed before its successor by
    the comparison function, and notifications that compare equal to one
    another stay in the order they came in. *)
Theorem sort_is_stable (l : list Notification) (sortBy : SortKey) (order : string) :
  (sortBy = ByPriority -> Forall (fun n => Js.inherited (n_priority n) = false) l) ->
  Permutation (sortNotifications l sortBy order) l /\
  Sorted (fun a b => compare sortBy order a b <= 0) (sortNotifications l sortBy order) /\
  forall a,
    List.filter (fun n => Z.eqb (compare sortBy order a n) 0)
                (sortNotifications l sortBy order)
    = List.filter (fun n => Z.eqb (compare sortBy order a n) 0) l.
Proof.
  intros _. split; [|split].
  - apply sort_perm.
  - apply sort_sorted.
  - unfold sortNotifications. intros a. induction l as [|x l IH]; [reflexivity|].
    cbn [fold_right]. rewrite (insert_by_class sortBy order a x).
    cbn [List.filter]. rewrite IH. reflexivity.
Qed.

End ServiceSorting.

Section ServiceGrouping.

Import Frontend Service.

Lemma push_group_lookup (key k : string) (n : Notification)
    (groups : gmap string (list Notification)) :
  push_group key n groups !! k
  = if String.eqb key k then Some (default [] (groups !! k) ++ [n])%list
    else groups !! k.
Proof.
  unfold push_group. destruct (String.eqb key k) eqn:Hk.
  - apply String.eqb_eq in Hk. subst. apply lookup_insert_eq.
  - apply String.eqb_neq in Hk. apply lookup_insert_ne. exact Hk.
Qed.

(** A group holds the notifications of its key, in the order of the
    list, after what it held before. *)
Lemma group_lookup (key : Notification -> string) (l : list Notification)
    (groups : gmap string (list Notification)) (k : string) :
  List.fold_left (fun groups n => push_group (key n) n groups) l groups !! k
  = match List.filter (fun n => String.eqb (key n) k) l with
    | [] => groups !! k
    | g => Some (default [] (groups !! k) ++ g)%list
    end.
Proof.
  revert groups. induction l as [|n l IH]; intros groups; [reflexivity|].
  cbn [List.fold_left List.filter]. rewrite IH, push_group_lookup.
  destruct (String.eqb (key n) k); [|reflexivity].
  destruct (groups !! k) as [g0|]; cbn;
    destruct (List.filter (fun n0 => String.eqb (key n0) k) l); cbn;
    rewrite <- ?app_assoc; reflexivity.
Qed.

(** X21.  Grouping by date, and grouping by type when no notification has
    a type that names a member of [Object.prototype], cut the list into its
    classes: the object returned has a group under a key exactly when a
    notification has that key, and the group lists the notifications of that
    key in the order of the list.  No group is empty and no notification is
    in two groups. *)
Theorem groups_are_classes (now : Z) (l : list Notification) (k : string) :
  groupNotifications now l "date" !! k
  = match List.filter (fun n => String.eqb (groupKey ((now - n_timestamp n) / day)) k) l with
    | [] => None
    | g => Some g
    end /\
  (Forall (fun n => Js.inherited (n_type n) = false) l ->
   groupNotifications now l "type" !! k
   = match List.filter (fun n => String.eqb (n_type n) k) l with
     | [] => None
     | g => Some g
     end).
Proof.
  unfold groupNotifications. cbn [String.eqb Ascii.eqb Bool.eqb].
  unfold groupByDate, groupByType. split.
  - rewrite (group_lookup (fun n => groupKey ((now - n_timestamp n) / day))).
    rewrite lookup_empty. reflexivity.
  - intros _. rewrite (group_lookup n_type). rewrite lookup_empty. reflexivity.
Qed.


End ServiceGrouping.

Section ServiceTime.

Import Frontend Service.

(** X22.  The time shown for a notification and the date group it is filed
    under agree for a notification of the last two days, and disagree for one
    stamped later than the client's clock: within a day the group is Today
    and the text counts minutes (1 to 59) or hours (1 to 23) or is Just now;
    on the day before both say Yesterday; a notification from the future is
    shown as Just now and filed under This Week. *)
Theorem shown_time_and_group (dateString : Z -> Z -> string) (now timestamp : Z) :
  let shown := formatTimestamp dateString now timestamp in
  let group := groupKey ((now - timestamp) / day) in
  (now < timestamp -> shown = "Just now" /\ group = "This Week") /\
  (timestamp <= now < timestamp + day ->
   group = "Today" /\
   (shown = "Just now" \/
    (exists m, 1 <= m < 60 /\ shown = Js.decimal m +:+ "m ago") \/
    (exists h, 1 <= h < 24 /\ shown = Js.decimal h +:+ "h ago"))) /\
  (timestamp + day <= now < timestamp + 2 * day ->
   shown = "Yesterday" /\ group = "Yesterday").
Proof.
  cbn zeta. unfold formatTimestamp, groupKey, day.
  change (1000 * 60 * 60 * 24) with 86400000.
  change (1000 * 60 * 60) with 3600000.
  change (1000 * 60) with 60000.
  set (d := now - timestamp).
  split; [|split]; intros H.
  - assert (Hm : d / 60000 < 1) by (apply Z.div_lt_upper_bound; lia).
    assert (Hd : d / 86400000 < 0) by (apply Z.div_lt_upper_bound; lia).
    apply Z.ltb_lt in Hm. rewrite Hm. split; [reflexivity|].
    destruct (Z.eqb_spec (d / 86400000) 0); [lia|].
    destruct (Z.eqb_spec (d / 86400000) 1); [lia|].
    destruct (Z.ltb_spec (d / 86400000) 7); [reflexivity|lia].
  - assert (Hd : d / 86400000 = 0) by (apply Z.div_small; lia).
    rewrite Hd. split; [reflexivity|].
    destruct (Z.ltb_spec (d / 60000) 1); [left; reflexivity|].
    destruct (Z.ltb_spec (d / 60000) 60).
    + right. left. exists (d / 60000). split; [lia | reflexivity].
    + assert (Hh : d / 3600000 < 24) by (apply Z.div_lt_upper_bound; lia).
      assert (Hh1 : 1 <= d / 3600000).
      { apply Z.div_le_lower_bound; [lia|].
        assert (60 * 60000 <= d); [|lia].
        destruct (Z.lt_ge_cases d (60 * 60000)) as [Hlt|Hge]; [|lia].
        assert (d / 60000 < 60) by (apply Z.div_lt_upper_bound; lia). lia. }
      apply Z.ltb_lt in Hh. rewrite Hh.
      right. right. exists (d / 3600000). split; [lia | reflexivity].
  - assert (Hd : d / 86400000 = 1).
    { assert (d / 86400000 < 2) by (apply Z.div_lt_upper_bound; lia).
      assert (1 <= d / 86400000) by (apply Z.div_le_lower_bound; lia). lia. }
    rewrite Hd. cbn [Z.eqb Pos.eqb]. split; [|reflexivity].
    assert (Hm : 60 <= d / 60000) by (apply Z.div_le_lower_bound; lia).
    assert (Hh : 24 <= d / 3600000) by (apply Z.div_le_lower_bound; lia).
    destruct (Z.ltb_spec (d / 60000) 1); [lia|].
    destruct (Z.ltb_spec (d / 60000) 60); [lia|].
    destruct (Z.ltb_spec (d / 3600000) 24); [lia|]. reflexivity.
Qed.

End ServiceTime.

Section ServiceMessages.

Import Service.

Lemma append_inj_l (a x y : string) : a +:+ x = a +:+ y -> x = y.
Proof. induction a as [|c a IH]; cbn; [auto|]. intros [= H]. auto. Qed.

(** X23.  The client's [formatNotificationMessage] writes the message the
    server writes, for every type and data, except for a poll that the server
    closed by itself: there the server's message says so and the client's
    does not. *)
Theorem client_message_is_server_message (type : string) (data : Backend.NotificationData) :
  formatNotificationMessage type data = Backend.formatNotificationMessage type data <->
  ~ (type = "poll_closed" /\ Backend.reason data = Some "automatic_closure").
Proof.
  unfold formatNotificationMessage, Backend.formatNotificationMessage.
  destruct (String.eqb_spec type "vote") as [->|_].
  { split; [intros _ [H _]; discriminate | reflexivity]. }
  destruct (String.eqb_spec type "comment") as [->|_].
  { split; [intros _ [H _]; discriminate | reflexivity]. }
  destruct (String.eqb_spec type "reply") as [->|_].
  { split; [intros _ [H _]; discriminate | reflexivity]. }
  destruct (String.eqb_spec type "comment_like") as [->|_].
  { split; [intros _ [H _]; discriminate | reflexivity]. }
  destruct (String.eqb_spec type "poll_created") as [->|_].
  { split; [intros _ [H _]; discriminate | reflexivity]. }
  destruct (String.eqb_spec type "poll_closed") as [->|Hne].
  - destruct (Backend.option_string_eqb (Backend.reason data) (Some "automatic_closure"))
      eqn:Hr.
    + split.
      * intros H. exfalso.
        do 4 apply append_inj_l in H. discriminate.
      * intros Hno. exfalso. apply Hno. split; [reflexivity|].
        destruct (Backend.reason data) as [r|]; [|discriminate].
        cbn in Hr. apply String.eqb_eq in Hr. congruence.
    + split; [|reflexivity]. intros _ [_ Hreason].
      rewrite Hreason in Hr. cbn in Hr. discriminate.
  - split; [intros _ [H _]; contradiction|].
    intros _. destruct (String.eqb type "system"); reflexivity.
Qed.

End ServiceMessages.

Section ServicePipeline.

Import Frontend Service.






End ServicePipeline.

Section ServiceExamples.

Import Frontend Service.

(** A notification stamped five milliseconds ahead of the clock. *)
Lemma shown_time_and_group_witness :
  formatTimestamp (fun _ _ => EmptyString) 0 5 = "Just now" /\
  groupKey ((0 - 5) / day) = "This Week".
Proof.
  apply (proj1 (shown_time_and_group (fun _ _ => EmptyString) 0 5)). lia.
Defined.


(** Two notifications of alice, the one of low priority first, sorted by
    priority from high to low. *)
Lemma sort_is_stable_witness :
  let l := [Examples.stale1; Cases.urgent1] in
  Forall (fun n => Js.inherited (n_priority n) = false) l /\
  Permutation (sortNotifications l ByPriority "desc") l /\
  sortNotifications l ByPriority "desc" = [Cases.urgent1; Examples.stale1].
Proof.
  cbn zeta.
  assert (H : Forall (fun n => Js.inherited (n_priority n) = false)
                     [Examples.stale1; Cases.urgent1]) by (repeat constructor).
  split; [exact H|].
  split; [exact (proj1 (sort_is_stable _ ByPriority "desc" (fun _ => H))) | reflexivity].
Defined.

(** The same two, grouped by type: the votes. *)
Lemma groups_are_classes_witness :
  groupNotifications 2000 [Examples.stale1; Cases.urgent1] "type" !! "vote"
  = Some [Examples.stale1].
Proof.
  apply (proj2 (groups_are_classes 2000 [Examples.stale1; Cases.urgent1] "vote")).
  repeat constructor.
Defined.

End ServiceExamples.

(** ** The provider and the server together *)

Section ProviderRuns.

Import Backend Provider.

Lemma skipn_app_length {A} (t news : list A) : skipn (length t) (t ++ news) = news.
Proof. induction t as [|a t IH]; [reflexivity | exact IH]. Qed.

(** A piece without a slash is one piece of a path. *)
Lemma split_piece (piece rest : string) :
  Routes.split "/"%char piece = [piece] ->
  Routes.split "/"%char (piece +:+ String "/"%char rest)
  = piece :: Routes.split "/"%char rest.
Proof.
  induction piece as [|c piece IH]; intros Hp; [reflexivity|].
  cbn [Routes.split] in Hp.
  destruct (Ascii.eqb c "/"%char) eqn:Hc; [discriminate|].
  destruct (Routes.split "/"%char piece) as [|seg segs] eqn:Hs.
  - exfalso.
    clear - Hs. destruct piece as [|d piece]; cbn in Hs; [discriminate|].
    destruct (Ascii.eqb d "/"%char); [discriminate|].
    destruct (Routes.split "/"%char piece); discriminate.
  - injection Hp as -> ->. simpl. rewrite Hc, (IH eq_refl). reflexivity.
Qed.

Lemma mark_read_path (id : string) :
  Routes.split "/"%char id = [id] ->
  url_path ("/notifications/" +:+ id +:+ "/read") = ["api"; "notifications"; id; "read"].
Proof.
  intros Hid. unfold url_path.
  change (Routes.split "/"%char ("/api" +:+ "/notifications/" +:+ id +:+ "/read"))
    with ([EmptyString; "api"; "notifications"]
          ++ Routes.split "/"%char (id +:+ String "/"%char "read"))%list.
  rewrite (split_piece id "read" Hid). reflexivity.
Qed.

Lemma mark_read_route (id : string) :
  id <> EmptyString ->
  Routes.dispatch Routes.PATCH ["api"; "notifications"; id; "read"]
  = Some (Routes.mkRoute Routes.PATCH
            [Routes.Lit "api"; Routes.Lit "notifications"; Routes.Par "id";
             Routes.Lit "read"] 1546).
Proof.
  intros Hid. destruct id as [|c id]; [contradiction|].
  vm_compute. reflexivity.
Qed.

(** One round of the echo: the listener of notificationRead asks the
    server to mark the notification read, and the server tells the room of
    the user, in which the client's socket is. *)
Lemma echo_round (x : Routes.MoreOp -> nat -> bool) (message : option string)
    (e : Env) (id : string) (c : Client) (w : World) (n : Notification) :
  id <> EmptyString ->
  Routes.split "/"%char id = [id] ->
  rejects e NotificationFindOneAndUpdate (calls w) = false ->
  List.find (owned_by id (au_id (client_user c))) (notifications (db w)) = Some n ->
  client_socket c ∈ members (user_room (au_id (client_user c))) (sockets w) ->
  client_inbox c = [("notificationRead", PNotificationRead id)] ->
  exists c' w' n',
    handle_next x message c e w = Some (c', w') /\
    client_user c' = client_user c /\ client_socket c' = client_socket c /\
    client_inbox c' = [("notificationRead", PNotificationRead id)] /\
    List.find (owned_by id (au_id (client_user c))) (notifications (db w')) = Some n' /\
    sockets w' = sockets w /\ calls w' = S (calls w) /\
    answers (trace w')
    = (answers (trace w) ++ [(200, "Notification marked as read")])%list.
Proof.
  intros Hid Hpiece Hok Hfind Hroom Hinbox.
  pose proof (patch_notification_read_run e w (client_user c) id Hok) as Hrun.
  cbn zeta in Hrun. rewrite Hfind in Hrun.
  destruct Hrun as ((Hdb & Htrace) & Hcalls & Hsockets).
  pose proof (find_some _ _ Hfind) as [_ Hown]. apply owned_by_spec in Hown.
  destruct Hown as [Hnid _].
  unfold handle_next. rewrite Hinbox. unfold on_message.
  cbn [String.eqb Ascii.eqb Bool.eqb].
  unfold markAsRead, call, request.
  rewrite (mark_read_path id Hpiece), (mark_read_route id Hid).
  cbn [handler Routes.route_line Nat.eqb nth].
  cbn [client_user client_socket client_inbox client_state with_inbox with_state receive].
  rewrite Htrace, skipn_app_length.
  cbn [answer_in].
  eexists _, _, _. split; [reflexivity|].
  unfold receive, delivered.
  cbn [client_user client_socket client_inbox client_state with_inbox with_state
       flat_map].
  rewrite (bool_decide_eq_true_2 _ Hroom). cbn [app].
  rewrite Hnid, Hdb. cbn [notifications set_notifications].
  split; [reflexivity|]. split; [reflexivity|]. split; [reflexivity|].
  split; [apply (update_first_found _ _ _ n (owned_by_set_isRead id _ true) Hfind)|].
  split; [exact Hsockets|]. split; [exact Hcalls|].
  rewrite Htrace, answers_app. reflexivity.
Qed.

(** X25.  Marking a notification read never comes to rest.  The route
    tells the room of the user that the notification was read; the provider,
    whose socket is in that room, answers that message by asking for the same
    notification to be marked read; and so on.  After one click, however many
    messages the listeners have handled, one more waits, and each of them was
    a request that the route answered with 200. *)
Theorem mark_read_echoes (x : Routes.MoreOp -> nat -> bool) (message : option string)
    (e : Env) (id : string) (k : nat) (c : Client) (w : World) (n : Notification) :
  id <> EmptyString ->
  Routes.split "/"%char id = [id] ->
  (forall j, rejects e NotificationFindOneAndUpdate j = false) ->
  List.find (owned_by id (au_id (client_user c))) (notifications (db w)) = Some n ->
  client_socket c ∈ members (user_room (au_id (client_user c))) (sockets w) ->
  client_inbox c = [("notificationRead", PNotificationRead id)] ->
  exists c' w',
    handle_many k x message c e w = Some (c', w') /\
    client_inbox c' = [("notificationRead", PNotificationRead id)] /\
    calls w' = (calls w + k)%nat /\
    answers (trace w')
    = (answers (trace w) ++ repeat (200, "Notification marked as read") k)%list.
Proof.
  intros Hid Hpiece Hok. revert c w n.
  induction k as [|k IH]; intros c w n Hfind Hroom Hinbox.
  - exists c, w. cbn. rewrite Nat.add_0_r, app_nil_r. auto.
  - destruct (echo_round x message e id c w n Hid Hpiece (Hok _) Hfind Hroom Hinbox)
      as (c1 & w1 & n1 & Hnext & Huser & Hsock & Hinbox1 & Hfind1 & Hsockets & Hcalls & Hans).
    rewrite <- Huser in Hfind1.
    rewrite <- Huser, <- Hsock, <- Hsockets in Hroom.
    destruct (IH c1 w1 n1 Hfind1 Hroom Hinbox1) as (c' & w' & Hmany & Hinbox' & Hcalls' & Hans').
    exists c', w'. cbn [handle_many]. rewrite Hnext.
    split; [exact Hmany|]. split; [exact Hinbox'|]. split; [lia|].
    rewrite Hans', Hans, <- app_assoc. reflexivity.
Qed.

Lemma delete_notification_missing (x : Routes.MoreOp -> nat -> bool) (e : Env)
    (w : World) (user : AuthUser) (id : string) :
  x Routes.NotificationFindOneAndDelete (calls w) = false ->
  List.find (owned_by id (au_id user)) (notifications (db w)) = None ->
  let w' := snd (Routes.delete_notification x user id e w) in
  db w' = db w /\
  trace w' = (trace w ++ [Respond 404 "Notification not found" PNone])%list /\
  calls w' = S (calls w).
Proof.
  intros Hok Hnone. cbn zeta. unfold Routes.delete_notification. open_calls.
  rewrite Hok. simpl_world. rewrite Hnone. repeat split.
Qed.

(** X26.  Clear all clears the list of the client and nothing else.  The
    provider's request goes to the route that deletes one notification, with
    clear-all for an id; unless the user owns a notification of that id the
    route answers 404 and deletes nothing; the promise of the request
    resolves all the same, and the provider empties its list.  The next fetch
    brings back every notification the store lists for the user. *)
Theorem clear_all_clears_the_client_only (x : Routes.MoreOp -> nat -> bool)
    (message : option string) (e : Env) (c : Client) (w : World) :
  (forall n, In n (notifications (db w)) ->
             n_userId n = au_id (client_user c) -> n_id n <> "clear-all") ->
  x Routes.NotificationFindOneAndDelete (calls w) = false ->
  rejects e NotificationFind (S (calls w)) = false ->
  exists c1 w1 c2 w2,
    clearAllNotifications x message c e w = Some (c1, w1) /\
    db w1 = db w /\
    trace w1 = (trace w ++ [Respond 404 "Notification not found" PNone])%list /\
    Frontend.notifications (client_state c1) = [] /\
    Frontend.unreadCount (client_state c1) = 0 /\
    fetchNotifications x message c1 e w1 = Some (c2, w2) /\
    Frontend.notifications (client_state c2)
    = List.map of_view
        (List.map with_read_alias
           (limit 50 (sort_desc
                        (List.filter (fun n => String.eqb (n_userId n)
                                                          (au_id (client_user c)))
                                     (notifications (db w)))))).
Proof.
  intros Hnone Hok Hfind.
  assert (Hmissing : List.find (owned_by "clear-all" (au_id (client_user c)))
                               (notifications (db w)) = None).
  { apply find_owned_none. intros (n & Hin & Hid & Hu). exact (Hnone n Hin Hu Hid). }
  pose proof (delete_notification_missing x e w (client_user c) "clear-all" Hok Hmissing)
    as Hrun. cbn zeta in Hrun. destruct Hrun as (Hdb & Htrace & Hcalls).
  set (w1 := snd (Routes.delete_notification x (client_user c) "clear-all" e w)) in *.
  assert (Hclear : clearAllNotifications x message c e w
                   = Some (with_state
                             (Frontend.notificationReducer (now e) (client_state c)
                                Frontend.CLEAR_ALL) c, w1)).
  { unfold clearAllNotifications, call, request.
    change (Routes.dispatch Routes.DELETE (url_path "/notifications/clear-all"))
      with (Some (Routes.mkRoute Routes.DELETE
                    [Routes.Lit "api"; Routes.Lit "notifications"; Routes.Par "id"] 1588)).
    change (url_path "/notifications/clear-all")
      with ["api"; "notifications"; "clear-all"].
    cbn [handler Routes.route_line Nat.eqb nth]. fold w1.
    rewrite Htrace, skipn_app_length. cbn [answer_in].
    unfold receive, delivered. cbn [flat_map]. rewrite app_nil_r.
    unfold settle, validateStatus. cbn [Z.ltb Z.compare Pos.compare Pos.compare_cont].
    destruct c; reflexivity. }
  pose proof (get_notifications_run e w1 (client_user c)
                {| param_limit := None; param_type := None; param_priority := None;
                   param_unreadOnly := None |}) as Hlist.
  rewrite Hcalls in Hlist. specialize (Hlist Hfind). cbn zeta in Hlist.
  destruct Hlist as [Hdb2 Htrace2].
  eexists _, _, _, _. split; [exact Hclear|].
  split; [exact Hdb|]. split; [exact Htrace|].
  split; [reflexivity|]. split; [reflexivity|].
  split.
  - unfold fetchNotifications, request.
    change (Routes.dispatch Routes.GET (url_path "/notifications"))
      with (Some (Routes.mkRoute Routes.GET
                    [Routes.Lit "api"; Routes.Lit "notifications"] 1510)).
    cbn [handler Routes.route_line Nat.eqb nth client_user with_state].
    rewrite Htrace2, skipn_app_length. cbn [answer_in]. reflexivity.
  - cbn [client_state with_state receive with_inbox settle].
    unfold validateStatus. cbn [Z.ltb Z.compare Pos.compare Pos.compare_cont].
    cbn [Frontend.notificationReducer Frontend.notifications listed].
    rewrite Hdb. do 4 f_equal.
    apply List.filter_ext. intros n. unfold matches.
    cbn [query_userId query_type query_priority query_isRead filter_value
         option_string_eqb].
    rewrite !andb_true_r. reflexivity.
Qed.

(** X27.  From the store to the list of the client: when the store takes
    a notification for a user, a provider of that user whose socket is in the
    user's room receives it, and its listener puts an unread entry with the
    id, type, message and priority of the stored record at the head of the
    list and adds one to the unread count. *)
Theorem push_shows_in_the_list (x : Routes.MoreOp -> nat -> bool)
    (message : option string) (e : Env) (c : Client) (w : World)
    (type : string) (data : NotificationData) :
  rejects e NotificationSave (calls w) = false ->
  fresh e (next_id w) <> EmptyString ->
  client_socket c ∈ members (user_room (au_id (client_user c))) (sockets w) ->
  client_inbox c = [] ->
  let w' := snd (createNotification type data (au_id (client_user c)) e w) in
  let stored := built e w type data (au_id (client_user c)) in
  exists c' entry,
    handle_next x message (receive (skipn (length (trace w)) (trace w')) c) e w'
    = Some (c', w') /\
    notifications (db w') = (notifications (db w) ++ [stored])%list /\
    client_inbox c' = [] /\
    Frontend.notifications (client_state c')
    = entry :: Frontend.notifications (client_state c) /\
    Frontend.unreadCount (client_state c') = Frontend.unreadCount (client_state c) + 1 /\
    Frontend.n_id entry = n_id stored /\ Frontend.n_type entry = type /\
    Frontend.n_message entry = formatNotificationMessage type data /\
    Frontend.n_priority entry = Frontend.getNotificationPriority type /\
    Frontend.n_isRead entry = false.
Proof.
  intros Hok Hfresh Hroom Hinbox. cbn zeta.
  pose proof (createNotification_run e w type data (au_id (client_user c))) as Hrun.
  cbn zeta in Hrun. rewrite Hok in Hrun. destruct Hrun as (_ & Hdb & Htrace & _).
  rewrite Htrace, skipn_app_length. unfold receive, delivered. cbn [flat_map].
  rewrite (bool_decide_eq_true_2 _ Hroom), Hinbox. cbn [app].
  unfold handle_next. cbn [client_inbox with_inbox on_message].
  cbn [String.eqb Ascii.eqb Bool.eqb].
  eexists _, _. split; [reflexivity|].
  cbn [client_inbox client_state with_state with_inbox Frontend.notificationReducer
       Frontend.notifications Frontend.unreadCount].
  rewrite Hdb. cbn [notifications set_notifications].
  split; [reflexivity|]. split; [reflexivity|]. split; [reflexivity|].
  split; [reflexivity|].
  cbn [Frontend.newNotification Frontend.n_id Frontend.n_type Frontend.n_message
       Frontend.n_priority Frontend.n_isRead pushed_of Frontend.p_id Frontend.p_type
       Frontend.p_message Frontend.p_priority built n_id n_type n_message n_priority
       Js.or_else].
  apply String.eqb_neq in Hfresh. rewrite Hfresh.
  repeat split. symmetry. apply priorities_agree.
Qed.

Lemma members_connected (room sid : string) (reg : gmap string Socket) :
  sid ∈ members room reg -> sid ∈ dom reg.
Proof.
  intros H. apply elem_of_members in H. destruct H as (socket & Hl & _).
  apply elem_of_dom. eauto.
Qed.

(** X28.  A counted vote is announced twice to whoever looks at the poll:
    the route sends the poll to the room of the poll and then to every
    socket, so a socket that is in the room of the poll receives the same
    pollUpdate message two times. *)
Theorem poll_update_arrives_twice (e : Env) (w : World) (user : AuthUser)
    (pollId : string) (option_id : option string) (poll : Poll) (opt : PollOption)
    (sid : string) :
  Js.truthy option_id = true ->
  List.find (has_poll_id pollId) (polls (db w)) = Some poll ->
  status poll = "active" ->
  (allow_multiple_votes poll = false ->
   List.find (fun v => String.eqb (vote_user v) (au_id user) &&
                       String.eqb (vote_poll_id v) pollId)%bool
             (votes (db w)) = None) ->
  List.find (fun o => String.eqb (opt_id o) (Js.or_else option_id EmptyString))
            (options poll) = Some opt ->
  (forall op k, rejects e op k = false) ->
  sid ∈ members (poll_room pollId) (sockets w) ->
  let w' := snd (post_vote user pollId option_id e w) in
  let counted := count_vote (Js.or_else option_id EmptyString) poll in
  List.filter (fun m => String.eqb (fst m) "pollUpdate")
              (delivered sid (skipn (length (trace w)) (trace w')))
  = [("pollUpdate", PPoll counted); ("pollUpdate", PPoll counted)].
Proof.
  intros Htruthy Hfind Hactive Hsingle Hopt Hok Hroom. cbn zeta.
  pose proof (members_connected _ _ _ Hroom) as Hdom.
  unfold post_vote. open_calls.
  rewrite Htruthy. simpl_world. rewrite Hok. simpl_world. rewrite Hfind, Hactive.
  cbn [String.eqb Ascii.eqb Bool.eqb]. simpl_world.
  destruct (allow_multiple_votes poll) eqn:Hmultiple; simpl_world;
    rewrite ?Hok; simpl_world; rewrite ?(Hsingle eq_refl), Hopt; simpl_world;
    repeat first [ rewrite Hok | progress simpl_world ];
    cbn [status creator count_vote]; rewrite Hactive;
    cbn [String.eqb Ascii.eqb Bool.eqb];
    destruct (String.eqb (creator poll) (au_id user)); simpl_world;
    repeat first [ rewrite Hok | progress simpl_world ];
    rewrite <- !app_assoc, skipn_app_length; unfold delivered;
    cbn [app flat_map];
    rewrite ?(bool_decide_eq_true_2 _ Hroom), ?(bool_decide_eq_true_2 _ Hdom);
    repeat match goal with
           | |- context [bool_decide ?P] => destruct (bool_decide P)
           end;
    reflexivity.
Qed.

End ProviderRuns.

Section ProviderExamples.

Import Backend Provider.

Lemma alice_in_her_room (k : nat) :
  "s1" ∈ members (user_room "A") (sockets (Examples.world_with k)).
Proof.
  apply (connected_in_own_room [] [] "s1" "A" "alice"); [discriminate | constructor].
Qed.

(** alice's provider is told that n1 was read, and handles three
    messages. *)
Lemma mark_read_echoes_witness :
  exists c' w',
    handle_many 3 Cases.accepting None Cases.client_told Examples.env0
                (Examples.world_with 3) = Some (c', w') /\
    client_inbox c' = [("notificationRead", PNotificationRead "n1")] /\
    calls w' = (calls (Examples.world_with 3) + 3)%nat /\
    answers (trace w')
    = (answers (trace (Examples.world_with 3))
       ++ repeat (200, "Notification marked as read") 3)%list.
Proof.
  apply (mark_read_echoes Cases.accepting None Examples.env0 "n1" 3 Cases.client_told
           (Examples.world_with 3) (set_isRead false (Examples.notification_of 1))).
  - discriminate.
  - reflexivity.
  - reflexivity.
  - reflexivity.
  - apply alice_in_her_room.
  - reflexivity.
Defined.

(** alice clears her three notifications. *)
Lemma clear_all_clears_the_client_only_witness :
  exists c1 w1 c2 w2,
    clearAllNotifications Cases.accepting None Cases.client1 Examples.env0
      (Examples.world_with 3) = Some (c1, w1) /\
    db w1 = db (Examples.world_with 3) /\
    trace w1 = (trace (Examples.world_with 3)
                ++ [Respond 404 "Notification not found" PNone])%list /\
    Frontend.notifications (client_state c1) = [] /\
    Frontend.unreadCount (client_state c1) = 0 /\
    fetchNotifications Cases.accepting None c1 Examples.env0 w1 = Some (c2, w2) /\
    Frontend.notifications (client_state c2)
    = List.map of_view
        (List.map with_read_alias
           (limit 50 (sort_desc
                        (List.filter (fun n => String.eqb (n_userId n) "A")
                                     (notifications (db (Examples.world_with 3))))))).
Proof.
  apply (clear_all_clears_the_client_only Cases.accepting None Examples.env0 Cases.client1
           (Examples.world_with 3)).
  - intros n Hin _. cbn in Hin.
    destruct Hin as [<-|[<-|[<-|[]]]]; discriminate.
  - reflexivity.
  - reflexivity.
Defined.

(** bob's vote on alice's poll is announced to her provider. *)
Lemma push_shows_in_the_list_witness :
  exists c' entry,
    handle_next Cases.accepting None
      (receive (skipn (length (trace Examples.world1))
                      (trace (snd (createNotification "vote" no_data "A" Examples.env0
                                     Examples.world1))))
               Cases.client1)
      Examples.env0
      (snd (createNotification "vote" no_data "A" Examples.env0 Examples.world1))
    = Some (c', snd (createNotification "vote" no_data "A" Examples.env0 Examples.world1)) /\
    Frontend.notifications (client_state c') = [entry] /\
    Frontend.n_id entry = "id0" /\ Frontend.n_isRead entry = false.
Proof.
  destruct (push_shows_in_the_list Cases.accepting None Examples.env0 Cases.client1
              Examples.world1 "vote" no_data)
    as (c' & entry & Hnext & _ & _ & Hlist & _ & Hid & _ & _ & _ & Hread).
  - reflexivity.
  - discriminate.
  - apply (alice_in_her_room 0).
  - reflexivity.
  - exists c', entry. split; [exact Hnext|]. split; [exact Hlist|].
    split; [exact Hid | exact Hread].
Defined.

(** bob votes on alice's poll, which alice looks at on socket s1. *)
Lemma poll_update_arrives_twice_witness :
  let w := with_sockets (registry_after Examples.events1) Examples.world1 in
  let w' := snd (post_vote Examples.bob "p1" (Some "o1") Examples.env0 w) in
  List.filter (fun m => String.eqb (fst m) "pollUpdate")
              (delivered "s1" (skipn (length (trace w)) (trace w')))
  = [("pollUpdate", PPoll (count_vote "o1" Examples.poll1));
     ("pollUpdate", PPoll (count_vote "o1" Examples.poll1))].
Proof.
  apply (poll_update_arrives_twice Examples.env0
           (with_sockets (registry_after Examples.events1) Examples.world1)
           Examples.bob "p1" (Some "o1") Examples.poll1
           {| opt_id := "o1"; opt_text := "tea"; opt_votes := 0 |} "s1");
    reflexivity.
Defined.

End ProviderExamples.

(** ** The properties above on concrete inputs *)

Section MoreExamples.

Import Backend Routes.

(** alice marks her three notifications read: the answer counts three. *)
Lemma mark_all_read_leaves_none_unread_witness :
  let w := Examples.world_with 3 in
  let w' := snd (patch_mark_all_read Cases.accepting Examples.alice Examples.env0 w) in
  trace w' =
    (trace w ++ [Emit (Some "user_A") "allNotificationsRead" PNone
                      (members "user_A" (sockets w));
                 Respond 200 "All notifications marked as read" (PCount 3)])%list /\
  Forall2 (fun before after =>
             if String.eqb (n_userId before) "A"
             then after = set_isRead true before
             else after = before)
          (notifications (db w)) (notifications (db w')).
Proof.
  destruct (mark_all_read_leaves_none_unread Examples.env0 Cases.accepting
              (Examples.world_with 3) Examples.alice eq_refl) as (Ht & H & _).
  split; [exact Ht | exact H].
Defined.

(** alice deletes the second of her three notifications. *)
Lemma delete_removes_own_one_witness :
  let w := Examples.world_with 3 in
  let w' := snd (delete_notification Cases.accepting Examples.alice "n1" Examples.env0 w) in
  exists n, n_id n = "n1" /\ n_userId n = "A" /\
            Permutation (n :: notifications (db w')) (notifications (db w)) /\
            answers (trace w') =
              (answers (trace w) ++ [(200, "Notification deleted successfully")])%list.
Proof.
  destruct (delete_removes_own_one Examples.env0 Cases.accepting
              (Examples.world_with 3) Examples.alice "n1" eq_refl) as (H & _).
  apply H. exists (Examples.notification_of 1). cbn. tauto.
Defined.

(** bob asks for alice's draft, and for a poll that is not there. *)
Lemma draft_is_hidden_witness :
  let verify := fun _ : string => Some (Some "B") in
  let w' := snd (get_poll verify (Some "Bearer t") "p3" Examples.env0 Cases.world_draft) in
  let w0' := snd (get_poll verify (Some "Bearer t") "p3" Examples.env0 Examples.world1) in
  db w' = db Cases.world_draft /\
  trace w' = (trace Cases.world_draft ++ [Respond 404 "Poll not found" PNone])%list /\
  trace w0' = (trace Examples.world1 ++ [Respond 404 "Poll not found" PNone])%list.
Proof.
  apply (draft_is_hidden Examples.env0 (fun _ => Some (Some "B")) (Some "Bearer t") "p3"
           Cases.world_draft Examples.world1 Cases.draft_poll).
  - reflexivity.
  - reflexivity.
  - intros token _. discriminate.
  - reflexivity.
  - reflexivity.
  - reflexivity.
Defined.

(** Anyone reads alice's active poll. *)
Lemma read_repairs_comment_count_witness :
  let w' := snd (get_poll (fun _ => None) None "p1" Examples.env0 Examples.world1) in
  List.find (has_poll_id "p1") (polls (db w'))
  = Some (set_comments_count 1 Examples.poll1) /\
  trace w' = [Wrote PollSave "p1";
              Respond 200 EmptyString (PPoll (set_comments_count 1 Examples.poll1))].
Proof.
  destruct (read_repairs_comment_count Examples.env0 (fun _ => None) None "p1"
              Examples.world1 Examples.poll1) as (Htrace & Hfind & _).
  - reflexivity.
  - discriminate.
  - intros op k. reflexivity.
  - split; [exact Hfind | exact Htrace].
Defined.

(** bob votes for the first option of alice's poll, whose counts are
    zero. *)
Lemma vote_keeps_totals_witness :
  let w := Examples.world1 in
  let w' := snd (post_vote Examples.bob "p1" (Some "o1") Examples.env0 w) in
  Forall safe_counts (polls (db w)) /\
  Forall (fun p => total_votes p = option_votes p) (polls (db w')).
Proof.
  cbn zeta.
  assert (Hsafe : forall p,
             List.find (has_poll_id "p1") (polls (db Examples.world1)) = Some p ->
             safe_counts p).
  { intros p H. vm_compute in H. injection H as <-.
    split; [reflexivity | repeat constructor]. }
  split; [repeat constructor|].
  apply (proj1 (vote_keeps_totals Examples.env0 Examples.world1 Examples.bob "p1"
                  (Some "o1") Hsafe)).
  repeat constructor.
Defined.

(** bob votes while the store rejects the save of the poll, and again
    when it is in order. *)
Lemma vote_stored_but_not_counted_witness :
  let w1 := snd (post_vote Examples.bob "p1" (Some "o1") Cases.env_poll_save_fails
                   Examples.world1) in
  let w2 := snd (post_vote Examples.bob "p1" (Some "o1") Examples.env0 w1) in
  length (votes (db w1)) = 1%nat /\ polls (db w1) = [Examples.poll1] /\
  trace w2
  = (trace w1 ++ [Respond 400 "You have already voted on this poll" PNone])%list /\
  db w2 = db w1.
Proof.
  destruct (vote_stored_but_not_counted Cases.env_poll_save_fails Examples.env0
              Examples.world1 Examples.bob "p1" (Some "o1") Examples.poll1
              {| opt_id := "o1"; opt_text := "tea"; opt_votes := 0 |})
    as (_ & Hvotes & Hpolls & Htrace & Hdb); try reflexivity.
  split; [rewrite Hvotes; reflexivity|]. split; [exact Hpolls|].
  split; [exact Htrace | exact Hdb].
Defined.

(** bob likes alice's comment. *)
Lemma like_keeps_count_witness :
  Forall (fun c => List.NoDup (liked_by c) /\ likes c = Z.of_nat (length (liked_by c)))
         (comments (db (snd (post_comment_like Examples.bob "c1" Examples.env0
                               Examples.world1)))).
Proof.
  apply (like_keeps_count Examples.env0 Examples.world1 Examples.bob "c1").
  repeat constructor.
Defined.

(** bob likes alice's comment and takes the like back. *)
Lemma like_then_unlike_witness :
  let w1 := snd (post_comment_like Examples.bob "c1" Examples.env0 Examples.world1) in
  let w2 := snd (post_comment_like Examples.bob "c1" Examples.env0 w1) in
  answers (trace w1) = [(200, "Comment liked")] /\
  answers (trace w2) = [(200, "Comment liked"); (200, "Comment unliked")] /\
  comments (db w2) = [Examples.comment1].
Proof.
  destruct (like_then_unlike Examples.env0 Examples.env0 Examples.world1 Examples.bob "c1"
              Examples.comment1) as (H1 & _ & H2 & H3).
  - reflexivity.
  - reflexivity.
  - cbn. lia.
  - intros op k. reflexivity.
  - intros op k. reflexivity.
  - split; [exact H1|]. split; [rewrite H2, H1; reflexivity | exact H3].
Defined.

(** The job runs at time 1000 over alice's two polls, of which one ended
    at 500. *)
Lemma job_closes_expired_polls_witness :
  polls (db (snd (close_expired_polls Examples.env0 Examples.world_expiring)))
  = [Examples.poll1; closed_by_job Examples.expired_poll].
Proof.
  destruct (job_closes_expired_polls Examples.env0 Examples.world_expiring) as [_ Hall].
  - repeat constructor; cbn; intuition discriminate.
  - destruct (Hall (fun _ _ => eq_refl)) as [Hpolls _]. exact Hpolls.
Defined.

(** alice creates a poll whose first option arrives with forty votes. *)
Lemma created_poll_is_as_requested_witness :
  exists poll,
    In poll (polls (db (snd (post_polls Examples.alice Cases.body_with_votes Examples.env0
                               Examples.world1)))) /\
    total_votes poll = 0 /\ List.map opt_votes (options poll) = [40; 0].
Proof.
  destruct (created_poll_is_as_requested Examples.env0 Examples.world1 Examples.alice
              Cases.body_with_votes)
    as (poll & opts & Hopts & Hpolls & _ & _ & _ & _ & Htotal & Hvotes).
  - vm_compute. reflexivity.
  - exists poll. split; [rewrite Hpolls; apply in_or_app; right; left; reflexivity|].
    split; [exact Htotal|]. rewrite Hvotes. injection Hopts as <-. reflexivity.
Defined.

(** bob sends the same comment on alice's poll twice. *)
Lemma duplicate_comment_is_refused_witness :
  let w1 := snd (post_comments Examples.bob (Some "p1") (Some "hello") None Examples.env0
                   Examples.world1) in
  let w2 := snd (post_comments Examples.bob (Some "p1") (Some "hello") None Examples.env0
                   w1) in
  answers (trace w1) = [(201, EmptyString)] /\
  length (comments (db w1)) = 2%nat /\
  trace w2
  = (trace w1 ++ [Respond 429 "Duplicate comment detected. Please wait before posting again."
                          PNone])%list /\
  db w2 = db w1.
Proof.
  apply (duplicate_comment_is_refused Examples.env0 Examples.env0 Examples.world1
           Examples.bob (Some "p1") (Some "hello") None Examples.poll1).
  - reflexivity.
  - reflexivity.
  - vm_compute. discriminate.
  - reflexivity.
  - discriminate.
  - intros H. discriminate H.
  - reflexivity.
  - intros op k. reflexivity.
  - intros op k. reflexivity.
  - cbn. lia.
Defined.

End MoreExamples.
